(** * Smart-analytics backend: ingestion, statistics and AI gateway

    A shallow embedding of the data pipeline of the backend
    (utils/fileProcessor.js, utils/dataAnalyzer.js, utils/aiProviders.js,
    controllers/uploadController.js, controllers/aiController.js) and the
    properties of it that the specification states.

    Modelling conventions.
    - JavaScript numbers are extended exact rationals: [NaN], the two
      infinities and finite values in [Q].  Rounding and overflow of IEEE
      doubles are not part of the model: a statement about the value of a
      sum, a quotient or a difference carries the bound under which the
      doubles of the code are exact.
    - JavaScript strings are [string]; a character is one code unit below 256.
    - A plain JavaScript object used as a dictionary is an association list
      of its own properties, kept in property-enumeration order (module
      [Obj]).  A read [o[k]] in the code also finds the members that every
      object inherits from [Object.prototype]; their names are the list
      [Obj.inherited], and a statement about such a read is made for names
      outside this list.  [AiProviders.providers] and the key ['__proto__']
      in [DataAnalyzer.countValues] model what the code finds there.
    - An exception is a value of [Result]; [await] is sequencing.
    - Built-ins of the JavaScript runtime whose result is a matter of the
      implementation or of text rendering ([Date.parse] on a string, the
      decimal rendering of a number, the ISO rendering of an instant) are
      fields of the record [Runtime]. *)

From Stdlib Require Import Ascii String QArith Qround Lqa Sorted.
From stdpp Require Import base option list strings pretty gmap.

Set Default Proof Using "Type".
Open Scope string_scope.

(* ===================================================================== *)
(** * JavaScript values *)
(* ===================================================================== *)

Module JS.

(** ** Exceptions *)

Inductive Result (A : Type) : Type :=
| Ok (a : A)
| Throw (message : string).
Arguments Ok {A} a.
Arguments Throw {A} message.

Definition bindR {A B} (r : Result A) (k : A → Result B) : Result B :=
  match r with
  | Ok a => k a
  | Throw e => Throw e
  end.

Definition isOk {A} (r : Result A) : bool :=
  match r with Ok _ => true | Throw _ => false end.

(** ** Numbers *)

Inductive JsNumber : Type :=
| NaN
| PosInf
| NegInf
| Finite (q : Q).

Definition isNaN (x : JsNumber) : bool :=
  match x with NaN => true | _ => false end.

Definition isFinite (x : JsNumber) : bool :=
  match x with Finite _ => true | _ => false end.

Definition ofZ (z : Z) : JsNumber := Finite (inject_Z z).
Definition ofNat (n : nat) : JsNumber := ofZ (Z.of_nat n).

Definition jsNeg (x : JsNumber) : JsNumber :=
  match x with
  | NaN => NaN
  | PosInf => NegInf
  | NegInf => PosInf
  | Finite q => Finite (Qred (Qopp q))
  end.

(** [a + b] *)
Definition jsAdd (a b : JsNumber) : JsNumber :=
  match a, b with
  | NaN, _ | _, NaN => NaN
  | PosInf, NegInf | NegInf, PosInf => NaN
  | PosInf, _ | _, PosInf => PosInf
  | NegInf, _ | _, NegInf => NegInf
  | Finite p, Finite q => Finite (Qred (Qplus p q))
  end.

(** [a - b] *)
Definition jsSub (a b : JsNumber) : JsNumber := jsAdd a (jsNeg b).

Definition signOf (q : Q) : comparison := Qcompare q 0.

(** [a / b] *)
Definition jsDiv (a b : JsNumber) : JsNumber :=
  match a, b with
  | NaN, _ | _, NaN => NaN
  | (PosInf | NegInf), (PosInf | NegInf) => NaN
  | PosInf, Finite q => match signOf q with Lt => NegInf | _ => PosInf end
  | NegInf, Finite q => match signOf q with Lt => PosInf | _ => NegInf end
  | Finite _, (PosInf | NegInf) => Finite 0
  | Finite p, Finite q =>
      match signOf q with
      | Eq => match signOf p with Eq => NaN | Lt => NegInf | Gt => PosInf end
      | _ => Finite (Qred (Qdiv p q))
      end
  end.

(** [a * b], for a finite [b] *)
Definition jsMulQ (a : JsNumber) (b : Q) : JsNumber :=
  match a with
  | NaN => NaN
  | PosInf => match signOf b with Eq => NaN | Lt => NegInf | Gt => PosInf end
  | NegInf => match signOf b with Eq => NaN | Lt => PosInf | Gt => NegInf end
  | Finite p => Finite (Qred (Qmult p b))
  end.

(** [a < b]: false as soon as one side is [NaN] *)
Definition jsLt (a b : JsNumber) : bool :=
  match a, b with
  | NaN, _ | _, NaN => false
  | _, NegInf => false
  | PosInf, _ => false
  | NegInf, _ => true
  | _, PosInf => true
  | Finite p, Finite q => match Qcompare p q with Lt => true | _ => false end
  end.

(** [a <= b] *)
Definition jsLe (a b : JsNumber) : bool :=
  match a, b with
  | NaN, _ | _, NaN => false
  | NegInf, _ => true
  | _, PosInf => true
  | _, NegInf => false
  | PosInf, _ => false
  | Finite p, Finite q => match Qcompare p q with Gt => false | _ => true end
  end.

(** ** Values held by a cell of a row *)

Inductive JsValue : Type :=
| VUndefined
| VNull
| VBool (b : bool)
| VNum (q : Q)
| VStr (s : string).

(** ** Strings *)

Definition code (c : ascii) : nat := nat_of_ascii c.

Definition isDigit (c : ascii) : bool :=
  (48 <=? code c)%nat && (code c <=? 57)%nat.

Definition digitVal (c : ascii) : Z := Z.of_nat (code c - 48).

(** WhiteSpace and LineTerminator code units below 256 *)
Definition isWhite (c : ascii) : bool :=
  let n := code c in
  ((9 <=? n)%nat && (n <=? 13)%nat) || (n =? 32)%nat || (n =? 160)%nat.

Fixpoint trimStart (s : string) : string :=
  match s with
  | String c r => if isWhite c then trimStart r else s
  | EmptyString => EmptyString
  end.

Fixpoint revOnto (s acc : string) : string :=
  match s with
  | String c r => revOnto r (String c acc)
  | EmptyString => acc
  end.

Definition strRev (s : string) : string := revOnto s EmptyString.

Definition trimEnd (s : string) : string := strRev (trimStart (strRev s)).

(** [s.trim()] *)
Definition trim (s : string) : string := trimEnd (trimStart s).

Definition lowerChar (c : ascii) : ascii :=
  let n := code c in
  if ((65 <=? n)%nat && (n <=? 90)%nat)
     || ((192 <=? n)%nat && (n <=? 222)%nat && negb (n =? 215)%nat)
  then ascii_of_nat (n + 32) else c.

(** [s.toLowerCase()] *)
Fixpoint toLowerCase (s : string) : string :=
  match s with
  | String c r => String (lowerChar c) (toLowerCase r)
  | EmptyString => EmptyString
  end.

Definition strEq (a b : string) : bool := String.eqb a b.

(** [s.substring(0, n)] *)
Fixpoint substring0 (n : nat) (s : string) : string :=
  match n, s with
  | S n', String c r => String c (substring0 n' r)
  | _, _ => EmptyString
  end.

(** [c.repeat(n)] for a one-character string *)
Fixpoint repeatChar (c : ascii) (n : nat) : string :=
  match n with
  | O => EmptyString
  | S n' => String c (repeatChar c n')
  end.

(** [parts.join(sep)] *)
Fixpoint join (sep : string) (parts : list string) : string :=
  match parts with
  | [] => EmptyString
  | [p] => p
  | p :: rest => p ++ sep ++ join sep rest
  end.

(** The segment after the last ["."], the whole string when it has none:
    [s.split('.').pop()] *)
Fixpoint lastSegment (acc s : string) : string :=
  match s with
  | String c r =>
      if Ascii.eqb c "."%char then lastSegment EmptyString r
      else lastSegment (acc ++ String c EmptyString) r
  | EmptyString => acc
  end.

(** ** Numeric literals *)

Fixpoint spanDigits (s : string) : string * string :=
  match s with
  | String c r =>
      if isDigit c then let '(d, rest) := spanDigits r in (String c d, rest)
      else (EmptyString, s)
  | EmptyString => (EmptyString, EmptyString)
  end.

Fixpoint digitsValue (acc : Z) (s : string) : Z :=
  match s with
  | String c r => digitsValue (10 * acc + digitVal c) r
  | EmptyString => acc
  end.

(** ExponentPart, when one is there: its value and what follows it *)
Definition parseExponent (s : string) : Z * string :=
  match s with
  | String c r =>
      if Ascii.eqb c "e"%char || Ascii.eqb c "E"%char then
        let '(sgn, r') :=
          match r with
          | String "+"%char t => (1%Z, t)
          | String "-"%char t => ((-1)%Z, t)
          | _ => (1%Z, r)
          end in
        let '(ds, rest) := spanDigits r' in
        match ds with
        | EmptyString => (0%Z, s)
        | _ => ((sgn * digitsValue 0 ds)%Z, rest)
        end
      else (0%Z, s)
  | EmptyString => (0%Z, s)
  end.

Definition decimalValue (ip fp : string) (e : Z) : Q :=
  Qred (Qmult (inject_Z (digitsValue 0 (ip ++ fp)))
              (Qpower (10 # 1) (e - Z.of_nat (String.length fp)))).

(** Longest prefix that is a StrUnsignedDecimalLiteral other than
    [Infinity], with its value *)
Definition parseUnsignedDecimal (s : string) : option (Q * string) :=
  let '(ip, r1) := spanDigits s in
  let '(fp, r2, dotOk) :=
    match r1 with
    | String "."%char t =>
        let '(fp, r2) := spanDigits t in
        match ip, fp with
        | EmptyString, EmptyString => (EmptyString, r1, false)
        | _, _ => (fp, r2, true)
        end
    | _ => (EmptyString, r1, false)
    end in
  match ip, dotOk with
  | EmptyString, false => None
  | _, _ =>
      let '(e, r3) := parseExponent r2 in
      Some (decimalValue ip fp e, r3)
  end.

Fixpoint stripPrefix (p s : string) : option string :=
  match p, s with
  | EmptyString, _ => Some s
  | String a p', String b s' => if Ascii.eqb a b then stripPrefix p' s' else None
  | _, _ => None
  end.

(** Longest prefix that is a StrDecimalLiteral (sign included) *)
Definition parseDecimalPrefix (s : string) : option (JsNumber * string) :=
  let '(negative, body) :=
    match s with
    | String "+"%char t => (false, t)
    | String "-"%char t => (true, t)
    | _ => (false, s)
    end in
  match stripPrefix "Infinity" body with
  | Some rest => Some (if negative then NegInf else PosInf, rest)
  | None =>
      match parseUnsignedDecimal body with
      | Some (q, rest) =>
          Some (if negative then jsNeg (Finite q) else Finite q, rest)
      | None => None
      end
  end.

(** [parseFloat(s)] on a string *)
Definition parseFloatString (s : string) : JsNumber :=
  match parseDecimalPrefix (trimStart s) with
  | Some (x, _) => x
  | None => NaN
  end.

Definition radixDigit (radix : Z) (c : ascii) : option Z :=
  let n := code c in
  let v :=
    if isDigit c then Some (digitVal c)
    else if (97 <=? n)%nat && (n <=? 102)%nat then Some (Z.of_nat (n - 87))
    else if (65 <=? n)%nat && (n <=? 70)%nat then Some (Z.of_nat (n - 55))
    else None in
  match v with
  | Some d => if (d <? radix)%Z then Some d else None
  | None => None
  end.

Fixpoint radixValue (radix acc : Z) (s : string) : option Z :=
  match s with
  | String c r =>
      match radixDigit radix c with
      | Some d => radixValue radix (radix * acc + d) r
      | None => None
      end
  | EmptyString => Some acc
  end.

Definition radixLiteral (radix : Z) (digits : string) : JsNumber :=
  match digits with
  | EmptyString => NaN
  | _ => match radixValue radix 0 digits with
         | Some z => ofZ z
         | None => NaN
         end
  end.

(** [Number(s)] on a string (StringToNumber) *)
Definition stringToNumber (s : string) : JsNumber :=
  let t := trim s in
  match t with
  | EmptyString => Finite 0
  | String "0"%char (String x digits) =>
      if Ascii.eqb x "x"%char || Ascii.eqb x "X"%char then radixLiteral 16 digits
      else if Ascii.eqb x "o"%char || Ascii.eqb x "O"%char then radixLiteral 8 digits
      else if Ascii.eqb x "b"%char || Ascii.eqb x "B"%char then radixLiteral 2 digits
      else match parseDecimalPrefix t with
           | Some (v, EmptyString) => v
           | _ => NaN
           end
  | _ => match parseDecimalPrefix t with
         | Some (v, EmptyString) => v
         | _ => NaN
         end
  end.

(** [Number(v)] *)
Definition Number (v : JsValue) : JsNumber :=
  match v with
  | VUndefined => NaN
  | VNull => Finite 0
  | VBool b => if b then Finite 1 else Finite 0
  | VNum q => Finite q
  | VStr s => stringToNumber s
  end.

(** [parseFloat(v)]: the argument is first turned into a string; a number
    prints to a literal that reads back as itself, and nothing in
    ["true"], ["false"], ["null"] or ["undefined"] starts a literal. *)
Definition parseFloat (v : JsValue) : JsNumber :=
  match v with
  | VNum q => Finite q
  | VStr s => parseFloatString s
  | _ => NaN
  end.

(** Truthiness of a value: [!!v] *)
Definition truthy (v : JsValue) : bool :=
  match v with
  | VUndefined | VNull => false
  | VBool b => b
  | VNum q => negb (Qeq_bool q 0)
  | VStr s => negb (strEq s "")
  end.

(** [!!s] for a string *)
Definition nonEmpty (s : string) : bool := negb (strEq s "").

(** What the runtime decides. *)
Record Runtime : Type := {
  (** [Date.parse(s)]: epoch milliseconds, [None] for an invalid date *)
  Date_parse : string → option Z;
  (** [String(x)] for a finite number *)
  Number_toString : Q → string;
  (** [new Date(t).toISOString()] for a valid instant *)
  Date_toISOString : Z → string
}.

(** [String(v)] *)
Definition toString (rt : Runtime) (v : JsValue) : string :=
  match v with
  | VUndefined => "undefined"
  | VNull => "null"
  | VBool b => if b then "true" else "false"
  | VNum q => Number_toString rt q
  | VStr s => s
  end.

Definition maxTime : Z := 8640000000000000.

(** [new Date(v).getTime()]: [None] when the date is invalid *)
Definition newDate (rt : Runtime) (v : JsValue) : option Z :=
  let clip (q : Q) :=
    if Qle_bool (inject_Z (- maxTime)) q && Qle_bool q (inject_Z maxTime)
    then Some (Z.quot (Qnum q) (Zpos (Qden q))) else None in
  match v with
  | VUndefined => None
  | VNull => Some 0%Z
  | VBool b => Some (if b then 1%Z else 0%Z)
  | VNum q => clip q
  | VStr s => Date_parse rt s
  end.

End JS.


(* ===================================================================== *)
(** * Plain objects used as dictionaries *)
(* ===================================================================== *)

(** An object is the list of its own properties in the order in which
    [Object.keys] and [Object.entries] enumerate them: array-index keys
    first, by increasing index, then the other keys by creation. *)
Module Obj.

Definition t (V : Type) : Type := list (string * V).

Section Ops.
Context {V : Type}.

(** [o[k]], [None] for [undefined] *)
Fixpoint get (k : string) (o : t V) : option V :=
  match o with
  | [] => None
  | (k', v) :: r => if JS.strEq k k' then Some v else get k r
  end.

Definition has (k : string) (o : t V) : bool :=
  match get k o with Some _ => true | None => false end.

(** The index a key denotes when it is a canonical array index. *)
Definition arrayIndex (k : string) : option Z :=
  match k with
  | EmptyString => None
  | String c r =>
      let '(ds, rest) := JS.spanDigits k in
      if negb (JS.strEq rest "") then None
      else if Ascii.eqb c "0"%char && negb (JS.strEq r "") then None
      else
        let i := JS.digitsValue 0 ds in
        if (i <=? 4294967294)%Z then Some i else None
  end.

Fixpoint update (k : string) (v : V) (o : t V) : t V :=
  match o with
  | [] => []
  | (k', v') :: r =>
      if JS.strEq k k' then (k', v) :: r else (k', v') :: update k v r
  end.

Fixpoint insertIndex (i : Z) (k : string) (v : V) (o : t V) : t V :=
  match o with
  | [] => [(k, v)]
  | (k', v') :: r =>
      match arrayIndex k' with
      | Some j =>
          if (i <? j)%Z then (k, v) :: o else (k', v') :: insertIndex i k v r
      | None => (k, v) :: o
      end
  end.

(** [o[k] = v] *)
Definition set (k : string) (v : V) (o : t V) : t V :=
  if has k o then update k v o
  else match arrayIndex k with
       | Some i => insertIndex i k v o
       | None => (o ++ [(k, v)])%list
       end.

(** [Object.keys(o)] *)
Definition keys (o : t V) : list string := map fst o.

(** [Object.entries(o)] *)
Definition entries (o : t V) : list (string * V) := o.

End Ops.

(** The names that every plain object inherits from [Object.prototype].
    A read [o[k]] of one of them, in an object without a property of its
    own of that name, finds the inherited member: a function, and for
    [__proto__] the prototype itself.  [get] reads own properties only,
    so it agrees with [o[k]] for every other name. *)
Definition inherited : list string :=
  [ "constructor"; "__defineGetter__"; "__defineSetter__"; "hasOwnProperty";
    "__lookupGetter__"; "__lookupSetter__"; "isPrototypeOf";
    "propertyIsEnumerable"; "toString"; "valueOf"; "__proto__";
    "toLocaleString" ].

End Obj.

(* ===================================================================== *)
(** * utils/fileProcessor.js *)
(* ===================================================================== *)

Module FileProcessor.
Import JS.

(** A row of the table: column name to cell. *)
Definition Row : Type := Obj.t JsValue.

(** [row[columnName]] *)
Definition cell (row : Row) (columnName : string) : JsValue :=
  default VUndefined (Obj.get columnName row).

Inductive ColumnType : Type := TNumber | TDate | TBoolean | TString.

(** The string the code uses for a type. *)
Definition typeName (ty : ColumnType) : string :=
  match ty with
  | TNumber => "number"
  | TDate => "date"
  | TBoolean => "boolean"
  | TString => "string"
  end.

Record Column : Type := { name : string; type : ColumnType }.

Record ProcessedData : Type := {
  data : list Row;
  columns : list Column;
  rowCount : nat
}.

(** [value === null || value === undefined || value === ''] *)
Definition isBlank (value : JsValue) : bool :=
  match value with
  | VNull | VUndefined => true
  | VStr s => strEq s ""
  | _ => false
  end.

(** A date pattern: ["#"] stands for [\d], any other character for
    itself; the pattern is anchored at both ends. *)
Fixpoint matchesPattern (pat s : string) : bool :=
  match pat, s with
  | EmptyString, EmptyString => true
  | String p pat', String c s' =>
      (if Ascii.eqb p "#"%char then isDigit c else Ascii.eqb p c)
      && matchesPattern pat' s'
  | _, _ => false
  end.

Definition datePatterns : list string :=
  [ "####-##-##"; "##/##/####"; "##-##-####"; "####/##/##" ].

Definition isValidDate (rt : Runtime) (dateString : JsValue) : bool :=
  let matchesAny :=
    existsb (fun pattern => matchesPattern pattern (toString rt dateString))
            datePatterns in
  if negb matchesAny then false
  else match newDate rt dateString with Some _ => true | None => false end.

(** [typeof value === 'boolean' || value.toLowerCase() === 'true' ||
    value.toLowerCase() === 'false'].  A value that reaches this test is a
    boolean or a string: blanks were skipped and every number passed the
    numeric test before. *)
Definition isBooleanLike (value : JsValue) : bool :=
  match value with
  | VBool _ => true
  | VStr s => strEq (toLowerCase s) "true" || strEq (toLowerCase s) "false"
  | _ => false
  end.

Record Counts : Type := {
  numberCount : nat;
  dateCount : nat;
  booleanCount : nat
}.

(** One turn of the loop over the sample. *)
Definition countValue (rt : Runtime) (columnName : string)
    (c : Counts) (row : Row) : Counts :=
  let value := cell row columnName in
  if isBlank value then c
  else if negb (isNaN (Number value)) && negb (isNaN (parseFloat value)) then
    {| numberCount := S (numberCount c); dateCount := dateCount c;
       booleanCount := booleanCount c |}
  else if isValidDate rt value then
    {| numberCount := numberCount c; dateCount := S (dateCount c);
       booleanCount := booleanCount c |}
  else if isBooleanLike value then
    {| numberCount := numberCount c; dateCount := dateCount c;
       booleanCount := S (booleanCount c) |}
  else c.

Definition threshold : JsNumber := Finite (7 # 10).

Definition detectColumnType (rt : Runtime) (data : list Row)
    (columnName : string) : ColumnType :=
  if (length data =? 0)%nat then TString
  else
    let sampleSize := Nat.min 10 (length data) in
    let sample := take sampleSize data in
    let c := fold_left (countValue rt columnName) sample
               {| numberCount := 0; dateCount := 0; booleanCount := 0 |} in
    let totalValid :=
      sampleSize - (sampleSize - numberCount c - dateCount c - booleanCount c) in
    if jsLt threshold (jsDiv (ofNat (numberCount c)) (ofNat totalValid)) then TNumber
    else if jsLt threshold (jsDiv (ofNat (dateCount c)) (ofNat totalValid)) then TDate
    else if jsLt threshold (jsDiv (ofNat (booleanCount c)) (ofNat totalValid)) then TBoolean
    else TString.

(** [fileName.split('.').pop().toLowerCase()] *)
Definition getFileType (fileName : string) : string :=
  toLowerCase (lastSegment "" fileName).

(** ** The upload directory *)

(** A file on disk, as the two parsers read it: the rows that the CSV
    parser emits or the error that it raises (the handler of [processCSV]
    listens to the parser; an error of the file stream before it, on which
    nothing listens, is not among the outcomes), and the rows of the first
    sheet of the workbook or the error raised while reading it. *)
Record Blob : Type := {
  asCsv : Result (list Row);
  asWorkbook : Result (list Row)
}.

Record Disk : Type := {
  files : gmap string Blob;
  (** paths that [fs.unlinkSync] refuses to remove *)
  locked : string → bool
}.

Definition existsSync (d : Disk) (path : string) : bool :=
  match files d !! path with Some _ => true | None => false end.

(** The union of the keys of all rows, in first-seen order
    ([columns.add(key)] on a [Set]). *)
Definition addKeys (seen : list string) (row : Row) : list string :=
  fold_left
    (fun acc key => if existsb (strEq key) acc then acc else (acc ++ [key])%list)
    (Obj.keys row) seen.

Definition describe (rt : Runtime) (rows : list Row) (col : string) : Column :=
  {| name := col; type := detectColumnType rt rows col |}.

Definition processCSV (rt : Runtime) (d : Disk) (filePath : string)
    : Result ProcessedData :=
  match files d !! filePath with
  | None => Throw ("File does not exist: " ++ filePath)
  | Some blob =>
      match asCsv blob with
      | Throw e => Throw e
      | Ok results =>
          let columns := fold_left addKeys results [] in
          Ok {| data := results;
                columns := map (describe rt results) columns;
                rowCount := length results |}
      end
  end.

Definition processExcel (rt : Runtime) (d : Disk) (filePath : string)
    : Result ProcessedData :=
  let attempt :=
    match files d !! filePath with
    | None => Throw ("File does not exist: " ++ filePath)
    | Some blob =>
        match asWorkbook blob with
        | Throw e => Throw e
        | Ok [] => Throw "Excel file is empty or has no data"
        | Ok ((first :: _) as jsonData) =>
            Ok {| data := jsonData;
                  columns := map (describe rt jsonData) (Obj.keys first);
                  rowCount := length jsonData |}
        end
    end in
  match attempt with
  | Throw e => Throw ("Error processing Excel file: " ++ e)
  | ok => ok
  end.

(** [cleanupFile]: the file is unlinked when it is there; an unlink that
    fails is logged and nothing more. *)
Definition cleanupFile (d : Disk) (filePath : string) : Disk :=
  if existsSync d filePath then
    if locked d filePath then d
    else {| files := delete filePath (files d); locked := locked d |}
  else d.

End FileProcessor.


(* ===================================================================== *)
(** * utils/dataAnalyzer.js *)
(* ===================================================================== *)

Module DataAnalyzer.
Import JS.
Import FileProcessor (Row, cell, Column, ColumnType, TNumber, TDate,
                      TBoolean, TString, typeName, isBlank).

(** ** [Array.prototype.sort] with a comparator *)

Section Sort.
Context {A : Type} (compareFn : A → A → JsNumber).

(** [x] goes before the first element that the comparator puts after
    it, so equal elements keep their order: the sort is stable. *)
Fixpoint insertSorted (x : A) (l : list A) : list A :=
  match l with
  | [] => [x]
  | y :: r =>
      if jsLt (compareFn x y) (Finite 0) then x :: l
      else y :: insertSorted x r
  end.

Definition sort (l : list A) : list A :=
  fold_left (fun acc x => insertSorted x acc) l [].
End Sort.

(** [sorted[i]] in arithmetic: an index out of range reads [undefined],
    which is [NaN] in a sum. *)
Definition at_ (sorted : list JsNumber) (i : nat) : JsNumber :=
  nth i sorted NaN.

(** [Math.round(x)] *)
Definition mathRound (x : Q) : Z := Qfloor (Qplus x (1 # 2)).

Fixpoint padLeft (n : nat) (s : string) : string :=
  match n with
  | O => s
  | S n' => if (String.length s <? n)%nat then padLeft n' ("0" ++ s) else s
  end.

(** [x.toFixed(2)] *)
Definition toFixed2 (rt : Runtime) (x : JsNumber) : string :=
  match x with
  | NaN => "NaN"
  | PosInf => "Infinity"
  | NegInf => "-Infinity"
  | Finite q =>
      let a := if Qle_bool 0 q then q else Qopp q in
      if Qle_bool (inject_Z (10 ^ 21)) a then Number_toString rt q
      else
        let n := Qfloor (Qplus (Qmult a (100 # 1)) (1 # 2)) in
        (if Qle_bool 0 q then "" else "-")
        ++ pretty (n / 100)%Z ++ "." ++ padLeft 2 (pretty (n mod 100)%Z)
  end.

(** [String(x)] for a number *)
Definition numberToString (rt : Runtime) (x : JsNumber) : string :=
  match x with
  | NaN => "NaN"
  | PosInf => "Infinity"
  | NegInf => "-Infinity"
  | Finite q => Number_toString rt q
  end.

(** ** Statistics objects *)

Module Top.
(** An element of [topValues]. *)
Record t : Type := { value : string; count : nat; percentage : string }.
End Top.

(** The objects stored per column.  [earliest] and [latest] are ISO
    strings; [mostFrequent] is [None] for [null]. *)
Inductive StatEntry : Type :=
| NullOnly (nullCount : nat)
| Numeric (count nullCount : nat) (min max sum mean median : JsNumber)
| Categorical (uniqueValues totalCount nullCount : nat)
              (topValues : list Top.t) (mostFrequent : option string)
| DateRange (count nullCount : nat) (earliest latest : string) (span : Z).

(** Property reads; [None] is [undefined]. *)
Definition count (e : StatEntry) : option nat :=
  match e with
  | Numeric c _ _ _ _ _ _ | DateRange c _ _ _ _ => Some c
  | _ => None
  end.

Definition nullCount (e : StatEntry) : option nat :=
  match e with
  | NullOnly n | Numeric _ n _ _ _ _ _ | Categorical _ _ n _ _
  | DateRange _ n _ _ _ => Some n
  end.

Definition min (e : StatEntry) : option JsNumber :=
  match e with Numeric _ _ x _ _ _ _ => Some x | _ => None end.
Definition max (e : StatEntry) : option JsNumber :=
  match e with Numeric _ _ _ x _ _ _ => Some x | _ => None end.
Definition sum (e : StatEntry) : option JsNumber :=
  match e with Numeric _ _ _ _ x _ _ => Some x | _ => None end.
Definition mean (e : StatEntry) : option JsNumber :=
  match e with Numeric _ _ _ _ _ x _ => Some x | _ => None end.
Definition median (e : StatEntry) : option JsNumber :=
  match e with Numeric _ _ _ _ _ _ x => Some x | _ => None end.
Definition uniqueValues (e : StatEntry) : option nat :=
  match e with Categorical u _ _ _ _ => Some u | _ => None end.
Definition totalCount (e : StatEntry) : option nat :=
  match e with Categorical _ n _ _ _ => Some n | _ => None end.
Definition topValues (e : StatEntry) : option (list Top.t) :=
  match e with Categorical _ _ _ tv _ => Some tv | _ => None end.
(** [Some None] is the property holding [null]. *)
Definition mostFrequent (e : StatEntry) : option (option string) :=
  match e with Categorical _ _ _ _ m => Some m | _ => None end.
Definition earliest (e : StatEntry) : option string :=
  match e with DateRange _ _ x _ _ => Some x | _ => None end.
Definition latest (e : StatEntry) : option string :=
  match e with DateRange _ _ _ x _ => Some x | _ => None end.
Definition span (e : StatEntry) : option Z :=
  match e with DateRange _ _ _ _ x => Some x | _ => None end.

Record SummaryStats : Type := {
  rowCount : nat;
  columnCount : nat;
  columns : list Column;
  numericStats : Obj.t StatEntry;
  categoricalStats : Obj.t StatEntry;
  dateStats : Obj.t StatEntry
}.

(** The three properties of the statistics object that hold a mapping. *)
Inductive StatsField : Type := FNumeric | FCategorical | FDate.

(** [stats[key]] for a key that ends in ["Stats"]: the mapping of that
    name, [None] ([undefined]) when the object has no such property. *)
Definition fieldNamed (key : string) : option StatsField :=
  if strEq key "numericStats" then Some FNumeric
  else if strEq key "categoricalStats" then Some FCategorical
  else if strEq key "dateStats" then Some FDate
  else None.

(** [stats.<field>[name] = entry] *)
Definition record (f : StatsField) (name : string) (entry : StatEntry)
    (stats : SummaryStats) : SummaryStats :=
  match f with
  | FNumeric =>
      {| rowCount := rowCount stats; columnCount := columnCount stats;
         columns := columns stats;
         numericStats := Obj.set name entry (numericStats stats);
         categoricalStats := categoricalStats stats;
         dateStats := dateStats stats |}
  | FCategorical =>
      {| rowCount := rowCount stats; columnCount := columnCount stats;
         columns := columns stats;
         numericStats := numericStats stats;
         categoricalStats := Obj.set name entry (categoricalStats stats);
         dateStats := dateStats stats |}
  | FDate =>
      {| rowCount := rowCount stats; columnCount := columnCount stats;
         columns := columns stats;
         numericStats := numericStats stats;
         categoricalStats := categoricalStats stats;
         dateStats := Obj.set name entry (dateStats stats) |}
  end.

(** ** Per-type aggregates *)

(** [data.map(row => row[name]).filter(val => val !== null &&
    val !== undefined && val !== '')] *)
Definition presentValues (data : list Row) (name : string) : list JsValue :=
  filter (fun val => isBlank val = false) (map (fun row => cell row name) data).

(** [values.map(parseFloat-or-null).filter(val => val !== null)] *)
Definition numericValuesOf (values : list JsValue) : list JsNumber :=
  omap id
    (map (fun val => let num := parseFloat val in
                     if isNaN num then None else Some num) values).

Definition numericEntry (rows : nat) (numericValues : list JsNumber) : StatEntry :=
  let sorted := sort (fun a b => jsSub a b) numericValues in
  let total := fold_left (fun a b => jsAdd a b) numericValues (Finite 0) in
  Numeric
    (length numericValues)
    (rows - length numericValues)
    (at_ sorted 0)
    (at_ sorted (length sorted - 1))
    total
    (jsDiv total (ofNat (length numericValues)))
    (if (length sorted mod 2 =? 0)%nat
     then jsDiv (jsAdd (at_ sorted (length sorted / 2 - 1))
                       (at_ sorted (length sorted / 2)))
                (Finite 2)
     else at_ sorted (length sorted / 2)).

(** [valueCounts[key] = (valueCounts[key] || 0) + 1] over all values.
    [valueCounts] starts as [{}], a plain object.  For the key
    ['__proto__'] the read finds [Object.prototype] and the assignment of
    the text that [+ 1] makes of it is ignored: no property is made.  For
    a key that names a function of [Object.prototype] (see
    [Obj.inherited]) the read finds that function and the count becomes a
    text; the counts here are numbers, so that the mapping is the code's
    for values none of which has such a key. *)
Definition countValues (rt : Runtime) (values : list JsValue) : Obj.t nat :=
  fold_left
    (fun valueCounts val =>
       let key := trim (toString rt val) in
       if strEq key "__proto__" then valueCounts
       else Obj.set key (default 0 (Obj.get key valueCounts) + 1) valueCounts)
    values [].

Definition categoricalEntry (rt : Runtime) (rows : nat)
    (values : list JsValue) : StatEntry :=
  let valueCounts := countValues rt values in
  let sortedCounts :=
    sort (fun a b : string * nat => jsSub (ofNat (snd b)) (ofNat (snd a)))
         (Obj.entries valueCounts) in
  Categorical
    (length sortedCounts)
    (length values)
    (rows - length values)
    (map (fun '(value, count) =>
            {| Top.value := value;
               Top.count := count;
               Top.percentage :=
                 toFixed2 rt (jsMulQ (jsDiv (ofNat count) (ofNat (length values)))
                                     (100 # 1)) |})
         (take 5 sortedCounts))
    (match sortedCounts with
     | first :: _ => Some (fst first)
     | [] => None
     end).

(** [values.map(date-or-null).filter(val => val !== null)], as instants *)
Definition dateValuesOf (rt : Runtime) (values : list JsValue) : list Z :=
  omap id (map (fun val => newDate rt val) values).

Definition millisPerDay : Z := 1000 * 60 * 60 * 24.

Definition dateEntry (rt : Runtime) (rows : nat) (dateValues : list Z) : StatEntry :=
  let timestamps := dateValues in
  let sorted := sort (fun a b => jsSub (ofZ a) (ofZ b)) timestamps in
  let first := nth 0 sorted 0%Z in
  let last := nth (length sorted - 1) sorted 0%Z in
  DateRange
    (length dateValues)
    (rows - length dateValues)
    (Date_toISOString rt first)
    (Date_toISOString rt last)
    (mathRound (Qmake (last - first) (Z.to_pos millisPerDay))).

(** The body of [columns.forEach(column => ...)]. *)
Definition processColumn (rt : Runtime) (data : list Row)
    (stats : SummaryStats) (column : Column) : Result SummaryStats :=
  let name := FileProcessor.name column in
  let type := FileProcessor.type column in
  let values := presentValues data name in
  if (length values =? 0)%nat then
    match fieldNamed (typeName type ++ "Stats") with
    | Some f => Ok (record f name (NullOnly (length data)) stats)
    | None =>
        Throw ("Cannot set properties of undefined (setting '" ++ name ++ "')")
    end
  else
    match type with
    | TNumber =>
        let numericValues := numericValuesOf values in
        if (0 <? length numericValues)%nat
        then Ok (record FNumeric name (numericEntry (length data) numericValues) stats)
        else Ok stats
    | TString =>
        Ok (record FCategorical name (categoricalEntry rt (length data) values) stats)
    | TDate =>
        let dateValues := dateValuesOf rt values in
        if (0 <? length dateValues)%nat
        then Ok (record FDate name (dateEntry rt (length data) dateValues) stats)
        else Ok stats
    | TBoolean => Ok stats
    end.

Definition generateSummaryStats (rt : Runtime) (data : list Row)
    (columns : list Column) : Result SummaryStats :=
  if (length data =? 0)%nat then
    Ok {| rowCount := 0;
          columnCount := length columns;
          columns := [];
          numericStats := [];
          categoricalStats := [];
          dateStats := [] |}
  else
    let stats :=
      {| rowCount := length data;
         columnCount := length columns;
         columns := map (fun col => {| FileProcessor.name := FileProcessor.name col;
                                       FileProcessor.type := FileProcessor.type col |})
                        columns;
         numericStats := [];
         categoricalStats := [];
         dateStats := [] |} in
    fold_left
      (fun acc column => bindR acc (fun stats => processColumn rt data stats column))
      columns (Ok stats).

(** ** Rendering for the prompt *)

Definition nl : string := String (ascii_of_nat 10) EmptyString.

(** [`${x}`] for a property that may be [undefined] *)
Definition shown {A : Type} (f : A → string) (x : option A) : string :=
  match x with Some a => f a | None => "undefined" end.

Definition numericBlock (rt : Runtime) (acc : Result string)
    (entry : string * StatEntry) : Result string :=
  let '(col, stats) := entry in
  bindR acc (fun prompt =>
    match mean stats, median stats with
    | Some mean, Some median =>
        Ok (prompt ++ col ++ ":" ++ nl
            ++ "  Min: " ++ shown (numberToString rt) (min stats)
            ++ ", Max: " ++ shown (numberToString rt) (max stats)
            ++ ", Mean: " ++ toFixed2 rt mean
            ++ ", Median: " ++ toFixed2 rt median ++ nl
            ++ "  Count: " ++ shown pretty (count stats)
            ++ ", Missing: " ++ shown pretty (nullCount stats) ++ nl)
    | _, _ => Throw "Cannot read properties of undefined (reading 'toFixed')"
    end).

Definition topValueLine (prompt : string) (tv : Top.t) : string :=
  prompt ++ "    - " ++ String (ascii_of_nat 34) (Top.value tv)
  ++ String (ascii_of_nat 34) ": " ++ pretty (Top.count tv)
  ++ " (" ++ Top.percentage tv ++ "%)" ++ nl.

Definition categoricalBlock (prompt : string) (entry : string * StatEntry) : string :=
  let '(col, stats) := entry in
  let prompt := prompt ++ col ++ ":" ++ nl in
  let prompt := prompt ++ "  Unique Values: " ++ shown pretty (uniqueValues stats) ++ nl in
  let prompt :=
    match mostFrequent stats with
    | Some (Some m) =>
        if nonEmpty m
        then prompt ++ "  Most Frequent: " ++ String (ascii_of_nat 34) m
             ++ String (ascii_of_nat 34) nl
        else prompt
    | _ => prompt
    end in
  match topValues stats with
  | Some ((_ :: _) as tvs) =>
      fold_left topValueLine tvs (prompt ++ "  Top Values:" ++ nl)
  | _ => prompt
  end.

Definition dateBlock (prompt : string) (entry : string * StatEntry) : string :=
  let '(col, stats) := entry in
  prompt ++ col ++ ":" ++ nl
  ++ "  Earliest: " ++ shown id (earliest stats)
  ++ ", Latest: " ++ shown id (latest stats) ++ nl
  ++ "  Span: " ++ shown pretty (span stats) ++ " days" ++ nl.

Definition formatStatsForAI (rt : Runtime) (summaryStats : SummaryStats)
    : Result string :=
  let prompt := "Data Summary:" ++ nl in
  let prompt := prompt ++ "- Total Rows: " ++ pretty (rowCount summaryStats) ++ nl in
  let prompt := prompt ++ "- Total Columns: " ++ pretty (columnCount summaryStats)
                ++ nl ++ nl in
  let prompt := prompt ++ "Columns:" ++ nl in
  let prompt :=
    fold_left
      (fun prompt col =>
         prompt ++ "- " ++ FileProcessor.name col
         ++ " (" ++ typeName (FileProcessor.type col) ++ ")" ++ nl)
      (columns summaryStats) prompt in
  let afterNumeric :=
    if (0 <? length (Obj.keys (numericStats summaryStats)))%nat then
      fold_left (numericBlock rt) (Obj.entries (numericStats summaryStats))
                (Ok (prompt ++ nl ++ "Numeric Statistics:" ++ nl))
    else Ok prompt in
  bindR afterNumeric (fun prompt =>
    let prompt :=
      if (0 <? length (Obj.keys (categoricalStats summaryStats)))%nat then
        fold_left categoricalBlock (Obj.entries (categoricalStats summaryStats))
                  (prompt ++ nl ++ "Categorical Statistics:" ++ nl)
      else prompt in
    let prompt :=
      if (0 <? length (Obj.keys (dateStats summaryStats)))%nat then
        fold_left dateBlock (Obj.entries (dateStats summaryStats))
                  (prompt ++ nl ++ "Date Statistics:" ++ nl)
      else prompt in
    Ok prompt).

End DataAnalyzer.

(* ===================================================================== *)
(** * utils/aiProviders.js *)
(* ===================================================================== *)

Module AiProviders.
Import JS.

Inductive Provider : Type := HuggingFace | Gemini | OpenAI.

Definition providerName (p : Provider) : string :=
  match p with
  | HuggingFace => "huggingface"
  | Gemini => "gemini"
  | OpenAI => "openai"
  end.

(** [process.env] *)
Record Env : Type := {
  AI_PROVIDER : option string;
  HUGGINGFACE_API_KEY : option string;
  GEMINI_API_KEY : option string;
  OPENAI_API_KEY : option string;
  NODE_ENV : option string
}.

(** Truthiness of an environment variable. *)
Definition isSet (v : option string) : bool :=
  match v with Some s => nonEmpty s | None => false end.

Definition apiKey (env : Env) (p : Provider) : option string :=
  match p with
  | HuggingFace => HUGGINGFACE_API_KEY env
  | Gemini => GEMINI_API_KEY env
  | OpenAI => OPENAI_API_KEY env
  end.

Definition credentialed (env : Env) (p : Provider) : bool := isSet (apiKey env p).

(** What a call of [callHuggingFace], [callGemini] or [callOpenAI] with a
    prompt and a system prompt comes back with: the text, or the error
    it throws.  The services are outside the program. *)
Definition Network : Type := Provider → string → string → Result string.

(** Computations that call providers: the calls made so far are threaded
    through. *)
Definition Calls (A : Type) : Type := list Provider → A * list Provider.

Definition ret {A} (a : A) : Calls A := fun log => (a, log).

Definition bind {A B} (m : Calls A) (k : A → Calls B) : Calls B :=
  fun log => let '(a, log') := m log in k a log'.

Notation "'let*' x ':=' m 'in' k" := (bind m (fun x => k))
  (at level 10, x name, m at level 100, k at level 200, only parsing).

Definition run {A} (m : Calls A) : A * list Provider := m [].

(** [await callX(prompt, systemPrompt)] *)
Definition callProvider (net : Network) (p : Provider)
    (prompt systemPrompt : string) : Calls (Result string) :=
  fun log => (net p prompt systemPrompt, (log ++ [p])%list).

(** What [providers[aiProvider]] finds and the code then calls: one of the
    three functions of the object, or the function [Object], which the name
    ['constructor'] finds in [Object.prototype]. *)
Inductive Handler : Type :=
| Own (p : Provider)
| ObjectFunction.

(** [providers[aiProvider]], for a name in lower case.  [None] is a value
    that is falsy or cannot be called: of the names in lower case that the
    object inherits, ['__proto__'] finds [Object.prototype], a call of which
    throws inside the [try] and falls through like a name that finds
    nothing. *)
Definition providers (aiProvider : string) : option Handler :=
  if strEq aiProvider "huggingface" then Some (Own HuggingFace)
  else if strEq aiProvider "gemini" then Some (Own Gemini)
  else if strEq aiProvider "openai" then Some (Own OpenAI)
  else if strEq aiProvider "constructor" then Some ObjectFunction
  else None.

Definition fallbackOrder : list Provider := [HuggingFace; Gemini; OpenAI].

Definition allProvidersFailed : string :=
  "All configured AI providers failed. Please check your API keys and try again.".

Definition noProviderConfigured : string :=
  "No AI provider is configured. Please set at least one of: HUGGINGFACE_API_KEY, GEMINI_API_KEY, or OPENAI_API_KEY".

(** The first block: the requested provider.  [Some text] is a [return].
    [Object(prompt, systemPrompt)] gives the prompt back (as a String
    object), without any request. *)
Definition tryRequested (env : Env) (net : Network) (aiProvider : string)
    (prompt systemPrompt : string) : Calls (option string) :=
  match providers aiProvider with
  | Some (Own p) =>
      if negb (credentialed env p) then ret None
      else
        let* r := callProvider net p prompt systemPrompt in
        match r with
        | Ok text => ret (Some text)
        | Throw _ => ret None
        end
  | Some ObjectFunction => ret (Some prompt)
  | None => ret None
  end.

(** The loop over the fallback order. *)
Fixpoint tryFallback (env : Env) (net : Network) (aiProvider : string)
    (prompt systemPrompt : string) (order : list Provider)
    : Calls (option string) :=
  match order with
  | [] => ret None
  | provider :: rest =>
      if strEq (providerName provider) aiProvider
      then tryFallback env net aiProvider prompt systemPrompt rest
      else if credentialed env provider then
        let* r := callProvider net provider prompt systemPrompt in
        match r with
        | Ok text => ret (Some text)
        | Throw _ => tryFallback env net aiProvider prompt systemPrompt rest
        end
      else tryFallback env net aiProvider prompt systemPrompt rest
  end.

Definition requestedProvider (env : Env) : string :=
  toLowerCase (if isSet (AI_PROVIDER env)
               then default "" (AI_PROVIDER env) else "huggingface").

Definition hasAnyProvider (env : Env) : bool :=
  isSet (HUGGINGFACE_API_KEY env) || isSet (GEMINI_API_KEY env)
  || isSet (OPENAI_API_KEY env).

Definition generateAIInsights (env : Env) (net : Network)
    (prompt systemPrompt : string) : Calls (Result string) :=
  let aiProvider := requestedProvider env in
  let* first := tryRequested env net aiProvider prompt systemPrompt in
  match first with
  | Some text => ret (Ok text)
  | None =>
      let* second := tryFallback env net aiProvider prompt systemPrompt fallbackOrder in
      match second with
      | Some text => ret (Ok text)
      | None =>
          if hasAnyProvider env then ret (Throw allProvidersFailed)
          else ret (Throw noProviderConfigured)
      end
  end.

End AiProviders.

(* ===================================================================== *)
(** * models/FileData.js *)
(* ===================================================================== *)

Module FileData.
Import JS.

(** A stored document. *)
Record t : Type := {
  _id : string;
  userId : string;
  fileName : string;
  originalName : string;
  fileType : string;
  fileSize : nat;
  data : list FileProcessor.Row;
  columns : list FileProcessor.Column;
  rowCount : nat;
  isProcessed : bool
}.

(** The collection, as the controllers use it.  What the driver decides
    (the identifier of a new document, whether a save is rejected, how a
    query value is cast and matched) is given with it. *)
Record Collection : Type := {
  newId : list t → string;
  (** the error with which [save] rejects the document, if it does *)
  saveError : t → option string;
  (** [findOne({ _id, userId })] over the stored documents *)
  findOne : list t → JsValue → string → Result (option t)
}.

End FileData.

(* ===================================================================== *)
(** * controllers/uploadController.js *)
(* ===================================================================== *)

Module UploadController.
Import JS.
Import FileProcessor.

(** [req.file], as the upload middleware fills it in. *)
Record UploadedFile : Type := {
  originalname : string;
  filename : string;
  path : string;
  size : nat
}.

(** The request; [req.user] is set by the authentication middleware. *)
Record Request : Type := {
  file : option UploadedFile;
  user_id : string
}.

Record Response : Type := {
  status : nat;
  success : bool;
  message : string;
  error : option string;
  stored : option FileData.t
}.

(** What the handler acts on: the upload directory, the collection's
    documents, and the paths [cleanupFile] was called with. *)
Record World : Type := {
  disk : Disk;
  db : list FileData.t;
  cleanups : list string
}.

(** [await FileProcessor.cleanupFile(path)] *)
Definition cleanup (w : World) (filePath : string) : World :=
  {| disk := cleanupFile (disk w) filePath;
     db := db w;
     cleanups := (cleanups w ++ [filePath])%list |}.

Definition quote : string := String (ascii_of_nat 34) EmptyString.

(** The loop that checks [columnsCopy]: the first column whose [name] or
    [type] is falsy throws. *)
Fixpoint validateColumns (i : nat) (columnsCopy : list Column) : Result unit :=
  match columnsCopy with
  | [] => Ok tt
  | col :: rest =>
      if negb (nonEmpty (name col)) || negb (nonEmpty (typeName (type col))) then
        Throw ("Invalid column structure at index " ++ pretty i ++ ": {"
               ++ quote ++ "name" ++ quote ++ ":" ++ quote ++ name col ++ quote ++ ","
               ++ quote ++ "type" ++ quote ++ ":" ++ quote ++ typeName (type col)
               ++ quote ++ "}")
      else validateColumns (S i) rest
  end.

Definition respond (code : nat) (ok : bool) (msg : string) : Response :=
  {| status := code; success := ok; message := msg; error := None; stored := None |}.

(** The outer [catch]. *)
Definition onError (env : AiProviders.Env) (f : UploadedFile) (e : string)
    (w : World) : Response * World :=
  let w := if nonEmpty (path f) then cleanup w (path f) else w in
  ({| status := 500; success := false; message := "Error processing file";
      error := Some (match AiProviders.NODE_ENV env with
                     | Some mode => if strEq mode "development" then e
                                    else "Internal server error"
                     | None => "Internal server error"
                     end);
      stored := None |}, w).

(** The inner [try]: the parser chosen by the file type; [None] is the
    early return for a type that has no parser. *)
Definition processUpload (rt : Runtime) (d : Disk) (fileType filePath : string)
    : option (Result ProcessedData) :=
  if strEq fileType "csv" then Some (processCSV rt d filePath)
  else if existsb (strEq fileType) ["xlsx"; "xls"]
  then Some (processExcel rt d filePath)
  else None.

(** The handler.  [new FileData({...})] applies the setters of the
    schema: [fileName] and [originalName] are declared with [trim: true]
    and are stored trimmed. *)
Definition uploadFile (rt : Runtime) (env : AiProviders.Env)
    (coll : FileData.Collection) (req : Request) (w : World) : Response * World :=
  match file req with
  | None => (respond 400 false "No file uploaded", w)
  | Some f =>
      let userId := user_id req in
      let filePath := path f in
      let fileName := filename f in
      let originalName := originalname f in
      let fileSize := size f in
      let fileType := getFileType originalName in
      match processUpload rt (disk w) fileType filePath with
      | None => (respond 400 false "Unsupported file type", w)
      | Some (Throw processError) =>
          (respond 500 false ("Error processing file: " ++ processError), w)
      | Some (Ok processedData) =>
          let columnsCopy := columns processedData in
          match validateColumns 0 columnsCopy with
          | Throw e => onError env f e w
          | Ok _ =>
              let fileData :=
                {| FileData._id := FileData.newId coll (db w);
                   FileData.userId := userId;
                   FileData.fileName := trim fileName;
                   FileData.originalName := trim originalName;
                   FileData.fileType := fileType;
                   FileData.fileSize := fileSize;
                   FileData.data := data processedData;
                   FileData.columns := columnsCopy;
                   FileData.rowCount := rowCount processedData;
                   FileData.isProcessed := true |} in
              match FileData.saveError coll fileData with
              | Some e => onError env f e w
              | None =>
                  let w := {| disk := disk w;
                              db := (db w ++ [fileData])%list;
                              cleanups := cleanups w |} in
                  let w := cleanup w filePath in
                  ({| status := 201; success := true;
                      message := "File uploaded and processed successfully";
                      error := None; stored := Some fileData |}, w)
              end
          end
      end
  end.

End UploadController.

(* ===================================================================== *)
(** * controllers/aiController.js *)
(* ===================================================================== *)

Module AiController.
Import JS.
Import AiProviders.

(** [req.body] and the authenticated user of a chat request. *)
Record Request : Type := {
  fileId : JsValue;
  question : JsValue;
  user_id : string
}.

Record Response : Type := {
  status : nat;
  success : bool;
  (** [message] of a failure *)
  message : option string;
  (** [data.answer] of a success *)
  answer : option string
}.

Definition failure (code : nat) (msg : string) : Response :=
  {| status := code; success := false; message := Some msg; answer := None |}.

(** [!question || !question.trim()]; a truthy value that is not a string
    has no [trim] and the call throws. *)
Definition questionMissing (question : JsValue) : Result bool :=
  if negb (truthy question) then Ok true
  else match question with
       | VStr s => Ok (negb (nonEmpty (trim s)))
       | _ => Throw "question.trim is not a function"
       end.

(** [question.trim()] once the check above has passed. *)
Definition trimmed (question : JsValue) : string :=
  match question with VStr s => trim s | _ => "" end.

Definition nl : string := DataAnalyzer.nl.

(** The preview of the first rows. *)
Definition sampleData (rt : Runtime) (fileData : FileData.t) : string :=
  let data := FileData.data fileData in
  if (0 <? length data)%nat then
    let sampleRows := take 20 data in
    let headers := join " | " (map FileProcessor.name (FileData.columns fileData)) in
    let text := nl ++ nl ++ "Sample Data (first " ++ pretty (length sampleRows)
                ++ " rows):" ++ nl in
    let text := text ++ headers ++ nl in
    let text := text ++ repeatChar "-"%char (Nat.min (String.length headers) 100) ++ nl in
    let text :=
      fold_left
        (fun text row =>
           let values :=
             join " | "
               (map (fun col =>
                       let val := FileProcessor.cell row (FileProcessor.name col) in
                       match val with
                       | VNull | VUndefined => "N/A"
                       | _ => substring0 30 (toString rt val)
                       end)
                    (FileData.columns fileData)) in
           text ++ values ++ nl)
        sampleRows text in
    if (20 <? length data)%nat
    then text ++ nl ++ "... and " ++ pretty (length data - 20) ++ " more rows"
    else text
  else "".

Definition chatPrompt (statsText sampleDataText question : string) : string :=
  "You are a data analyst assistant. Based on the following data summary and sample data, answer the user's question accurately and helpfully."
  ++ nl ++ nl ++ "Data Summary:" ++ nl ++ statsText ++ sampleDataText
  ++ nl ++ nl ++ "User Question: " ++ question ++ nl ++ nl
  ++ "Please analyze the data and provide a clear, concise answer to the question. If the question asks about specific values (like revenue for a particular year), analyze the sample data provided. If the question cannot be answered from the provided data, please explain what information is available and what might be needed to answer the question.".

Definition chatSystemPrompt : string :=
  "You are a helpful data analyst assistant. Answer questions about data clearly and accurately based on the provided data summary, Try to answer the question in a way that is easy to understand and follow and in a single sentence.".

Definition noProviderMessage : string :=
  "No AI provider is configured. Please set at least one of: HUGGINGFACE_API_KEY, GEMINI_API_KEY, or OPENAI_API_KEY in your environment variables.".

(** The outer [catch] of [chat]. *)
Definition chatError : Response := failure 500 "Error processing chat request".

Definition chat (rt : Runtime) (env : Env) (net : Network)
    (coll : FileData.Collection) (db : list FileData.t) (req : Request)
    : Calls Response :=
  if negb (truthy (fileId req)) then ret (failure 400 "File ID is required")
  else
    match questionMissing (question req) with
    | Throw _ => ret chatError
    | Ok true => ret (failure 400 "Question is required")
    | Ok false =>
        if negb (hasAnyProvider env) then ret (failure 500 noProviderMessage)
        else
          match FileData.findOne coll db (fileId req) (user_id req) with
          | Throw _ => ret chatError
          | Ok None => ret (failure 404 "File not found")
          | Ok (Some fileData) =>
              match DataAnalyzer.generateSummaryStats rt (FileData.data fileData)
                      (FileData.columns fileData) with
              | Throw _ => ret chatError
              | Ok summaryStats =>
                  match DataAnalyzer.formatStatsForAI rt summaryStats with
                  | Throw _ => ret chatError
                  | Ok statsText =>
                      let sampleDataText := sampleData rt fileData in
                      let prompt :=
                        chatPrompt statsText sampleDataText (trimmed (question req)) in
                      let* aiResponse :=
                        generateAIInsights env net prompt chatSystemPrompt in
                      match aiResponse with
                      | Throw aiError =>
                          ret (failure 500 ("Error calling AI API: " ++ aiError))
                      | Ok text =>
                          ret {| status := 200; success := true;
                                 message := None; answer := Some text |}
                      end
                  end
              end
          end
    end.

End AiController.


(* ===================================================================== *)
(** * controllers/aiController.js: the other two handlers *)
(* ===================================================================== *)

Module AiEndpoints.
Import JS.
Import AiProviders.

Definition nl : string := DataAnalyzer.nl.

Module Insights.
(** [data] of the answer of [generateInsights]; [generatedAt], the time
    of the answer, is left out. *)
Record t : Type := {
  fileId : string;
  fileName : string;
  insights : string;
  rowCount : nat;
  columnCount : nat;
  columns : list FileProcessor.Column
}.
End Insights.

Module Summary.
(** [data] of the answer of [getSummaryStats]. *)
Record t : Type := {
  fileId : string;
  fileName : string;
  summaryStats : DataAnalyzer.SummaryStats
}.
End Summary.

Record Response (A : Type) : Type := {
  status : nat;
  success : bool;
  (** [message] of a failure *)
  message : option string;
  (** [data] of a success *)
  data : option A
}.

Arguments status {A} _.
Arguments success {A} _.
Arguments message {A} _.
Arguments data {A} _.

Definition failure {A : Type} (code : nat) (msg : string) : Response A :=
  {| status := code; success := false; message := Some msg; data := None |}.

Definition succeeded {A : Type} (a : A) : Response A :=
  {| status := 200; success := true; message := None; data := Some a |}.

Definition insightsPrompt (statsText : string) : string :=
  "Analyze the following data summary and provide key insights, patterns, and trends."
  ++ nl ++ nl ++ statsText ++ nl ++ nl
  ++ "Please provide:" ++ nl
  ++ "1. Key insights and observations about the data" ++ nl
  ++ "2. Notable patterns or trends you've identified" ++ nl
  ++ "3. Potential outliers or anomalies" ++ nl
  ++ "4. Recommendations for further analysis" ++ nl ++ nl
  ++ "Format your response in a clear, concise manner with bullet points where appropriate.".

Definition insightsSystemPrompt : string :=
  "You are a helpful data analyst assistant. Provide clear, actionable insights from data summaries.".

(** The outer [catch] of [generateInsights]. *)
Definition insightsError : Response Insights.t :=
  failure 500 "Error generating insights".

Definition generateInsights (rt : Runtime) (env : Env) (net : Network)
    (coll : FileData.Collection) (db : list FileData.t) (req : AiController.Request)
    : Calls (Response Insights.t) :=
  if negb (truthy (AiController.fileId req)) then ret (failure 400 "File ID is required")
  else if negb (hasAnyProvider env)
  then ret (failure 500 AiController.noProviderMessage)
  else
    match FileData.findOne coll db (AiController.fileId req) (AiController.user_id req) with
    | Throw _ => ret insightsError
    | Ok None => ret (failure 404 "File not found")
    | Ok (Some fileData) =>
        match DataAnalyzer.generateSummaryStats rt (FileData.data fileData)
                (FileData.columns fileData) with
        | Throw _ => ret insightsError
        | Ok summaryStats =>
            match DataAnalyzer.formatStatsForAI rt summaryStats with
            | Throw _ => ret insightsError
            | Ok statsText =>
                let prompt := insightsPrompt statsText in
                let systemPrompt := insightsSystemPrompt in
                let* aiResponse := generateAIInsights env net prompt systemPrompt in
                match aiResponse with
                | Throw aiError =>
                    ret (failure 500 ("Error calling AI API: " ++ aiError))
                | Ok text =>
                    ret (succeeded
                           {| Insights.fileId := FileData._id fileData;
                              Insights.fileName := FileData.originalName fileData;
                              Insights.insights := text;
                              Insights.rowCount := DataAnalyzer.rowCount summaryStats;
                              Insights.columnCount :=
                                DataAnalyzer.columnCount summaryStats;
                              Insights.columns := DataAnalyzer.columns summaryStats |})
                end
            end
        end
    end.

(** The outer [catch] of [getSummaryStats]. *)
Definition summaryError : Response Summary.t :=
  failure 500 "Error generating summary statistics".

Definition getSummaryStats (rt : Runtime) (coll : FileData.Collection)
    (db : list FileData.t) (req : AiController.Request) : Response Summary.t :=
  if negb (truthy (AiController.fileId req)) then failure 400 "File ID is required"
  else
    match FileData.findOne coll db (AiController.fileId req) (AiController.user_id req) with
    | Throw _ => summaryError
    | Ok None => failure 404 "File not found"
    | Ok (Some fileData) =>
        match DataAnalyzer.generateSummaryStats rt (FileData.data fileData)
                (FileData.columns fileData) with
        | Throw _ => summaryError
        | Ok summaryStats =>
            succeeded {| Summary.fileId := FileData._id fileData;
                         Summary.fileName := FileData.originalName fileData;
                         Summary.summaryStats := summaryStats |}
        end
    end.

End AiEndpoints.

(* ===================================================================== *)
(** * utils/aiProviders.js: the provider calls *)
(* ===================================================================== *)

Module ProviderCalls.
Import JS.
Import AiProviders.

Definition nl : string := DataAnalyzer.nl.

Definition quote : string := String (ascii_of_nat 34) EmptyString.

(** The model settings of [process.env]. *)
Record Models : Type := {
  HUGGINGFACE_MODEL : option string;
  GEMINI_MODEL : option string;
  OPENAI_MODEL : option string
}.

(** [process.env.X || fallback] *)
Definition orElse (v : option string) (fallback : string) : string :=
  match v with
  | Some s => if nonEmpty s then s else fallback
  | None => fallback
  end.

(** [[v].filter(Boolean)] *)
Definition given (v : option string) : list string :=
  match v with
  | Some s => if nonEmpty s then [s] else []
  | None => []
  end.

Fixpoint startsWith (needle s : string) : bool :=
  match needle, s with
  | EmptyString, _ => true
  | String a n, String b r => Ascii.eqb a b && startsWith n r
  | String _ _, EmptyString => false
  end.

(** [s.includes(needle)] *)
Fixpoint includes (needle s : string) : bool :=
  startsWith needle s
  || match s with
     | String _ r => includes needle r
     | EmptyString => false
     end.

(** [list.includes(x)] for a list of strings *)
Definition listIncludes (x : string) (l : list string) : bool := existsb (strEq x) l.

(** [s.replace(needle, '')]: the first occurrence goes. *)
Fixpoint removeFirst (needle s : string) : string :=
  match stripPrefix needle s with
  | Some rest => rest
  | None =>
      match s with
      | String c r => String c (removeFirst needle r)
      | EmptyString => EmptyString
      end
  end.

(** ** [callOpenAI] *)

Inductive Role : Type := System | User.

Record Message : Type := { role : Role; content : string }.

(** The arguments of the client and of [chat.completions.create];
    [temperature] and [max_tokens] are constants. *)
Record ChatRequest : Type := {
  chat_apiKey : string;
  chat_model : string;
  chat_messages : list Message
}.

(** What the SDK comes back with: [completion.choices[0]?.message?.content]
    ([None] for [undefined] or [null]), or the error thrown on the way. *)
Definition OpenAiApi : Type := ChatRequest → Result (option string).

Definition unableToGenerate : string := "Unable to generate insights.".

Definition callOpenAI (env : Env) (models : Models) (api : OpenAiApi)
    (prompt systemPrompt : string) : Result string :=
  let model := orElse (OPENAI_MODEL models) "gpt-3.5-turbo" in
  let messages :=
    ((if nonEmpty systemPrompt
      then [ {| role := System; content := systemPrompt |} ] else [])
     ++ [ {| role := User; content := prompt |} ])%list in
  bindR (api {| chat_apiKey := orElse (OPENAI_API_KEY env) "";
                chat_model := model;
                chat_messages := messages |})
    (fun content =>
       Ok (match content with
           | Some text => if nonEmpty text then text else unableToGenerate
           | None => unableToGenerate
           end)).

(** ** [getAvailableGeminiModels] and [callGemini] *)

(** A request that goes out: the list of models of an API version, a call
    of the SDK with a model, a call of the REST endpoint with a model. *)
Inductive Attempt : Type :=
| ListModels (version : string)
| Sdk (modelName : string)
| Rest (restModel : string).

(** An element of [data.models]. *)
Record ModelInfo : Type := {
  name : option string;
  supportedGenerationMethods : option (list string)
}.

(** The answer to a request for the list: [response.ok], and
    [data.models] of [await response.json()], where [Throw] is a body
    that cannot be read and [None] a body without the property. *)
Record ListResponse : Type := {
  list_ok : bool;
  list_models : Result (option (list ModelInfo))
}.

(** The TypeError of reading [errorData.error] when [errorData] is
    [null]. *)
Definition errorOfNull : string := "Cannot read properties of null (reading 'error')".

(** The answer of the REST endpoint: [response.ok], [response.status];
    of an answer that is not ok, whether its body is the JSON value [null]
    (which [response.json()] gives back as it is: the [catch] turns only a
    body that cannot be read into [{}]) and the message
    [errorData.error?.message || errorData.message || response.statusText];
    and of one that is ok the text at
    [data.candidates[0].content.parts[0].text], where [Throw] is a body
    that cannot be read and [None] one in which the path to the text ends
    early. *)
Record RestResponse : Type := {
  rest_ok : bool;
  rest_status : nat;
  rest_errorNull : bool;
  rest_errorMsg : string;
  rest_text : Result (option string)
}.

(** The service, as [callGemini] meets it.  The arguments are the API key,
    then the version or the model, then the prompt. *)
Record GeminiApi : Type := {
  fetchModels : string → string → Result ListResponse;
  (** the list is there before the timeout of two seconds *)
  listedInTime : bool;
  (** [response.text()] of the SDK's [generateContent], or the error *)
  generateContent : string → string → string → Result string;
  fetchGenerate : string → string → string → Result RestResponse
}.

(** [.map(m => m.name.replace('models/', ''))]; a model without a name
    throws. *)
Fixpoint modelNames (ms : list ModelInfo) : Result (list string) :=
  match ms with
  | [] => Ok []
  | m :: rest =>
      match name m with
      | None => Throw "Cannot read properties of undefined (reading 'replace')"
      | Some n => bindR (modelNames rest) (fun names => Ok (removeFirst "models/" n :: names))
      end
  end.

Definition supportsGenerateContent (m : ModelInfo) : bool :=
  match supportedGenerationMethods m with
  | Some methods => listIncludes "generateContent" methods
  | None => false
  end.

(** The body of the [try] of [getAvailableGeminiModels], with the
    requests sent. *)
Definition listModels (api : GeminiApi) (apiKey : string)
    : Result (option (list string)) * list Attempt :=
  match fetchModels api "v1" apiKey with
  | Throw e => (Throw e, [ListModels "v1"])
  | Ok first =>
      let '(second, attempts) :=
        if negb (list_ok first)
        then (fetchModels api "v1beta" apiKey, [ListModels "v1"; ListModels "v1beta"])
        else (Ok first, [ListModels "v1"]) in
      (bindR second (fun response =>
         if list_ok response then
           bindR (list_models response) (fun found =>
             match found with
             | Some ms =>
                 bindR (modelNames (List.filter supportsGenerateContent ms))
                   (fun models =>
                      Ok (if (0 <? length models)%nat then Some models else None))
             | None => Ok None
             end)
         else Ok None),
       attempts)
  end.

Definition getAvailableGeminiModels (api : GeminiApi) (apiKey : string)
    : option (list string) * list Attempt :=
  let '(result, attempts) := listModels api apiKey in
  (match result with
   | Ok models => models
   | Throw _ => None
   end, attempts).

Definition priorityModels : list string :=
  ["gemini-1.5-flash"; "gemini-1.5-flash-latest"; "gemini-1.5-pro"; "gemini-pro"].

Definition commonModels : list string :=
  ["gemini-1.5-flash"; "gemini-1.5-flash-latest"; "gemini-1.5-pro";
   "gemini-1.5-pro-latest"; "gemini-pro"; "gemini-1.0-pro"].

(** [availableModels && availableModels.length > 0] *)
Definition listed (availableModels : option (list string)) : bool :=
  match availableModels with
  | Some (_ :: _) => true
  | _ => false
  end.

(** The list [modelOptions] that [callGemini] builds. *)
Definition modelOptions (models : Models) (availableModels : option (list string))
    : list string :=
  let modelOptions := given (GEMINI_MODEL models) in
  if listed availableModels then
    let available := default [] availableModels in
    let modelOptions :=
      fold_left
        (fun modelOptions priority =>
           if listIncludes priority available
              && negb (listIncludes priority modelOptions)
           then (modelOptions ++ [priority])%list else modelOptions)
        priorityModels modelOptions in
    fold_left
      (fun modelOptions model =>
         if negb (listIncludes model modelOptions) && includes "gemini" model
         then (modelOptions ++ [model])%list else modelOptions)
      available modelOptions
  else (modelOptions ++ commonModels)%list.

Definition emptyResponse : string := "Gemini API returned empty response".

(** How a loop over models ends: with a [return], with a [throw] that
    leaves the function, or at the end of the list. *)
Inductive Ending : Type :=
| Returned (text : string)
| Thrown (message : string)
| Exhausted (lastError : option string).

(** The body of the [try] of the first loop. *)
Definition sdkAttempt (api : GeminiApi) (apiKey fullPrompt modelName : string)
    : Result string :=
  bindR (generateContent api apiKey modelName fullPrompt)
    (fun text =>
       if negb (nonEmpty text) || (String.length (trim text) =? 0)%nat
       then Throw emptyResponse
       else Ok (trim text)).

(** The first loop: the SDK with each model of the list. *)
Fixpoint trySdk (api : GeminiApi) (apiKey fullPrompt : string)
    (modelOptions : list string) (lastError : option string)
    : Ending * list Attempt :=
  match modelOptions with
  | [] => (Exhausted lastError, [])
  | modelName :: rest =>
      match sdkAttempt api apiKey fullPrompt modelName with
      | Ok text => (Returned text, [Sdk modelName])
      | Throw message =>
          if negb (includes "not found" message) && negb (includes "404" message)
             && negb (includes "NOT_FOUND" message)
          then (Thrown message, [Sdk modelName])
          else
            let '(ending, attempts) :=
              trySdk api apiKey fullPrompt rest (Some message) in
            (ending, Sdk modelName :: attempts)
      end
  end.

(** The body of the [try] of the second loop; [Ok None] goes on to the
    next model.  The message of an answer that is not ok is read before
    its status is looked at: reading [errorData.error] of a body that is
    [null] throws. *)
Definition restAttempt (api : GeminiApi) (apiKey fullPrompt restModel : string)
    : Result (option string) :=
  bindR (fetchGenerate api apiKey restModel fullPrompt)
    (fun response =>
       if negb (rest_ok response) then
         if rest_errorNull response then Throw errorOfNull
         else if (rest_status response =? 404)%nat then Ok None
         else Throw ("Gemini REST API error: " ++ pretty (rest_status response)
                     ++ " - " ++ rest_errorMsg response)
       else
         bindR (rest_text response)
           (fun found =>
              match found with
              | Some text => if nonEmpty text then Ok (Some (trim text)) else Ok None
              | None => Ok None
              end)).

(** The second loop: the REST endpoint with each model of the list. *)
Fixpoint tryRest (api : GeminiApi) (apiKey fullPrompt : string)
    (restModelOptions : list string) : Ending * list Attempt :=
  match restModelOptions with
  | [] => (Exhausted None, [])
  | restModel :: rest =>
      let next :=
        let '(ending, attempts) := tryRest api apiKey fullPrompt rest in
        (ending, Rest restModel :: attempts) in
      match restAttempt api apiKey fullPrompt restModel with
      | Ok (Some text) => (Returned text, [Rest restModel])
      | Ok None => next
      | Throw message =>
          if negb (includes "404" message) && negb (includes "not found" message)
          then (Thrown message, [Rest restModel])
          else next
      end
  end.

Definition geminiKeyMissing : string :=
  "Gemini API key is not configured. Please set GEMINI_API_KEY in your environment variables.".

(** The error at the end of [callGemini]. *)
Definition allModelsFailed (availableModels : option (list string))
    (lastError : option string) : string :=
  let errorMsg :=
    if listed availableModels
    then "Available models: " ++ join ", " (default [] availableModels)
         ++ ". None of them worked with your API key."
    else "Could not determine available models." in
  "❌ All Gemini models failed. " ++ errorMsg ++ nl
  ++ "Last error: " ++ orElse lastError "Unknown error" ++ nl ++ nl
  ++ "🔧 Troubleshooting steps:" ++ nl
  ++ "1. Get API key from https://ai.google.dev/ (Google AI Studio) - NOT Google Cloud Console"
  ++ nl
  ++ "2. Make sure API key starts with " ++ quote ++ "AIza..." ++ quote ++ nl
  ++ "3. Verify API key is active and not revoked" ++ nl
  ++ "4. Try setting GEMINI_MODEL=gemini-1.5-flash in your .env file" ++ nl
  ++ "5. Check if Gemini API access is enabled for your account" ++ nl ++ nl
  ++ "📝 Note: Free-tier API keys from Google AI Studio work differently than Cloud Console keys.".

Definition callGemini (env : Env) (models : Models) (api : GeminiApi)
    (prompt systemPrompt : string) : Result string * list Attempt :=
  let apiKey := orElse (GEMINI_API_KEY env) "" in
  if negb (nonEmpty apiKey) then (Throw geminiKeyMissing, [])
  else
    let fullPrompt :=
      if nonEmpty systemPrompt then systemPrompt ++ nl ++ nl ++ prompt else prompt in
    let '(answer, listing) := getAvailableGeminiModels api apiKey in
    let availableModels := if listedInTime api then answer else None in
    let modelOptions := modelOptions models availableModels in
    match trySdk api apiKey fullPrompt modelOptions None with
    | (Returned text, sdk) => (Ok text, (listing ++ sdk)%list)
    | (Thrown message, sdk) => (Throw message, (listing ++ sdk)%list)
    | (Exhausted lastError, sdk) =>
        let restModelOptions :=
          if listed availableModels then take 3 (default [] availableModels)
          else ["gemini-1.5-flash"; "gemini-1.5-pro"; "gemini-pro"] in
        match tryRest api apiKey fullPrompt restModelOptions with
        | (Returned text, rest) => (Ok text, (listing ++ sdk ++ rest)%list)
        | (Thrown message, rest) => (Throw message, (listing ++ sdk ++ rest)%list)
        | (Exhausted _, rest) =>
            (Throw (allModelsFailed availableModels lastError),
             (listing ++ sdk ++ rest)%list)
        end
    end.

(** ** [callHuggingFace] *)

(** The two bodies of a request: labels to choose from, for a model of
    zero-shot classification, or the parameters of text generation. *)
Inductive Payload : Type := Classification | Generation.

(** The request of [fetch]: the model of the URL, the key of the
    [Authorization] header, [inputs] of the body and what goes with it. *)
Record HfRequest : Type := {
  hf_model : string;
  hf_apiKey : string;
  hf_inputs : string;
  hf_payload : Payload
}.

(** [data[0]] of an answer that is an array: nothing, an object with its
    properties [generated_text], [label] and [score] ([None] when
    absent), a string, or another value. *)
Inductive HfItem : Type :=
| NoItem
| Item (generated_text label : option string) (score : option JsNumber)
| TextItem (text : string)
| OtherItem.

(** The parsed body of an answer that is ok. *)
Inductive HfData : Type :=
| DataArray (first : HfItem)
| DataObject (generated_text : option string)
| DataText (text : string)
| DataNull
| DataOther.

(** The answer of [fetch].  For one that is not ok, whether its body is
    the JSON value [null], which [response.json()] gives back as it is (the
    [catch] turns only a body that cannot be read into [{}]); then
    [errorData.error] and [errorData.message] as a template renders them
    ([None] when absent, and when the body cannot be read) and
    [errorData.estimated_time]; for one that is ok, the parsed body and its
    [JSON.stringify]. *)
Record HfResponse : Type := {
  hf_ok : bool;
  hf_status : nat;
  hf_statusText : string;
  hf_errorNull : bool;
  hf_error : option string;
  hf_errorMessage : option string;
  hf_estimated_time : option Q;
  hf_data : Result HfData;
  hf_json : string
}.

(** [fetch]: the response, or the error it rejects with. *)
Definition HfApi : Type := HfRequest → Result HfResponse.

Definition hfKeyMissing : string :=
  "Hugging Face API key is not configured. Please set HUGGINGFACE_API_KEY in your environment variables.".

(** A property that holds a string, when it is truthy. *)
Definition truthyText (v : option string) : option string :=
  match v with
  | Some s => if nonEmpty s then Some s else None
  | None => None
  end.

(** [a || b || c] over rendered values *)
Definition firstOf (a b : option string) (c : string) : string :=
  match truthyText a with
  | Some s => s
  | None => match truthyText b with Some s => s | None => c end
  end.

(** The error thrown for a response that is not ok: the TypeError of
    reading [errorData.error] when the body is [null], and else one of the
    three errors of the code. *)
Definition hfFailure (model : string) (response : HfResponse) : string :=
  if hf_errorNull response then errorOfNull else
  let fullError :=
    firstOf (hf_error response) (hf_errorMessage response) (hf_statusText response) in
  let loading :=
    match hf_estimated_time response with
    | Some seconds => negb (Qeq_bool seconds 0)
    | None => false
    end in
  if (hf_status response =? 503)%nat && loading then
    "Hugging Face model " ++ quote ++ model ++ quote ++ " is loading. Please wait "
    ++ pretty (Qceiling (default 0%Q (hf_estimated_time response)))
    ++ " seconds and try again."
  else if (hf_status response =? 404)%nat then
    "Hugging Face model " ++ quote ++ model ++ quote
    ++ " not found (404). The model may not be available on the Inference API. Try setting HUGGINGFACE_MODEL=gpt2 (simple, always works) or check available models at https://huggingface.co/models"
  else
    "Hugging Face API error: " ++ pretty (hf_status response) ++ " - " ++ fullError
    ++ ". Model: " ++ model.

Definition unexpectedFormat (json : string) : string :=
  "Unexpected response format from Hugging Face API: " ++ substring0 200 json.

(** What is made of the body of a response that is ok. *)
Definition hfText (rt : Runtime) (data : HfData) (json : string) : Result string :=
  match data with
  | DataArray first =>
      match first with
      | Item generated label score =>
          match truthyText generated, truthyText label, score with
          | Some generated, _, _ => Ok (trim generated)
          | None, Some label, Some score =>
              Ok (label ++ " (" ++ DataAnalyzer.toFixed2 rt score ++ ")")
          | None, Some label, None =>
              Throw "Cannot read properties of undefined (reading 'toFixed')"
          | None, None, _ => Throw (unexpectedFormat json)
          end
      | TextItem text => Ok (trim text)
      | NoItem | OtherItem => Throw (unexpectedFormat json)
      end
  | DataObject generated =>
      match truthyText generated with
      | Some generated => Ok (trim generated)
      | None => Throw (unexpectedFormat json)
      end
  | DataText text => Ok (trim text)
  | DataNull => Throw "Cannot read properties of null (reading 'generated_text')"
  | DataOther => Throw (unexpectedFormat json)
  end.

(** The call, with the requests sent. *)
Definition callHuggingFace (rt : Runtime) (env : Env) (models : Models) (api : HfApi)
    (prompt systemPrompt : string) : Result string * list HfRequest :=
  let apiKey := orElse (HUGGINGFACE_API_KEY env) "" in
  let model := orElse (HUGGINGFACE_MODEL models) "gpt2" in
  if negb (nonEmpty apiKey) then (Throw hfKeyMissing, [])
  else
    let fullPrompt :=
      if nonEmpty systemPrompt
      then systemPrompt ++ nl ++ nl ++ "User Question: " ++ prompt ++ nl ++ nl
           ++ "Assistant Response:"
      else prompt in
    let request :=
      if includes "bart-large-mnli" model || includes "roberta" model
      then {| hf_model := model; hf_apiKey := apiKey; hf_inputs := prompt;
              hf_payload := Classification |}
      else {| hf_model := model; hf_apiKey := apiKey; hf_inputs := fullPrompt;
              hf_payload := Generation |} in
    (bindR (api request)
       (fun response =>
          if negb (hf_ok response) then Throw (hfFailure model response)
          else bindR (hf_data response)
                 (fun data => hfText rt data (hf_json response))),
     [request]).

End ProviderCalls.
(* ===================================================================== *)
(** * Vocabulary of the specification *)
(* ===================================================================== *)

(** The notions in which the specification states its properties, each
    defined on its own and related to the code by the theorems below. *)
Module Spec.
Import JS.
Import FileProcessor.
Local Open Scope nat_scope.

(** ** Type detection *)

(** The sample of a column: the first min(10, rowCount) rows. *)
Definition sampleOf (data : list Row) : list Row :=
  take (Nat.min 10 (length data)) data.

Inductive Category : Type := CNumber | CDate | CBoolean.

#[global] Instance Category_eq_dec : EqDecision Category.
Proof. solve_decision. Defined.

(** The category a sample value counts for, if any: a blank counts for
    none; otherwise number if it converts to a number, otherwise date if it
    matches a date pattern and parses, otherwise boolean if it is a boolean
    or spells one. *)
Definition categoryOf (rt : Runtime) (value : JsValue) : option Category :=
  if isBlank value then None
  else if negb (isNaN (Number value)) && negb (isNaN (parseFloat value))
  then Some CNumber
  else if isValidDate rt value then Some CDate
  else if isBooleanLike value then Some CBoolean
  else None.

(** How many rows of the sample count for a category. *)
Definition tally (rt : Runtime) (columnName : string) (cat : Category)
    (sample : list Row) : nat :=
  length (filter (fun row => categoryOf rt (cell row columnName) = Some cat) sample).

(** How many rows of the sample hold a non-empty, non-null value. *)
Definition nonBlank (columnName : string) (sample : list Row) : nat :=
  length (filter (fun row => isBlank (cell row columnName) = false) sample).

(** The counters of the detection loop once [sample] has gone through it. *)
Definition addTally (rt : Runtime) (columnName : string) (c : Counts)
    (sample : list Row) : Counts :=
  {| numberCount := numberCount c + tally rt columnName CNumber sample;
     dateCount := dateCount c + tally rt columnName CDate sample;
     booleanCount := booleanCount c + tally rt columnName CBoolean sample |}.

(** No category accounts for more than 70% of [total]. *)
Definition noMajority (total n d b : nat) : Prop :=
  10 * n ≤ 7 * total ∧ 10 * d ≤ 7 * total ∧ 10 * b ≤ 7 * total.

(** ** Statistics *)

(** The mapping of the statistics object that a field names. *)
Definition mapping (f : DataAnalyzer.StatsField) (s : DataAnalyzer.SummaryStats)
    : Obj.t DataAnalyzer.StatEntry :=
  match f with
  | DataAnalyzer.FNumeric => DataAnalyzer.numericStats s
  | DataAnalyzer.FCategorical => DataAnalyzer.categoricalStats s
  | DataAnalyzer.FDate => DataAnalyzer.dateStats s
  end.

#[global] Instance StatsField_eq_dec : EqDecision DataAnalyzer.StatsField.
Proof. solve_decision. Defined.

#[global] Instance ColumnType_eq_dec : EqDecision ColumnType.
Proof. solve_decision. Defined.

(** Every row holds a blank (null, missing or empty) in the column. *)
Definition allBlank (data : list Row) (name : string) : bool :=
  forallb (fun row => isBlank (cell row name)) data.

(** A value coerces to a number: [parseFloat] does not give [NaN]. *)
Definition coercesToNumber (value : JsValue) : bool := negb (isNaN (parseFloat value)).

(** A value coerces to a date: [new Date] gives a valid date. *)
Definition coercesToDate (rt : Runtime) (value : JsValue) : bool :=
  match newDate rt value with Some _ => true | None => false end.

(** The successfully coerced numbers of a column, in row order. *)
Definition coercedNumbers (data : list Row) (name : string) : list JsNumber :=
  map parseFloat
    (filter (fun v => coercesToNumber v = true)
       (filter (fun v => isBlank v = false) (map (fun row => cell row name) data))).

(** Some non-blank cell of the column coerces to a number. *)
Definition hasNumber (data : list Row) (name : string) : bool :=
  existsb (fun row => negb (isBlank (cell row name)) && coercesToNumber (cell row name)) data.

(** Some non-blank cell of the column coerces to a date. *)
Definition hasDate (rt : Runtime) (data : list Row) (name : string) : bool :=
  existsb (fun row => negb (isBlank (cell row name)) && coercesToDate rt (cell row name)) data.

(** The mapping in which a column is recorded, if it is recorded at all. *)
Definition home (rt : Runtime) (data : list Row) (col : Column)
    : option DataAnalyzer.StatsField :=
  match type col with
  | TNumber => if hasNumber data (name col) then Some DataAnalyzer.FNumeric else None
  | TString => if allBlank data (name col) then None else Some DataAnalyzer.FCategorical
  | TDate => if allBlank data (name col) || hasDate rt data (name col)
             then Some DataAnalyzer.FDate else None
  | TBoolean => None
  end.

(** A number other than [NaN] and the infinities. *)
Definition finite (x : JsNumber) : Prop := isFinite x = true.

(** [x <= y] holds. *)
Definition leq (x y : JsNumber) : Prop := jsLe x y = true.

(** The rational a finite number stands for. *)
Definition rational (x : JsNumber) : Q :=
  match x with Finite q => q | _ => 0%Q end.

(** The sum of a list of numbers that are all finite. *)
Definition total (xs : list JsNumber) : Q :=
  fold_right Qplus 0%Q (map rational xs).

(** What processing one column does to the statistics object: it records
    an entry in one mapping, leaves the object as it is, or throws. *)
Inductive Outcome : Type :=
| Recorded (f : DataAnalyzer.StatsField) (e : DataAnalyzer.StatEntry)
| Skipped
| Fails.

Definition outcome (rt : Runtime) (data : list Row) (col : Column) : Outcome :=
  let values := DataAnalyzer.presentValues data (name col) in
  if (length values =? 0)%nat then
    match type col with
    | TDate => Recorded DataAnalyzer.FDate (DataAnalyzer.NullOnly (length data))
    | _ => Fails
    end
  else
    match type col with
    | TNumber =>
        if (0 <? length (DataAnalyzer.numericValuesOf values))%nat
        then Recorded DataAnalyzer.FNumeric
               (DataAnalyzer.numericEntry (length data) (DataAnalyzer.numericValuesOf values))
        else Skipped
    | TString =>
        Recorded DataAnalyzer.FCategorical
          (DataAnalyzer.categoricalEntry rt (length data) values)
    | TDate =>
        if (0 <? length (DataAnalyzer.dateValuesOf rt values))%nat
        then Recorded DataAnalyzer.FDate
               (DataAnalyzer.dateEntry rt (length data) (DataAnalyzer.dateValuesOf rt values))
        else Skipped
    | TBoolean => Skipped
    end.

(** The loop of [generateSummaryStats] over a list of columns. *)
Definition forEachColumn (rt : Runtime) (data : list Row) (cols : list Column)
    (start : Result DataAnalyzer.SummaryStats) : Result DataAnalyzer.SummaryStats :=
  fold_left
    (fun acc column =>
       bindR acc (fun stats => DataAnalyzer.processColumn rt data stats column))
    cols start.

(** ** The provider gateway *)

(** The provider the configuration asks for, when it names one. *)
Definition requested (env : AiProviders.Env) : option AiProviders.Provider :=
  match AiProviders.providers (AiProviders.requestedProvider env) with
  | Some (AiProviders.Own p) => Some p
  | _ => None
  end.



#[global] Instance Provider_eq_dec : EqDecision AiProviders.Provider.
Proof. solve_decision. Defined.

(** The order of preference among the providers: Hugging Face, then
    Gemini, then OpenAI. *)
Definition preference : list AiProviders.Provider :=
  [AiProviders.HuggingFace; AiProviders.Gemini; AiProviders.OpenAI].

(** The providers the gateway may call, in the order in which it calls
    them: the preferred one when it has a credential, then the others
    that have one, in the order of preference. *)
Definition attemptOrder (env : AiProviders.Env) : list AiProviders.Provider :=
  match requested env with
  | Some p =>
      ((if AiProviders.credentialed env p then [p] else [])
       ++ filter (fun q => q ≠ p ∧ AiProviders.credentialed env q = true)
            preference)%list
  | None =>
      filter (fun q => AiProviders.credentialed env q = true) preference
  end.

(** Calling the providers of a list in order until one answers: the
    answer, if there is one, and the providers called. *)
Fixpoint firstAnswer (net : AiProviders.Network) (prompt systemPrompt : string)
    (order : list AiProviders.Provider)
    : option string * list AiProviders.Provider :=
  match order with
  | [] => (None, [])
  | q :: rest =>
      match net q prompt systemPrompt with
      | Ok text => (Some text, [q])
      | Throw _ =>
          let '(answer, calls) := firstAnswer net prompt systemPrompt rest in
          (answer, q :: calls)
      end
  end.

(** ** Ingestion *)

(** What the parser chosen for an uploaded file comes back with. *)
Definition parsed (rt : Runtime) (w : UploadController.World)
    (f : UploadController.UploadedFile) : option (Result ProcessedData) :=
  UploadController.processUpload rt (UploadController.disk w)
    (getFileType (UploadController.originalname f)) (UploadController.path f).

(** Parsing the uploaded file fails. *)
Definition parsingFails (rt : Runtime) (w : UploadController.World)
    (f : UploadController.UploadedFile) : Prop :=
  ∃ e, parsed rt w f = Some (Throw e).


(** ** Chat *)

(** The question is missing, empty, or whitespace only. *)
Definition blankQuestion (question : JsValue) : Prop :=
  match question with
  | VUndefined | VNull => True
  | VStr s => trim s = ""
  | _ => False
  end.

End Spec.

(* ===================================================================== *)
(** * Further vocabulary *)
(* ===================================================================== *)

Module More.
Import JS.
Import FileProcessor.
Local Open Scope nat_scope.

(** The column type that stands for a category of values. *)
Definition typeOf (cat : Spec.Category) : ColumnType :=
  match cat with
  | Spec.CNumber => TNumber
  | Spec.CDate => TDate
  | Spec.CBoolean => TBoolean
  end.

(** The string has a ["."] in it. *)
Fixpoint hasDot (s : string) : bool :=
  match s with
  | String c r => Ascii.eqb c "."%char || hasDot r
  | EmptyString => false
  end.

(** One step of [Object.keys(data).forEach(key => columns.add(key))]. *)
Definition addKey (acc : list string) (key : string) : list string :=
  if existsb (strEq key) acc then acc else (acc ++ [key])%list.

(** The text under which the categorical statistics count a value. *)
Definition keyOf (rt : Runtime) (value : JsValue) : string :=
  trim (toString rt value).

(** How many of the values are counted under a key. *)
Definition occurrences (rt : Runtime) (key : string) (values : list JsValue) : nat :=
  length (filter (fun v => keyOf rt v = key) values).

(** The sum of the counts of a list of entries. *)
Definition sumCounts (entries : list (string * nat)) : nat :=
  list_sum (map snd entries).

(** The sum of the counts of the top values. *)
Definition sumTop (tops : list DataAnalyzer.Top.t) : nat :=
  list_sum (map DataAnalyzer.Top.count tops).

(** Order by a rational key. *)
Definition byKey {A : Type} (key : A → Q) (x y : A) : Prop := (key x <= key y)%Q.

(** The key by which the entries of [valueCounts] are sorted: the greater
    count first. *)
Definition countKey (entry : string * nat) : Q :=
  Qopp (inject_Z (Z.of_nat (snd entry))).

(** The element of [topValues] made of an entry of [valueCounts]. *)
Definition topOf (rt : Runtime) (total : nat) (entry : string * nat)
    : DataAnalyzer.Top.t :=
  let '(value, count) := entry in
  {| DataAnalyzer.Top.value := value;
     DataAnalyzer.Top.count := count;
     DataAnalyzer.Top.percentage :=
       DataAnalyzer.toFixed2 rt
         (jsMulQ (jsDiv (ofNat count) (ofNat total)) (100 # 1)) |}.

(** The TypeError of [stats.mean.toFixed(2)] on an entry without a mean. *)
Definition toFixedError : string :=
  "Cannot read properties of undefined (reading 'toFixed')".

(** A message that [callGemini] reads as "this model is not there". *)
Definition availabilityError (message : string) : bool :=
  ProviderCalls.includes "not found" message
  || ProviderCalls.includes "404" message
  || ProviderCalls.includes "NOT_FOUND" message.

(** The prompt that [callGemini] sends. *)
Definition geminiPrompt (prompt systemPrompt : string) : string :=
  if nonEmpty systemPrompt
  then systemPrompt ++ ProviderCalls.nl ++ ProviderCalls.nl ++ prompt
  else prompt.

(** The models that [callGemini] has been told of. *)
Definition geminiModels (api : ProviderCalls.GeminiApi) (apiKey : string)
    : option (list string) :=
  if ProviderCalls.listedInTime api
  then (ProviderCalls.getAvailableGeminiModels api apiKey).1
  else None.

(** The models of the second loop of [callGemini]. *)
Definition geminiRestModels (availableModels : option (list string)) : list string :=
  if ProviderCalls.listed availableModels then take 3 (default [] availableModels)
  else ["gemini-1.5-flash"; "gemini-1.5-pro"; "gemini-pro"].




End More.
(* ===================================================================== *)
(** * Sample inputs *)
(* ===================================================================== *)

Module Samples.
Import JS.
Import FileProcessor.

(** A runtime that reads ISO calendar dates of January 1970 and renders
    integers; enough for the sample inputs below. *)
Definition runtime : Runtime :=
  {| Date_parse := fun s =>
       match stripPrefix "1970-01-" s with
       | Some dd =>
           if matchesPattern "##" dd
           then Some ((digitsValue 0 dd - 1) * 86400000)%Z
           else None
       | None => None
       end;
     Number_toString := fun q => pretty (Qfloor q);
     Date_toISOString := fun t => pretty t |}.

(** A one-column table from the cells of the column. *)
Definition column (name : string) (cells : list JsValue) : list Row :=
  map (fun v => [(name, v)]) cells.

Definition texts (name : string) (cells : list string) : list Row :=
  column name (map VStr cells).

(** A table of two rows with a column of each type; the date column is
    blank throughout. *)
Definition mixedTable : list Row :=
  [ [("n", VStr "1"); ("s", VStr "a"); ("d", VStr ""); ("b", VStr "true")];
    [("n", VStr "x"); ("s", VStr "a"); ("d", VNull); ("b", VStr "")] ].

Definition mixedColumns : list Column :=
  [ {| name := "n"; type := TNumber |};
    {| name := "s"; type := TString |};
    {| name := "d"; type := TDate |};
    {| name := "b"; type := TBoolean |} ].

(** The scenario of the specification, with a cell that is not a number. *)
Definition revenue : list Row := texts "rev" ["100"; "200"; "n/a"; "50.5"].

Definition revenueColumns : list Column := [ {| name := "rev"; type := TNumber |} ].


Definition openAiAnswers : AiProviders.Network :=
  fun p _ _ =>
    match p with
    | AiProviders.OpenAI => Ok "Revenue grows."
    | _ => Throw "fetch failed"
    end.

(** A collection that numbers its documents, accepts every save and finds
    a document by identifier and owner. *)
Definition collection : FileData.Collection :=
  {| FileData.newId := fun docs => pretty (length docs);
     FileData.saveError := fun _ => None;
     FileData.findOne := fun docs id owner =>
       match id with
       | VStr i =>
           Ok (List.find (fun d => strEq (FileData._id d) i
                                   && strEq (FileData.userId d) owner) docs)
       | _ => Throw "Cast to ObjectId failed"
       end |}.

Definition blob (rows : Result (list Row)) : Blob :=
  {| asCsv := rows; asWorkbook := Throw "not a workbook" |}.

(** An upload directory with a text file, a CSV file that cannot be read,
    a CSV file whose header has an empty name, and a good CSV file. *)
Definition uploads : Disk :=
  {| files :=
       {[ "uploads/1-notes.txt" := blob (Throw "not a table");
          "uploads/2-broken.csv" := blob (Throw "Invalid Record Length");
          "uploads/3-header.csv" := blob (Ok [[("", VStr "1"); ("b", VStr "2")]]);
          "uploads/4-sales.csv" := blob (Ok revenue) ]};
     locked := fun _ => false |}.

Definition world : UploadController.World :=
  {| UploadController.disk := uploads;
     UploadController.db := [];
     UploadController.cleanups := [] |}.

Definition upload (original stored : string) : UploadController.Request :=
  {| UploadController.file :=
       Some {| UploadController.originalname := original;
               UploadController.filename := stored;
               UploadController.path := "uploads/" ++ stored;
               UploadController.size := 64 |};
     UploadController.user_id := "u1" |}.

(** A configuration with every key set. *)
Definition allKeys : AiProviders.Env :=
  {| AiProviders.AI_PROVIDER := None;
     AiProviders.HUGGINGFACE_API_KEY := Some "hf_test";
     AiProviders.GEMINI_API_KEY := Some "AIza-test";
     AiProviders.OPENAI_API_KEY := Some "sk-test";
     AiProviders.NODE_ENV := Some "production" |}.

Definition tab : string := String (ascii_of_nat 9) EmptyString.

End Samples.


(* ===================================================================== *)
(** * Further sample inputs *)
(* ===================================================================== *)

Module MoreSamples.
Import JS.
Import FileProcessor.

(** A table with a date column: three days of January 1970, a cell that
    is no date and a blank one. *)
Definition visits : list Row :=
  Samples.texts "day" ["1970-01-05"; "1970-01-02"; "soon"; ""; "1970-01-09"].

Definition visitsColumns : list Column := [ {| name := "day"; type := TDate |} ].

(** The revenue table as the upload stored it for user u1, and a request
    of this user about it. *)
Definition sales : FileData.t :=
  {| FileData._id := "0";
     FileData.userId := "u1";
     FileData.fileName := "4-sales.csv";
     FileData.originalName := "sales.csv";
     FileData.fileType := "csv";
     FileData.fileSize := 64;
     FileData.data := Samples.revenue;
     FileData.columns := Samples.revenueColumns;
     FileData.rowCount := 4;
     FileData.isProcessed := true |}.

Definition ask (id : string) (question : JsValue) : AiController.Request :=
  {| AiController.fileId := VStr id;
     AiController.question := question;
     AiController.user_id := "u1" |}.

(** An upload directory with a CSV file whose second column is empty in
    every row. *)
Definition gaps : list Row :=
  [ [("item", VStr "pen"); ("note", VStr "")];
    [("item", VStr "ink"); ("note", VStr "")] ].

Definition gapsWorld : UploadController.World :=
  {| UploadController.disk :=
       {| files := {[ "uploads/5-gaps.csv" := Samples.blob (Ok gaps) ]};
          locked := fun _ => false |};
     UploadController.db := [];
     UploadController.cleanups := [] |}.

(** No model settings. *)
Definition noModels : ProviderCalls.Models :=
  {| ProviderCalls.HUGGINGFACE_MODEL := None;
     ProviderCalls.GEMINI_MODEL := None;
     ProviderCalls.OPENAI_MODEL := None |}.

(** A Gemini service that does not list its models, does not know the
    first common model and answers for the second. *)
Definition gemini : ProviderCalls.GeminiApi :=
  {| ProviderCalls.fetchModels := fun _ _ => Throw "fetch failed";
     ProviderCalls.listedInTime := true;
     ProviderCalls.generateContent := fun _ modelName _ =>
       if strEq modelName "gemini-1.5-flash"
       then Throw "models/gemini-1.5-flash is not found for API version v1beta"
       else if strEq modelName "gemini-1.5-flash-latest"
       then Ok "  Revenue grows. "
       else Throw "fetch failed";
     ProviderCalls.fetchGenerate := fun _ _ _ => Throw "fetch failed" |}.

(** A Gemini service that knows no model at all. *)
Definition geminiDown : ProviderCalls.GeminiApi :=
  {| ProviderCalls.fetchModels := fun _ _ => Throw "fetch failed";
     ProviderCalls.listedInTime := true;
     ProviderCalls.generateContent := fun _ _ _ => Throw "[404 Not Found] model";
     ProviderCalls.fetchGenerate := fun _ _ _ =>
       Ok {| ProviderCalls.rest_ok := false;
             ProviderCalls.rest_status := 404;
             ProviderCalls.rest_errorNull := false;
             ProviderCalls.rest_errorMsg := "Not Found";
             ProviderCalls.rest_text := Ok None |} |}.



End MoreSamples.
(* ===================================================================== *)
(** * Facts about the JavaScript layer *)
(* ===================================================================== *)

Open Scope nat_scope.

Section JsFacts.
Import JS.

Lemma strEq_eq (a b : string) : strEq a b = true ↔ a = b.
Proof. apply String.eqb_eq. Qed.

Lemma strEq_neq (a b : string) : strEq a b = false ↔ a ≠ b.
Proof. apply String.eqb_neq. Qed.

Lemma strEq_refl (a : string) : strEq a a = true.
Proof. apply String.eqb_refl. Qed.

Lemma signOf_ofNat (n : nat) :
  signOf (inject_Z (Z.of_nat n)) = if (n =? 0)%nat then Eq else Gt.
Proof.
  unfold signOf, Qcompare; simpl. rewrite Z.mul_1_r.
  destruct n as [|n]; [reflexivity|].
  simpl. reflexivity.
Qed.

(** [n / t > 0.7] on counts, in integers. *)
Lemma ratio_above (n t : nat) :
  n ≤ t →
  jsLt (Finite (7 # 10)) (jsDiv (ofNat n) (ofNat t)) = true ↔ 7 * t < 10 * n.
Proof.
  intros Hnt. unfold ofNat, ofZ, jsDiv. rewrite !signOf_ofNat.
  destruct t as [|t].
  - assert (n = 0) as -> by lia. simpl. split; [discriminate | lia].
  - cbn [Nat.eqb jsLt].
    assert (Qcompare (7 # 10)
              (Qred (inject_Z (Z.of_nat n) / inject_Z (Z.of_nat (S t)))) = Lt
            ↔ 7 * S t < 10 * n) as Hcmp.
    { rewrite <- Qlt_alt, Qred_correct.
      assert (0 < inject_Z (Z.of_nat (S t)))%Q as Hpos.
      { unfold Qlt; simpl. lia. }
      split.
      - intros H.
        apply (Qmult_lt_compat_r _ _ _ Hpos) in H.
        unfold Qdiv in H. rewrite <- Qmult_assoc, (Qmult_comm (/ _)), Qmult_inv_r,
          Qmult_1_r in H.
        + unfold Qlt in H; simpl in H. lia.
        + intros E. rewrite E in Hpos. discriminate.
      - intros H. apply Qlt_shift_div_l; [exact Hpos|].
        unfold Qlt; simpl. lia. }
    destruct (Qcompare _ _); split; intros H; try discriminate; try reflexivity;
      first [ apply Hcmp; reflexivity | apply Hcmp in H; discriminate ].
Qed.

End JsFacts.

(* ===================================================================== *)
(** * Reading and writing properties *)
(* ===================================================================== *)

Section ObjFacts.
Import JS.
Context {V : Type}.
Implicit Types (o : Obj.t V) (k : string) (v : V).

Lemma get_update_ne k k' v o :
  k ≠ k' → Obj.get k' (Obj.update k v o) = Obj.get k' o.
Proof.
  intros Hne. induction o as [|[k0 v0] o IH]; [reflexivity|].
  simpl. destruct (strEq k k0) eqn:E; simpl.
  - apply strEq_eq in E. subst k0.
    destruct (strEq k' k) eqn:E'; [|reflexivity].
    apply strEq_eq in E'. congruence.
  - rewrite IH. reflexivity.
Qed.

Lemma get_update_eq k v o :
  Obj.has k o = true → Obj.get k (Obj.update k v o) = Some v.
Proof.
  unfold Obj.has. induction o as [|[k0 v0] o IH]; simpl; [discriminate|].
  destruct (strEq k k0) eqn:E; simpl; rewrite E; [reflexivity|exact IH].
Qed.

Lemma get_insertIndex_ne i k k' v o :
  k ≠ k' → Obj.get k' (Obj.insertIndex i k v o) = Obj.get k' o.
Proof.
  intros Hne.
  assert (strEq k' k = false) as Hk by (apply strEq_neq; congruence).
  induction o as [|[k0 v0] o IH]; simpl; [rewrite Hk; reflexivity|].
  destruct (Obj.arrayIndex k0) as [j|].
  - destruct (i <? j)%Z; simpl; [rewrite Hk; reflexivity|].
    rewrite IH. reflexivity.
  - simpl. rewrite Hk. reflexivity.
Qed.

Lemma get_insertIndex_eq i k v o :
  Obj.get k o = None → Obj.get k (Obj.insertIndex i k v o) = Some v.
Proof.
  induction o as [|[k0 v0] o IH]; simpl; [rewrite strEq_refl; reflexivity|].
  destruct (strEq k k0) eqn:E; [discriminate|]. intros Hnone.
  destruct (Obj.arrayIndex k0) as [j|].
  - destruct (i <? j)%Z; simpl; [rewrite strEq_refl; reflexivity|].
    rewrite E. apply IH, Hnone.
  - simpl. rewrite strEq_refl. reflexivity.
Qed.

Lemma get_snoc k k' v o :
  Obj.get k' (o ++ [(k, v)])%list =
  match Obj.get k' o with
  | Some x => Some x
  | None => if strEq k' k then Some v else None
  end.
Proof.
  induction o as [|[k0 v0] o IH]; simpl; [reflexivity|].
  destruct (strEq k' k0); [reflexivity|exact IH].
Qed.

(** Reading the property just written. *)
Lemma get_set_eq k v o : Obj.get k (Obj.set k v o) = Some v.
Proof.
  unfold Obj.set. destruct (Obj.has k o) eqn:Hhas.
  - apply get_update_eq, Hhas.
  - assert (Obj.get k o = None) as Hnone.
    { unfold Obj.has in Hhas. destruct (Obj.get k o); [discriminate|reflexivity]. }
    destruct (Obj.arrayIndex k).
    + apply get_insertIndex_eq, Hnone.
    + rewrite get_snoc, Hnone, strEq_refl. reflexivity.
Qed.

(** Writing a property leaves the others as they are. *)
Lemma get_set_ne k k' v o : k ≠ k' → Obj.get k' (Obj.set k v o) = Obj.get k' o.
Proof.
  intros Hne. unfold Obj.set. destruct (Obj.has k o).
  - apply get_update_ne, Hne.
  - destruct (Obj.arrayIndex k).
    + apply get_insertIndex_ne, Hne.
    + rewrite get_snoc. destruct (Obj.get k' o); [reflexivity|].
      assert (strEq k' k = false) as -> by (apply strEq_neq; congruence).
      reflexivity.
Qed.

Lemma set_not_empty k v o : Obj.set k v o ≠ [].
Proof.
  intros E. pose proof (get_set_eq k v o) as H. rewrite E in H. discriminate.
Qed.

End ObjFacts.

(* ===================================================================== *)
(** * Type detection *)
(* ===================================================================== *)

Section Detection.
Import JS.
Import FileProcessor.
Import Spec.

Variable rt : Runtime.
Variable columnName : string.

Lemma tally_cons (cat : Category) (row : Row) (sample : list Row) :
  tally rt columnName cat (row :: sample) =
  (if decide (categoryOf rt (cell row columnName) = Some cat) then 1 else 0)
  + tally rt columnName cat sample.
Proof.
  unfold tally. rewrite filter_cons. case_decide; reflexivity.
Qed.

(** The loop computes the three tallies. *)
Lemma loop_counts (sample : list Row) (c : Counts) :
  fold_left (countValue rt columnName) sample c = addTally rt columnName c sample.
Proof.
  revert c. induction sample as [|row sample IH]; intros c.
  - destruct c. unfold addTally, tally. simpl. f_equal; lia.
  - simpl. rewrite IH. unfold addTally. rewrite !tally_cons.
    unfold countValue, categoryOf.
    destruct (isBlank (cell row columnName)); simpl.
    { repeat case_decide; try discriminate. f_equal; lia. }
    destruct (negb (isNaN (Number (cell row columnName)))
              && negb (isNaN (parseFloat (cell row columnName)))); simpl.
    { repeat case_decide; try discriminate; try congruence. f_equal; lia. }
    destruct (isValidDate rt (cell row columnName)); simpl.
    { repeat case_decide; try discriminate; try congruence. f_equal; lia. }
    destruct (isBooleanLike (cell row columnName)); simpl.
    { repeat case_decide; try discriminate; try congruence. f_equal; lia. }
    repeat case_decide; try discriminate. f_equal; lia.
Qed.

(** A row counts for one category at most. *)
Lemma tallies_le_length (sample : list Row) :
  tally rt columnName CNumber sample + tally rt columnName CDate sample
  + tally rt columnName CBoolean sample ≤ length sample.
Proof.
  induction sample as [|row sample IH]; [unfold tally; simpl; lia|].
  rewrite !tally_cons. simpl.
  repeat case_decide; try congruence; lia.
Qed.

(** What [detectColumnType] returns, from the tallies of the sample: the
    denominator of each ratio is the number of classified values. *)
Lemma detectColumnType_by_tallies (data : list Row) :
  let sample := sampleOf data in
  let n := tally rt columnName CNumber sample in
  let d := tally rt columnName CDate sample in
  let b := tally rt columnName CBoolean sample in
  detectColumnType rt data columnName =
    if decide (7 * (n + d + b) < 10 * n) then TNumber
    else if decide (7 * (n + d + b) < 10 * d) then TDate
    else if decide (7 * (n + d + b) < 10 * b) then TBoolean
    else TString.
Proof.
  intros sample n d b. unfold detectColumnType.
  destruct (length data =? 0) eqn:Hlen.
  - apply Nat.eqb_eq in Hlen. destruct data; [|discriminate].
    subst sample n d b. unfold sampleOf, tally. simpl.
    repeat case_decide; try lia. reflexivity.
  - fold (sampleOf data). fold sample. rewrite loop_counts. cbn [addTally numberCount dateCount booleanCount].
    fold n d b.
    pose proof (tallies_le_length sample) as Hle. fold n d b in Hle.
    assert (length sample = Nat.min 10 (length data)) as Hs.
    { subst sample. unfold sampleOf. rewrite length_take. lia. }
    rewrite <- Hs.
    replace (length sample - (length sample - (0 + n) - (0 + d) - (0 + b)))
      with (n + d + b) by lia.
    simpl (0 + _). unfold threshold.
    pose proof (ratio_above n (n + d + b) ltac:(lia)) as Hn.
    pose proof (ratio_above d (n + d + b) ltac:(lia)) as Hd.
    pose proof (ratio_above b (n + d + b) ltac:(lia)) as Hb.
    destruct (jsLt (Finite (7 # 10)) (jsDiv (ofNat n) (ofNat (n + d + b)))).
    { case_decide as H; [reflexivity|]. exfalso. apply H, Hn. reflexivity. }
    case_decide as H1; [apply Hn in H1; discriminate|].
    destruct (jsLt (Finite (7 # 10)) (jsDiv (ofNat d) (ofNat (n + d + b)))).
    { case_decide as H; [reflexivity|]. exfalso. apply H, Hd. reflexivity. }
    case_decide as H2; [apply Hd in H2; discriminate|].
    destruct (jsLt (Finite (7 # 10)) (jsDiv (ofNat b) (ofNat (n + d + b)))).
    { case_decide as H; [reflexivity|]. exfalso. apply H, Hb. reflexivity. }
    case_decide as H3; [apply Hb in H3; discriminate|]. reflexivity.
Qed.

End Detection.

Import JS.
Import FileProcessor.

(** C1, as stated, fails: the column ["1"; "abc"; "def"] has three
    non-empty sample values of which one is a number, so no category
    reaches 70% of the non-empty values, and [detectColumnType] answers
    [number]: the two texts are left out of the denominator. *)
Lemma detectColumnType_ignores_unclassified :
  let data := Samples.texts "c" ["1"; "abc"; "def"] in
  let sample := Spec.sampleOf data in
  Spec.noMajority (Spec.nonBlank "c" sample)
    (Spec.tally Samples.runtime "c" Spec.CNumber sample)
    (Spec.tally Samples.runtime "c" Spec.CDate sample)
    (Spec.tally Samples.runtime "c" Spec.CBoolean sample)
  ∧ detectColumnType Samples.runtime data "c" = TNumber.
Proof.
  split; [|reflexivity].
  unfold Spec.noMajority. vm_compute. lia.
Qed.

(** C1 (amended): for a column whose name is not the name of a member of
    [Object.prototype], over the sample of the column (its first
    min(10, rowCount) values), if none of the categories number, date,
    boolean accounts for more than 70% of the classified sample values,
    then [detectColumnType] returns [string]; the majority denominator is
    the number of sample values counted as number, date or boolean. *)
Theorem detectColumnType_string_without_majority
    (rt : Runtime) (data : list Row) (columnName : string) :
  columnName ∉ Obj.inherited →
  let sample := Spec.sampleOf data in
  let n := Spec.tally rt columnName Spec.CNumber sample in
  let d := Spec.tally rt columnName Spec.CDate sample in
  let b := Spec.tally rt columnName Spec.CBoolean sample in
  Spec.noMajority (n + d + b) n d b →
  detectColumnType rt data columnName = TString.
Proof.
  intros _ sample n d b (Hn & Hd & Hb).
  rewrite detectColumnType_by_tallies. fold sample. fold n d b.
  repeat case_decide; try lia. reflexivity.
Qed.

(** A number, a date, a boolean and a text: each category holds a third
    of the classified values. *)
Lemma detectColumnType_string_without_majority_witness :
  let data := Samples.texts "c" ["1"; "1970-01-02"; "true"; "x"] in
  let sample := Spec.sampleOf data in
  let n := Spec.tally Samples.runtime "c" Spec.CNumber sample in
  let d := Spec.tally Samples.runtime "c" Spec.CDate sample in
  let b := Spec.tally Samples.runtime "c" Spec.CBoolean sample in
  ("c" ∉ Obj.inherited)
  ∧ Spec.noMajority (n + d + b) n d b
  ∧ detectColumnType Samples.runtime data "c" = TString.
Proof.
  split; [apply (bool_decide_unpack _); reflexivity|]. split.
  - unfold Spec.noMajority. vm_compute. lia.
  - apply (detectColumnType_string_without_majority Samples.runtime
             (Samples.texts "c" ["1"; "1970-01-02"; "true"; "x"]) "c").
    + apply (bool_decide_unpack _). reflexivity.
    + unfold Spec.noMajority. vm_compute. lia.
Defined.

(* ===================================================================== *)
(** * Summary statistics *)
(* ===================================================================== *)

(** C8: on a table without rows, [generateSummaryStats] returns at once,
    whatever the column descriptors: the row count is zero, the column
    list is empty, and [numericStats], [categoricalStats] and [dateStats]
    are empty. *)
Theorem generateSummaryStats_empty_table (rt : Runtime) (columns : list Column) :
  DataAnalyzer.generateSummaryStats rt [] columns =
    Ok {| DataAnalyzer.rowCount := 0;
          DataAnalyzer.columnCount := length columns;
          DataAnalyzer.columns := [];
          DataAnalyzer.numericStats := [];
          DataAnalyzer.categoricalStats := [];
          DataAnalyzer.dateStats := [] |}.
Proof. reflexivity. Qed.

Lemma elem_of_snoc_last {A : Type} (l : list A) (x : A) : x ∈ (l ++ [x])%list.
Proof. apply elem_of_app. right. apply list_elem_of_singleton. reflexivity. Qed.

Lemma elem_of_snoc_init {A : Type} (l : list A) (x y : A) :
  y ∈ l → y ∈ (l ++ [x])%list.
Proof. intros H. apply elem_of_app. left. exact H. Qed.

Ltac in_snoc :=
  first [ apply elem_of_snoc_last | apply elem_of_snoc_init; assumption ].

Section Statistics.
Import DataAnalyzer.
Import Spec.

Variable rt : Runtime.
Variable data : list Row.

Lemma processColumn_outcome (stats : SummaryStats) (col : Column) :
  processColumn rt data stats col =
  match outcome rt data col with
  | Recorded f e => Ok (record f (name col) e stats)
  | Skipped => Ok stats
  | Fails =>
      Throw ("Cannot set properties of undefined (setting '" ++ name col ++ "')")
  end.
Proof.
  unfold processColumn, outcome.
  destruct (length (presentValues data (name col)) =? 0).
  - destruct (type col); reflexivity.
  - destruct (type col); try reflexivity.
    + destruct (0 <? length _); reflexivity.
    + destruct (0 <? length _); reflexivity.
Qed.

Lemma mapping_record (f f0 : StatsField) (k : string) (e : StatEntry)
    (stats : SummaryStats) :
  mapping f (record f0 k e stats) =
  if decide (f = f0) then Obj.set k e (mapping f stats) else mapping f stats.
Proof. destruct f, f0; reflexivity. Qed.

Lemma rowCount_record (f : StatsField) (k : string) (e : StatEntry)
    (stats : SummaryStats) :
  rowCount (record f k e stats) = rowCount stats
  ∧ columnCount (record f k e stats) = columnCount stats
  ∧ columns (record f k e stats) = columns stats.
Proof. destruct f; repeat split; reflexivity. Qed.

Lemma forEachColumn_throw (cols : list Column) (e : string) :
  forEachColumn rt data cols (Throw e) = Throw e.
Proof. induction cols as [|c cols IH]; [reflexivity|exact IH]. Qed.

Lemma forEachColumn_snoc (cols : list Column) (c : Column)
    (start : Result SummaryStats) :
  forEachColumn rt data (cols ++ [c]) start =
  bindR (forEachColumn rt data cols start)
        (fun stats => processColumn rt data stats c).
Proof. unfold forEachColumn. rewrite fold_left_app. reflexivity. Qed.

(** The field of a recorded entry tells the type of the column. *)
Lemma outcome_field (col : Column) (f : StatsField) (e : StatEntry) :
  outcome rt data col = Recorded f e →
  type col = match f with
             | FNumeric => TNumber
             | FCategorical => TString
             | FDate => TDate
             end.
Proof.
  unfold outcome.
  destruct (length _ =? 0); destruct (type col); try discriminate;
    try (destruct (0 <? length _); try discriminate);
    intros [= <- _]; reflexivity.
Qed.

(** Two columns of one name recorded in one mapping are one column. *)
Lemma outcome_same (c1 c2 : Column) (f : StatsField) (e1 e2 : StatEntry) :
  name c1 = name c2 →
  outcome rt data c1 = Recorded f e1 →
  outcome rt data c2 = Recorded f e2 →
  c1 = c2 ∧ e1 = e2.
Proof.
  intros Hname H1 H2.
  pose proof (outcome_field _ _ _ H1) as T1.
  pose proof (outcome_field _ _ _ H2) as T2.
  assert (c1 = c2) as ->.
  { destruct c1, c2; simpl in *. congruence. }
  split; [reflexivity|congruence].
Qed.

(** When the loop over the columns comes to its end, an entry is under a
    name in a mapping exactly when some column of that name records it
    there; the counts of the object are those it started with. *)
Lemma forEachColumn_entries (cols : list Column) (start stats : SummaryStats) :
  (∀ f, mapping f start = []) →
  forEachColumn rt data cols (Ok start) = Ok stats →
  (∀ f k e,
     Obj.get k (mapping f stats) = Some e
     ↔ ∃ col, col ∈ cols ∧ name col = k ∧ outcome rt data col = Recorded f e)
  ∧ rowCount stats = rowCount start
  ∧ columns stats = columns start.
Proof.
  intros Hstart. revert stats.
  induction cols as [|c cols IH] using rev_ind; intros stats Hrun.
  - injection Hrun as <-. split; [|split; reflexivity].
    intros f k e. rewrite Hstart. simpl. split; [discriminate|].
    intros (col & Hin & _). inversion Hin.
  - rewrite forEachColumn_snoc in Hrun.
    destruct (forEachColumn rt data cols (Ok start)) as [mid|] eqn:Hmid;
      [|discriminate].
    simpl in Hrun. destruct (IH mid eq_refl) as (Hent & Hrows & Hcols).
    rewrite processColumn_outcome in Hrun.
    destruct (outcome rt data c) as [f0 e0| |] eqn:Hout; [| |discriminate].
    + injection Hrun as <-.
      destruct (rowCount_record f0 (name c) e0 mid) as (-> & _ & ->).
      split; [|split; assumption].
      intros f k e. rewrite mapping_record.
      destruct (decide (f = f0)) as [->|Hf].
      * destruct (decide (name c = k)) as [<-|Hk].
        -- rewrite get_set_eq. split.
           ++ intros [= <-]. exists c. split; [in_snoc|]. split; [reflexivity|exact Hout].
           ++ intros (col & _ & Hname & Hcol).
              destruct (outcome_same col c f0 e e0 Hname Hcol Hout) as (_ & ->).
              reflexivity.
        -- rewrite get_set_ne by exact Hk. rewrite Hent. split.
           ++ intros (col & Hin & Hrest). exists col. split; [in_snoc|exact Hrest].
           ++ intros (col & Hin & Hname & Hcol).
              apply elem_of_app in Hin as [Hin|Hin].
              ** exists col. split; [exact Hin|]. split; assumption.
              ** apply list_elem_of_singleton in Hin. subst col. contradiction.
      * rewrite Hent. split.
        -- intros (col & Hin & Hrest). exists col. split; [in_snoc|exact Hrest].
        -- intros (col & Hin & Hname & Hcol).
           apply elem_of_app in Hin as [Hin|Hin].
           ** exists col. split; [exact Hin|]. split; assumption.
           ** apply list_elem_of_singleton in Hin. subst col.
              rewrite Hout in Hcol. injection Hcol as -> _. contradiction.
    + injection Hrun as <-. split; [|split; assumption].
      intros f k e. rewrite Hent. split.
      * intros (col & Hin & Hrest). exists col. split; [in_snoc|exact Hrest].
      * intros (col & Hin & Hname & Hcol).
        apply elem_of_app in Hin as [Hin|Hin].
        -- exists col. split; [exact Hin|]. split; assumption.
        -- apply list_elem_of_singleton in Hin. subst col.
           rewrite Hout in Hcol. discriminate.
Qed.

(** The loop comes to its end when no column throws. *)
Lemma forEachColumn_total (cols : list Column) (start : SummaryStats) :
  (∀ col, col ∈ cols → outcome rt data col ≠ Fails) →
  ∃ stats, forEachColumn rt data cols (Ok start) = Ok stats.
Proof.
  induction cols as [|c cols IH] using rev_ind; intros Hok.
  - exists start. reflexivity.
  - destruct IH as (mid & Hmid); [intros col Hin; apply Hok; in_snoc|].
    rewrite forEachColumn_snoc, Hmid. simpl. rewrite processColumn_outcome.
    destruct (outcome rt data c) eqn:Hout; eauto.
    exfalso. apply (Hok c); [in_snoc|exact Hout].
Qed.

End Statistics.

Section Columns.
Import DataAnalyzer.
Import Spec.

Variable rt : Runtime.

Lemma generateSummaryStats_loop (data : list Row) (cols : list Column) :
  data ≠ [] →
  generateSummaryStats rt data cols =
  forEachColumn rt data cols
    (Ok {| rowCount := length data;
           columnCount := length cols;
           columns := map (fun col => {| name := name col; type := type col |}) cols;
           numericStats := [];
           categoricalStats := [];
           dateStats := [] |}).
Proof.
  intros Hdata. unfold generateSummaryStats.
  destruct data; [contradiction|reflexivity].
Qed.

Lemma presentValues_cons (row : Row) (data : list Row) (k : string) :
  presentValues (row :: data) k =
  if isBlank (cell row k) then presentValues data k
  else cell row k :: presentValues data k.
Proof.
  unfold presentValues. simpl. rewrite filter_cons.
  destruct (isBlank (cell row k)); case_decide; congruence.
Qed.

Lemma presentValues_none (data : list Row) (k : string) :
  (length (presentValues data k) =? 0) = allBlank data k.
Proof.
  induction data as [|row data IH]; [reflexivity|].
  rewrite presentValues_cons. simpl.
  destruct (isBlank (cell row k)); simpl; [exact IH|reflexivity].
Qed.

Lemma presentValues_length (data : list Row) (k : string) :
  length (presentValues data k) ≤ length data.
Proof.
  induction data as [|row data IH]; [reflexivity|].
  rewrite presentValues_cons. destruct (isBlank _); simpl; lia.
Qed.

Lemma numericValuesOf_cons (v : JsValue) (values : list JsValue) :
  numericValuesOf (v :: values) =
  if coercesToNumber v then parseFloat v :: numericValuesOf values
  else numericValuesOf values.
Proof.
  unfold numericValuesOf, coercesToNumber. simpl.
  destruct (isNaN (parseFloat v)); reflexivity.
Qed.

Lemma numericValuesOf_length (values : list JsValue) :
  length (numericValuesOf values) ≤ length values.
Proof.
  induction values as [|v values IH]; [reflexivity|].
  rewrite numericValuesOf_cons. destruct (coercesToNumber v); simpl; lia.
Qed.

(** The numbers the code keeps are the coerced numbers of the column. *)
Lemma numericValuesOf_coerced (data : list Row) (k : string) :
  numericValuesOf (presentValues data k) = coercedNumbers data k.
Proof.
  unfold coercedNumbers. fold (presentValues data k).
  induction (presentValues data k) as [|v values IH]; [reflexivity|].
  rewrite numericValuesOf_cons, filter_cons.
  destruct (coercesToNumber v); case_decide; try congruence.
  simpl. rewrite IH. reflexivity.
Qed.

Lemma numericValuesOf_some (data : list Row) (k : string) :
  (0 <? length (numericValuesOf (presentValues data k))) = hasNumber data k.
Proof.
  induction data as [|row data IH]; [reflexivity|].
  rewrite presentValues_cons. simpl.
  destruct (isBlank (cell row k)); simpl; [exact IH|].
  rewrite numericValuesOf_cons.
  destruct (coercesToNumber (cell row k)); simpl; [reflexivity|exact IH].
Qed.

Lemma dateValuesOf_cons (v : JsValue) (values : list JsValue) :
  dateValuesOf rt (v :: values) =
  match newDate rt v with
  | Some t => t :: dateValuesOf rt values
  | None => dateValuesOf rt values
  end.
Proof. unfold dateValuesOf. simpl. destruct (newDate rt v); reflexivity. Qed.

Lemma dateValuesOf_length (values : list JsValue) :
  length (dateValuesOf rt values) ≤ length values.
Proof.
  induction values as [|v values IH]; [reflexivity|].
  rewrite dateValuesOf_cons. destruct (newDate rt v); simpl; lia.
Qed.

Lemma dateValuesOf_some (data : list Row) (k : string) :
  (0 <? length (dateValuesOf rt (presentValues data k))) = hasDate rt data k.
Proof.
  induction data as [|row data IH]; [reflexivity|].
  rewrite presentValues_cons. simpl.
  destruct (isBlank (cell row k)); simpl; [exact IH|].
  rewrite dateValuesOf_cons. unfold coercesToDate.
  destruct (newDate rt (cell row k)); simpl; [reflexivity|exact IH].
Qed.

(** The outcome of a column in the terms of the specification. *)
Lemma outcome_cases (data : list Row) (col : Column) :
  outcome rt data col =
  if allBlank data (name col) then
    match type col with
    | TDate => Recorded FDate (NullOnly (length data))
    | _ => Fails
    end
  else
    match type col with
    | TNumber =>
        if hasNumber data (name col)
        then Recorded FNumeric
               (numericEntry (length data) (coercedNumbers data (name col)))
        else Skipped
    | TString =>
        Recorded FCategorical
          (categoricalEntry rt (length data) (presentValues data (name col)))
    | TDate =>
        if hasDate rt data (name col)
        then Recorded FDate
               (dateEntry rt (length data)
                  (dateValuesOf rt (presentValues data (name col))))
        else Skipped
    | TBoolean => Skipped
    end.
Proof.
  unfold outcome.
  rewrite presentValues_none, numericValuesOf_some, dateValuesOf_some,
    numericValuesOf_coerced.
  reflexivity.
Qed.

Lemma outcome_home (data : list Row) (col : Column) (f : StatsField) :
  outcome rt data col ≠ Fails →
  (∃ e, outcome rt data col = Recorded f e) ↔ home rt data col = Some f.
Proof.
  rewrite outcome_cases. unfold home.
  destruct (allBlank data (name col)), (type col); simpl;
    try destruct (hasNumber data (name col));
    try destruct (hasDate rt data (name col));
    intros Hok; try contradiction;
    (split; [intros (e & He); congruence | intros Hf]);
    try discriminate; injection Hf as <-; eauto.
Qed.

Lemma same_name_same_column (cols : list Column) (c1 c2 : Column) :
  NoDup (map name cols) → c1 ∈ cols → c2 ∈ cols → name c1 = name c2 → c1 = c2.
Proof.
  induction cols as [|c cols IH]; intros Hnd H1 H2 Hname.
  - inversion H1.
  - simpl in Hnd. apply NoDup_cons in Hnd as (Hfresh & Hnd).
    apply elem_of_cons in H1 as [->|H1]; apply elem_of_cons in H2 as [->|H2].
    + reflexivity.
    + exfalso. apply Hfresh. rewrite Hname. apply list_elem_of_fmap. eauto.
    + exfalso. apply Hfresh. rewrite <- Hname. apply list_elem_of_fmap. eauto.
    + apply IH; assumption.
Qed.

End Columns.

Import DataAnalyzer.

(** C2, as stated, fails: a boolean column with a value in it is recorded
    in none of the three mappings, not even with a null count. *)
Lemma generateSummaryStats_leaves_boolean_out :
  ∃ stats,
    generateSummaryStats Samples.runtime
      (Samples.column "flag" [VBool true; VBool false])
      [ {| name := "flag"; type := TBoolean |} ] = Ok stats
    ∧ Obj.get "flag" (numericStats stats) = None
    ∧ Obj.get "flag" (categoricalStats stats) = None
    ∧ Obj.get "flag" (dateStats stats) = None.
Proof. eexists. repeat split. Qed.

(** C2 (amended): for every table with at least one row and every list of
    column descriptors with distinct names, none of them the name of a
    member of [Object.prototype], in which each number, string or boolean
    column has a non-blank cell, [generateSummaryStats] returns
    statistics in which every column is keyed in at most one of
    [numericStats], [categoricalStats], [dateStats]: a number column in
    [numericStats] when one of its values coerces to a number, a string
    column in [categoricalStats], a date column in [dateStats] when one of
    its values coerces to a date or when all its cells are blank, in
    which case the entry is [{nullCount: rowCount}] alone; a boolean column,
    and a number or date column none of whose values coerces, is keyed in
    none. *)
Theorem generateSummaryStats_one_mapping_per_column
    (rt : Runtime) (data : list Row) (cols : list Column) :
  data ≠ [] →
  NoDup (map name cols) →
  (∀ col, col ∈ cols → name col ∉ Obj.inherited) →
  (∀ col, col ∈ cols → type col ≠ TDate → Spec.allBlank data (name col) = false) →
  ∃ stats,
    generateSummaryStats rt data cols = Ok stats
    ∧ ∀ col, col ∈ cols →
        (∀ f, is_Some (Obj.get (name col) (Spec.mapping f stats))
              ↔ Spec.home rt data col = Some f)
        ∧ (Spec.allBlank data (name col) = true →
           Obj.get (name col) (dateStats stats) = Some (NullOnly (length data))).
Proof.
  intros Hdata Hnd _ Hfilled.
  assert (∀ col, col ∈ cols → Spec.outcome rt data col ≠ Spec.Fails) as Hok.
  { intros col Hin. rewrite outcome_cases.
    destruct (Spec.allBlank data (name col)) eqn:Hblank.
    - destruct (type col) eqn:Hty; try discriminate;
        specialize (Hfilled col Hin); rewrite Hty, Hblank in Hfilled;
        exfalso; discriminate Hfilled; discriminate.
    - destruct (type col); try discriminate;
        [destruct (Spec.hasNumber _ _)|destruct (Spec.hasDate _ _ _)]; discriminate. }
  rewrite generateSummaryStats_loop by exact Hdata.
  match goal with
  | |- context [Spec.forEachColumn rt data cols (Ok ?start)] =>
      destruct (forEachColumn_total rt data cols start Hok) as (stats & Hrun)
  end.
  exists stats. split; [exact Hrun|].
  apply forEachColumn_entries in Hrun as (Hent & _); [|intros []; reflexivity].
  intros col Hin. split.
  - intros f. rewrite <- (outcome_home rt data col f (Hok col Hin)). split.
    + intros (e & He). apply Hent in He as (col' & Hin' & Hname & Hout).
      rewrite (same_name_same_column cols col col' Hnd Hin Hin' (eq_sym Hname)).
      eauto.
    + intros (e & He). exists e. apply Hent. eauto.
  - intros Hblank. apply (Hent FDate). exists col. split; [exact Hin|]. split; [reflexivity|].
    rewrite outcome_cases, Hblank.
    destruct (type col) eqn:Hty; try reflexivity;
      specialize (Hfilled col Hin); rewrite Hty, Hblank in Hfilled;
      exfalso; discriminate Hfilled; discriminate.
Qed.

(** The table of two rows with one column of each type. *)
Lemma generateSummaryStats_one_mapping_per_column_witness :
  Samples.mixedTable ≠ []
  ∧ NoDup (map name Samples.mixedColumns)
  ∧ (∀ col, col ∈ Samples.mixedColumns → name col ∉ Obj.inherited)
  ∧ (∀ col, col ∈ Samples.mixedColumns → type col ≠ TDate →
       Spec.allBlank Samples.mixedTable (name col) = false)
  ∧ ∃ stats,
      generateSummaryStats Samples.runtime Samples.mixedTable Samples.mixedColumns
        = Ok stats
      ∧ ∀ col, col ∈ Samples.mixedColumns →
          (∀ f, is_Some (Obj.get (name col) (Spec.mapping f stats))
                ↔ Spec.home Samples.runtime Samples.mixedTable col = Some f)
          ∧ (Spec.allBlank Samples.mixedTable (name col) = true →
             Obj.get (name col) (dateStats stats)
               = Some (NullOnly (length Samples.mixedTable))).
Proof.
  assert (Samples.mixedTable ≠ []) as Hdata by discriminate.
  assert (NoDup (map name Samples.mixedColumns)) as Hnd.
  { apply (bool_decide_unpack _). vm_compute. exact I. }
  assert (∀ col, col ∈ Samples.mixedColumns → type col ≠ TDate →
            Spec.allBlank Samples.mixedTable (name col) = false) as Hfilled.
  { intros col Hin Hty. unfold Samples.mixedColumns in Hin.
    repeat (apply elem_of_cons in Hin as [->|Hin]);
      try reflexivity; try (exfalso; apply Hty; reflexivity).
    inversion Hin. }
  assert (∀ col, col ∈ Samples.mixedColumns → name col ∉ Obj.inherited) as Hplain.
  { intros col Hin. unfold Samples.mixedColumns in Hin.
    repeat (apply elem_of_cons in Hin as [->|Hin]);
      try (apply (bool_decide_unpack _); reflexivity).
    inversion Hin. }
  repeat split; try assumption.
  exact (generateSummaryStats_one_mapping_per_column Samples.runtime
           Samples.mixedTable Samples.mixedColumns Hdata Hnd Hplain Hfilled).
Defined.

(** C9, as stated, fails: a date column that is blank in every row is
    recorded in [dateStats] by an entry that has a null count and no
    count. *)
Lemma generateSummaryStats_null_only_entry_has_no_count :
  ∃ stats e,
    generateSummaryStats Samples.runtime (Samples.texts "d" [""; ""])
      [ {| name := "d"; type := TDate |} ] = Ok stats
    ∧ Obj.get "d" (dateStats stats) = Some e
    ∧ count e = None
    ∧ nullCount e = Some 2.
Proof. do 2 eexists. repeat split. Qed.

(** C9 (amended): for every table with at least one row, every entry that
    [generateSummaryStats] records in [numericStats] or [dateStats] under a
    column name with a non-blank cell has a count and a null count whose
    sum is the row count of the table; the only other entry recorded
    there, for a date column whose cells are all blank, is
    [{nullCount: rowCount}] and has no count. *)
Theorem generateSummaryStats_count_plus_nullCount
    (rt : Runtime) (data : list Row) (cols : list Column)
    (stats : SummaryStats) (k : string) (e : StatEntry) :
  data ≠ [] →
  generateSummaryStats rt data cols = Ok stats →
  Obj.get k (numericStats stats) = Some e ∨ Obj.get k (dateStats stats) = Some e →
  (Spec.allBlank data k = false →
   ∃ c n, count e = Some c ∧ nullCount e = Some n ∧ c + n = rowCount stats)
  ∧ (Spec.allBlank data k = true → e = NullOnly (rowCount stats)).
Proof.
  intros Hdata Hrun Hget.
  rewrite generateSummaryStats_loop in Hrun by exact Hdata.
  apply forEachColumn_entries in Hrun as (Hent & Hrows & _); [|intros []; reflexivity].
  simpl in Hrows. rewrite Hrows.
  assert (∃ f col, (f = FNumeric ∨ f = FDate) ∧ name col = k
                   ∧ Spec.outcome rt data col = Spec.Recorded f e)
    as (f & col & Hf & <- & Hout).
  { destruct Hget as [Hget|Hget].
    - apply (Hent FNumeric) in Hget as (col & _ & Hname & Hout).
      exists FNumeric, col. auto.
    - apply (Hent FDate) in Hget as (col & _ & Hname & Hout).
      exists FDate, col. auto. }
  pose proof (presentValues_length data (name col)) as Hlen.
  pose proof (numericValuesOf_length (presentValues data (name col))) as Hnum.
  pose proof (dateValuesOf_length rt (presentValues data (name col))) as Hdate.
  unfold Spec.outcome in Hout. rewrite presentValues_none in Hout.
  destruct (Spec.allBlank data (name col)).
  - split; [discriminate|]. intros _.
    destruct (type col); try discriminate. congruence.
  - split; [|discriminate]. intros _.
    destruct Hf as [Hf|Hf]; subst f; destruct (type col); try discriminate;
      (destruct (0 <? length _); [|discriminate]);
      try discriminate; injection Hout as <-;
      simpl; do 2 eexists; repeat split; lia.
Qed.

(** The entry of the number column of the same table. *)
Lemma generateSummaryStats_count_plus_nullCount_witness :
  ∃ stats e,
    generateSummaryStats Samples.runtime Samples.mixedTable Samples.mixedColumns
      = Ok stats
    ∧ Obj.get "n" (numericStats stats) = Some e
    ∧ (Spec.allBlank Samples.mixedTable "n" = false →
       ∃ c n, count e = Some c ∧ nullCount e = Some n ∧ c + n = rowCount stats)
    ∧ (Spec.allBlank Samples.mixedTable "n" = true → e = NullOnly (rowCount stats)).
Proof.
  do 2 eexists. split; [reflexivity|]. split; [reflexivity|].
  apply (generateSummaryStats_count_plus_nullCount Samples.runtime
           Samples.mixedTable Samples.mixedColumns _ "n" _).
  - discriminate.
  - reflexivity.
  - left. reflexivity.
Defined.

(* ===================================================================== *)
(** * Sorting *)
(* ===================================================================== *)

Section SortFacts.
Context {A : Type} (compareFn : A → A → JsNumber).


Lemma insertSorted_Forall (P : A → Prop) (x : A) (l : list A) :
  P x → Forall P l → Forall P (insertSorted compareFn x l).
Proof.
  intros Hx Hl. induction Hl as [|y l Hy Hl IH]; simpl.
  - constructor; [exact Hx|constructor].
  - destruct (jsLt _ _); repeat constructor; assumption.
Qed.



Lemma sort_from_Forall (P : A → Prop) (l acc : list A) :
  Forall P l → Forall P acc →
  Forall P (fold_left (fun acc x => insertSorted compareFn x acc) l acc).
Proof.
  intros Hl. revert acc. induction Hl as [|x l Hx Hl IH]; intros acc Hacc.
  - exact Hacc.
  - simpl. apply IH, insertSorted_Forall; assumption.
Qed.

Lemma sort_Forall (P : A → Prop) (l : list A) :
  Forall P l → Forall P (sort compareFn l).
Proof. intros Hl. apply sort_from_Forall; [exact Hl|constructor]. Qed.

End SortFacts.

(* ===================================================================== *)
(** * Categorical statistics *)
(* ===================================================================== *)

Section Categorical.
Variable rt : Runtime.

Lemma countValues_from_not_empty (values : list JsValue) (acc : Obj.t nat) :
  acc ≠ [] →
  fold_left
    (fun valueCounts val =>
       let key := trim (toString rt val) in
       if strEq key "__proto__" then valueCounts
       else Obj.set key (default 0 (Obj.get key valueCounts) + 1) valueCounts)
    values acc ≠ [].
Proof.
  revert acc. induction values as [|v values IH]; intros acc Hacc; [exact Hacc|].
  simpl. apply IH. destruct (strEq _ "__proto__"); [exact Hacc|apply set_not_empty].
Qed.

(** A value whose text is not ['__proto__'] leaves a count. *)
Lemma countValues_from_some (values : list JsValue) (acc : Obj.t nat) (v : JsValue) :
  v ∈ values → trim (toString rt v) ≠ "__proto__" →
  fold_left
    (fun valueCounts val =>
       let key := trim (toString rt val) in
       if strEq key "__proto__" then valueCounts
       else Obj.set key (default 0 (Obj.get key valueCounts) + 1) valueCounts)
    values acc ≠ [].
Proof.
  intros Hin Hkey. revert acc. induction values as [|w values IH]; intros acc.
  { inversion Hin. }
  simpl. apply elem_of_cons in Hin as [<-|Hin]; [|apply IH, Hin].
  apply countValues_from_not_empty.
  destruct (strEq _ "__proto__") eqn:Heq; [|apply set_not_empty].
  apply strEq_eq in Heq. contradiction.
Qed.

Lemma countValues_not_empty (values : list JsValue) (v : JsValue) :
  v ∈ values → trim (toString rt v) ≠ "__proto__" → countValues rt values ≠ [].
Proof. apply countValues_from_some. Qed.


End Categorical.




(* ===================================================================== *)
(** * Numeric statistics *)
(* ===================================================================== *)

Section Numeric.

Import Spec.

Lemma finite_inv (x : JsNumber) : finite x → ∃ q, x = Finite q.
Proof. destruct x; try discriminate. eauto. Qed.

Lemma jsLe_finite (p q : Q) : jsLe (Finite p) (Finite q) = true ↔ (p <= q)%Q.
Proof.
  unfold jsLe. rewrite Qle_alt.
  destruct (p ?= q)%Q; split; intros H; congruence.
Qed.

Lemma compare_finite (p q : Q) :
  jsLt (jsSub (Finite p) (Finite q)) (Finite 0) = true ↔ (p < q)%Q.
Proof.
  unfold jsSub, jsNeg, jsAdd, jsLt.
  assert ((Qred (p + Qred (- q)) ?= 0)%Q = Lt ↔ (p < q)%Q) as H.
  { rewrite <- Qlt_alt, !Qred_correct. split; intros; lra. }
  destruct (Qred (p + Qred (- q)) ?= 0)%Q; split; intros H'; try discriminate;
    try reflexivity; first [ apply H; reflexivity | apply H in H'; discriminate ].
Qed.

Lemma leq_refl (x : JsNumber) : finite x → leq x x.
Proof.
  intros (q & ->)%finite_inv. apply jsLe_finite. lra.
Qed.

Lemma leq_trans (x y z : JsNumber) :
  finite x → finite y → finite z → leq x y → leq y z → leq x z.
Proof.
  intros (p & ->)%finite_inv (q & ->)%finite_inv (r & ->)%finite_inv.
  unfold leq. rewrite !jsLe_finite. intros; lra.
Qed.

Abbreviation numeric := (fun a b : JsNumber => jsSub a b).

Lemma insertSorted_sorted (x : JsNumber) (l : list JsNumber) :
  finite x → Forall finite l →
  StronglySorted leq l → StronglySorted leq (insertSorted numeric x l).
Proof.
  intros Hx Hfin Hsorted.
  induction Hsorted as [|y l Hsorted IH Hy]; simpl.
  - repeat constructor.
  - apply Forall_cons in Hfin as (Hfy & Hfl).
    destruct (finite_inv x Hx) as (p & ->), (finite_inv y Hfy) as (q & ->).
    destruct (jsLt (jsSub (Finite p) (Finite q)) (Finite 0)) eqn:Hcmp.
    + apply compare_finite in Hcmp.
      constructor; [constructor; assumption|].
      constructor; [apply jsLe_finite; lra|].
      rewrite Forall_forall in Hy, Hfl |- *. intros z Hz.
      apply (leq_trans _ (Finite q)); auto.
      apply jsLe_finite. lra.
    + constructor; [apply IH; assumption|].
      apply insertSorted_Forall; [|exact Hy].
      apply jsLe_finite.
      destruct (Qlt_le_dec p q) as [Hlt|Hle]; [|exact Hle].
      apply compare_finite in Hlt. congruence.
Qed.

Lemma sort_from_sorted (l acc : list JsNumber) :
  Forall finite l → Forall finite acc → StronglySorted leq acc →
  StronglySorted leq (fold_left (fun acc x => insertSorted numeric x acc) l acc).
Proof.
  intros Hl. revert acc. induction Hl as [|x l Hx Hl IH]; intros acc Hacc Hsorted.
  - exact Hsorted.
  - simpl. apply IH.
    + apply insertSorted_Forall; assumption.
    + apply insertSorted_sorted; assumption.
Qed.

(** Sorting finite numbers by [a - b] puts them in non-decreasing order. *)
Lemma sort_sorted (l : list JsNumber) :
  Forall finite l → StronglySorted leq (sort numeric l).
Proof.
  intros Hl. apply sort_from_sorted; [exact Hl|constructor|constructor].
Qed.


Lemma at_monotone (l : list JsNumber) (i j : nat) :
  Forall finite l → StronglySorted leq l →
  i ≤ j → j < length l → leq (at_ l i) (at_ l j).
Proof.
  intros Hfin Hsorted. revert i j.
  induction Hsorted as [|x l Hsorted IH Hx]; intros i j Hij Hj; simpl in Hj.
  - lia.
  - apply Forall_cons in Hfin as (Hfx & Hfl).
    destruct i as [|i], j as [|j]; unfold at_; simpl; try lia.
    + apply leq_refl, Hfx.
    + rewrite Forall_forall in Hx. apply Hx.
      apply list_elem_of_In, nth_In. lia.
    + apply IH; [exact Hfl|lia|lia].
Qed.




End Numeric.



(* ===================================================================== *)
(** * The provider gateway *)
(* ===================================================================== *)

Section Gateway.
Import AiProviders.

Lemma providers_some (s : string) (p : Provider) :
  providers s = Some (Own p) → s = providerName p.
Proof.
  unfold providers.
  destruct (strEq s "huggingface") eqn:E1;
    [apply strEq_eq in E1; intros [= <-]; exact E1|].
  destruct (strEq s "gemini") eqn:E2;
    [apply strEq_eq in E2; intros [= <-]; exact E2|].
  destruct (strEq s "openai") eqn:E3;
    [apply strEq_eq in E3; intros [= <-]; exact E3|].
  destruct (strEq s "constructor"); discriminate.
Qed.

Lemma providers_none (s : string) (q : Provider) :
  providers s = None → strEq (providerName q) s = false.
Proof.
  intros Hnone. apply strEq_neq. intros E.
  assert (providers (providerName q) = Some (Own q)) as Hq by (destruct q; reflexivity).
  rewrite E in Hq. congruence.
Qed.

(** The one inherited name that the gateway can call. *)
Lemma providers_inherited (s : string) :
  providers s = Some ObjectFunction ↔ s = "constructor".
Proof.
  split.
  - unfold providers.
    destruct (strEq s "huggingface"); [discriminate|].
    destruct (strEq s "gemini"); [discriminate|].
    destruct (strEq s "openai"); [discriminate|].
    destruct (strEq s "constructor") eqn:E; [|discriminate].
    intros _. apply strEq_eq. exact E.
  - intros ->. reflexivity.
Qed.

Lemma allProvidersFailed_not_noProvider : allProvidersFailed ≠ noProviderConfigured.
Proof. discriminate. Qed.

End Gateway.

Section GatewayClaim.
Import AiProviders.

Variables (env : Env) (net : Network) (prompt systemPrompt : string).


(** The fallback loop calls, in order, the providers of the list that
    have a credential and another name than the requested one. *)
Lemma tryFallback_firstAnswer (s : string) (order log : list Provider) :
  tryFallback env net s prompt systemPrompt order log =
  let '(answer, calls) :=
    Spec.firstAnswer net prompt systemPrompt
      (filter (fun q => strEq (providerName q) s = false ∧ credentialed env q = true)
              order) in
  (answer, (log ++ calls)%list).
Proof.
  revert log. induction order as [|q order IH]; intros log.
  - simpl. rewrite app_nil_r. reflexivity.
  - cbn [tryFallback]. rewrite filter_cons.
    destruct (strEq (providerName q) s) eqn:Hname.
    + rewrite IH. case_decide as H; [destruct H; discriminate|reflexivity].
    + destruct (credentialed env q) eqn:Hcred.
      * case_decide as H; [|exfalso; apply H; split; reflexivity].
        unfold bind, callProvider. cbn [Spec.firstAnswer].
        destruct (net q prompt systemPrompt); [reflexivity|].
        rewrite IH. destruct (Spec.firstAnswer _ _ _ _) as [answer calls].
        rewrite <- app_assoc. reflexivity.
      * rewrite IH. case_decide as H; [destruct H; discriminate|reflexivity].
Qed.

Lemma providerName_inj (p q : Provider) : providerName p = providerName q → p = q.
Proof. destruct p, q; try reflexivity; discriminate. Qed.

(** Asked for ['constructor'], the gateway gives the prompt back and calls
    nobody. *)
Lemma generateAIInsights_inherited :
  requestedProvider env = "constructor" →
  run (generateAIInsights env net prompt systemPrompt) = (Ok prompt, []).
Proof.
  intros Hs. unfold run, generateAIInsights, tryRequested, bind. rewrite Hs.
  reflexivity.
Qed.

(** For any other name, the gateway calls the providers of [attemptOrder]
    until one answers. *)
Lemma generateAIInsights_attempts :
  requestedProvider env ≠ "constructor" →
  run (generateAIInsights env net prompt systemPrompt) =
  let '(answer, calls) :=
    Spec.firstAnswer net prompt systemPrompt (Spec.attemptOrder env) in
  (match answer with
   | Some text => Ok text
   | None => Throw (if hasAnyProvider env then allProvidersFailed
                    else noProviderConfigured)
   end, calls).
Proof.
  intros Hplain.
  unfold run, generateAIInsights, Spec.attemptOrder, Spec.requested, tryRequested, bind.
  change Spec.preference with fallbackOrder.
  set (s := requestedProvider env) in *.
  destruct (providers s) as [[p|]|] eqn:Hp;
    [|apply providers_inherited in Hp; contradiction|].
  - apply providers_some in Hp.
    assert (filter (fun q => strEq (providerName q) s = false ∧ credentialed env q = true)
                   fallbackOrder
            = filter (fun q => q ≠ p ∧ credentialed env q = true) fallbackOrder) as Hfilter.
    { apply list_filter_iff. intros q. rewrite strEq_neq, Hp. split.
      - intros (Hne & Hc). split; [congruence|exact Hc].
      - intros (Hne & Hc). split; [|exact Hc].
        intros E. apply Hne, providerName_inj, E. }
    destruct (credentialed env p) eqn:Hcred; cbn [negb].
    + unfold callProvider. cbn [app Spec.firstAnswer].
      destruct (net p prompt systemPrompt); [reflexivity|].
      unfold ret. cbv beta iota zeta.
      rewrite tryFallback_firstAnswer, Hfilter.
      destruct (Spec.firstAnswer _ _ _ _) as [[text|] calls];
        try reflexivity; destruct (hasAnyProvider env); reflexivity.
    + unfold ret. cbv beta iota zeta.
      rewrite tryFallback_firstAnswer, Hfilter. cbn [app].
      destruct (Spec.firstAnswer _ _ _ _) as [[text|] calls];
        try reflexivity; destruct (hasAnyProvider env); reflexivity.
  - assert (filter (fun q => strEq (providerName q) s = false ∧ credentialed env q = true)
                   fallbackOrder
            = filter (fun q => credentialed env q = true) fallbackOrder) as Hfilter.
    { apply list_filter_iff. intros q. rewrite (providers_none s q Hp). tauto. }
    unfold ret. cbv beta iota zeta. rewrite tryFallback_firstAnswer, Hfilter.
    destruct (Spec.firstAnswer _ _ _ _) as [[text|] calls];
        try reflexivity; destruct (hasAnyProvider env); reflexivity.
Qed.

(** Every provider that has a credential is in the attempt order. *)
Lemma attemptOrder_complete (q : Provider) :
  credentialed env q = true → q ∈ Spec.attemptOrder env.
Proof.
  intros Hq. unfold Spec.attemptOrder. change Spec.preference with fallbackOrder.
  assert (q ∈ fallbackOrder) as Hin.
  { unfold fallbackOrder. destruct q; repeat constructor. }
  destruct (Spec.requested env) as [p|].
  - apply elem_of_app. destruct (decide (q = p)) as [->|Hne].
    + left. rewrite Hq. constructor.
    + right. apply list_elem_of_filter. auto.
  - apply list_elem_of_filter. auto.
Qed.





End GatewayClaim.

Import AiProviders.




(* ===================================================================== *)
(** * Upload *)
(* ===================================================================== *)

Section Upload.
Import UploadController.

Variables (rt : Runtime) (env : AiProviders.Env) (coll : FileData.Collection).

(** The outer [catch] answers with a failure and stores nothing. *)
Lemma onError_db (f : UploadedFile) (e : string) (w : World) :
  success (onError env f e w).1 = false
  ∧ stored (onError env f e w).1 = None
  ∧ db (onError env f e w).2 = db w.
Proof.
  unfold onError. destruct (nonEmpty (path f)); repeat split.
Qed.

(** A document is stored exactly when the answer is a success. *)
Lemma uploadFile_db (req : Request) (w : World) :
  let '(response, w') := uploadFile rt env coll req w in
  if success response
  then ∃ doc, stored response = Some doc ∧ db w' = (db w ++ [doc])%list
  else stored response = None ∧ db w' = db w.
Proof.
  unfold uploadFile. destruct (file req) as [f|]; [|split; reflexivity].
  destruct (processUpload _ _ _ _) as [[processedData|e]|]; try (split; reflexivity).
  destruct (validateColumns 0 _) as [|checkError].
  - destruct (FileData.saveError coll _) as [saveError|].
    + destruct (onError env f _ w) as [response w'] eqn:E.
      pose proof (onError_db f saveError w) as H. rewrite E in H. simpl in H.
      destruct H as (-> & H). exact H.
    + simpl. eexists. split; reflexivity.
  - destruct (onError env f _ w) as [response w'] eqn:E.
    pose proof (onError_db f checkError w) as H. rewrite E in H. simpl in H.
    destruct H as (-> & H). exact H.
Qed.

(** An upload of a type without a parser, or one whose parsing fails, is
    answered without a call of [cleanupFile]: nothing changes. *)
Lemma uploadFile_early_return (req : Request) (w : World) (f : UploadedFile) :
  file req = Some f →
  Spec.parsed rt w f = None ∨ Spec.parsingFails rt w f →
  (uploadFile rt env coll req w).2 = w
  ∧ success (uploadFile rt env coll req w).1 = false.
Proof.
  intros Hfile Hearly. unfold uploadFile. rewrite Hfile.
  unfold Spec.parsingFails, Spec.parsed in Hearly.
  destruct Hearly as [->|(e & ->)]; split; reflexivity.
Qed.

(** Past the parser, every way out of the handler calls [cleanupFile] on
    the path of the upload (when the path is not empty). *)
Lemma uploadFile_cleanup_after_parsing (req : Request) (w : World)
    (f : UploadedFile) (processedData : ProcessedData) :
  file req = Some f →
  Spec.parsed rt w f = Some (Ok processedData) →
  nonEmpty (path f) = true →
  cleanups (uploadFile rt env coll req w).2 = (cleanups w ++ [path f])%list.
Proof.
  intros Hfile Hparsed Hpath. unfold uploadFile. rewrite Hfile.
  unfold Spec.parsed in Hparsed. rewrite Hparsed.
  destruct (validateColumns 0 _) as [|checkError].
  - destruct (FileData.saveError coll _) as [saveError|].
    + unfold onError. rewrite Hpath. reflexivity.
    + reflexivity.
  - unfold onError. rewrite Hpath. reflexivity.
Qed.

End Upload.

Import UploadController.



(** C3 fails on the code: an upload of a type that has no parser, and an
    upload whose parsing fails, are answered by an early return, and
    [cleanupFile] is not called: the file stays in the upload directory.
    The failure of the column check, of the save, and the success do call
    it. *)
Theorem uploadFile_early_returns_skip_cleanup :
  let run original stored :=
    uploadFile Samples.runtime Samples.allKeys Samples.collection
      (Samples.upload original stored) Samples.world in
  (status (run "notes.txt" "1-notes.txt").1 = 400
   ∧ cleanups (run "notes.txt" "1-notes.txt").2 = []
   ∧ FileProcessor.existsSync (disk (run "notes.txt" "1-notes.txt").2)
       "uploads/1-notes.txt" = true)
  ∧ (status (run "broken.csv" "2-broken.csv").1 = 500
     ∧ cleanups (run "broken.csv" "2-broken.csv").2 = []
     ∧ FileProcessor.existsSync (disk (run "broken.csv" "2-broken.csv").2)
         "uploads/2-broken.csv" = true)
  ∧ (status (run "header.csv" "3-header.csv").1 = 500
     ∧ cleanups (run "header.csv" "3-header.csv").2 = ["uploads/3-header.csv"]
     ∧ FileProcessor.existsSync (disk (run "header.csv" "3-header.csv").2)
         "uploads/3-header.csv" = false)
  ∧ (status (run "sales.csv" "4-sales.csv").1 = 201
     ∧ cleanups (run "sales.csv" "4-sales.csv").2 = ["uploads/4-sales.csv"]
     ∧ FileProcessor.existsSync (disk (run "sales.csv" "4-sales.csv").2)
         "uploads/4-sales.csv" = false).
Proof. vm_compute. repeat split. Qed.

(* ===================================================================== *)
(** * Chat *)
(* ===================================================================== *)

Import AiController.

(** C6, as stated, fails: with a blank question and no file id the answer
    is the 400 of the file-id check, which comes first, and its message is
    not 'Question is required'. *)
Lemma chat_checks_file_id_first :
  let req := {| fileId := VUndefined; question := VStr "   "; user_id := "u1" |} in
  Spec.blankQuestion (question req)
  ∧ run (chat Samples.runtime Samples.allKeys Samples.openAiAnswers
           Samples.collection [] req)
    = (failure 400 "File ID is required", [])
  ∧ failure 400 "File ID is required" ≠ failure 400 "Question is required".
Proof. repeat split. discriminate. Qed.

(** C6 (amended): for every chat request whose question is missing, empty
    or whitespace only, the answer is a 400 failure and no provider is
    called, whatever the provider configuration, the network and the
    stored tables; the message is 'Question is required' when the request
    has a file id, and 'File ID is required' when it has none. *)
Theorem chat_blank_question
    (rt : Runtime) (env : AiProviders.Env) (net : AiProviders.Network)
    (coll : FileData.Collection) (db : list FileData.t) (req : Request) :
  Spec.blankQuestion (question req) →
  AiProviders.run (chat rt env net coll db req) =
    (failure 400 (if truthy (fileId req) then "Question is required"
                  else "File ID is required"), []).
Proof.
  intros Hblank. unfold chat.
  destruct (truthy (fileId req)); [|reflexivity].
  cbn [negb]. unfold questionMissing.
  destruct (question req) as [| | | |s]; try contradiction; try reflexivity.
  simpl in Hblank. cbn [truthy]. unfold nonEmpty. rewrite Hblank.
  destruct (strEq s ""); reflexivity.
Qed.

(** A question of blanks and a tab, with a file id. *)
Lemma chat_blank_question_witness :
  let req := {| fileId := VStr "652f1c0e9b1e8a0012345678";
                question := VStr (" " ++ Samples.tab ++ " ");
                user_id := "u1" |} in
  Spec.blankQuestion (question req)
  ∧ AiProviders.run (chat Samples.runtime Samples.allKeys Samples.openAiAnswers
                       Samples.collection [] req)
    = (failure 400 "Question is required", []).
Proof.
  split; [reflexivity|].
  apply (chat_blank_question Samples.runtime Samples.allKeys Samples.openAiAnswers
           Samples.collection []
           {| fileId := VStr "652f1c0e9b1e8a0012345678";
              question := VStr (" " ++ Samples.tab ++ " ");
              user_id := "u1" |}).
  reflexivity.
Defined.

(* ===================================================================== *)
(** * A column that is blank in every row *)
(* ===================================================================== *)

Section BlankColumn.
Import DataAnalyzer.

Variables (rt : Runtime) (data : list Row).

Lemma forEachColumn_fails_at (before after : list Column) (col : Column)
    (start : Result SummaryStats) :
  Spec.outcome rt data col = Spec.Fails →
  ∃ e, Spec.forEachColumn rt data (before ++ col :: after) start = Throw e.
Proof.
  intros Hfails. unfold Spec.forEachColumn. rewrite fold_left_app. simpl.
  fold (Spec.forEachColumn rt data before start).
  destruct (Spec.forEachColumn rt data before start) as [mid|e]; simpl.
  - rewrite processColumn_outcome, Hfails.
    eexists. apply forEachColumn_throw.
  - exists e. apply forEachColumn_throw.
Qed.

(** For a number, string or boolean column without a non-blank cell the
    null-only entry is written to [stats.numberStats], [stats.stringStats]
    or [stats.booleanStats], none of which exists: the call throws. *)
Lemma generateSummaryStats_blank_column_throws (cols : list Column) (col : Column) :
  data ≠ [] →
  col ∈ cols →
  type col ≠ TDate →
  Spec.allBlank data (name col) = true →
  ∃ e, generateSummaryStats rt data cols = Throw e.
Proof.
  intros Hdata Hin Hty Hblank.
  rewrite generateSummaryStats_loop by exact Hdata.
  apply list_elem_of_split in Hin as (before & after & ->).
  apply forEachColumn_fails_at.
  rewrite outcome_cases, Hblank. destruct (type col); try reflexivity.
  contradiction.
Qed.

End BlankColumn.

(* ===================================================================== *)
(** * Further properties *)
(* ===================================================================== *)

(** X1: the decision rule of [detectColumnType], for a column whose name
    is not the name of a member of [Object.prototype].  With [n], [d] and
    [b] the numbers of sample values counted as number, date and boolean,
    the answer is [number] when [n] is more than 70% of [n + d + b], else
    [date] when [d] is, else [boolean] when [b] is, else [string]. *)
Theorem detectColumnType_decision_rule
    (rt : Runtime) (data : list Row) (columnName : string) :
  columnName ∉ Obj.inherited →
  let sample := Spec.sampleOf data in
  let n := Spec.tally rt columnName Spec.CNumber sample in
  let d := Spec.tally rt columnName Spec.CDate sample in
  let b := Spec.tally rt columnName Spec.CBoolean sample in
  detectColumnType rt data columnName =
    if decide (7 * (n + d + b) < 10 * n) then TNumber
    else if decide (7 * (n + d + b) < 10 * d) then TDate
    else if decide (7 * (n + d + b) < 10 * b) then TBoolean
    else TString.
Proof. intros _. apply detectColumnType_by_tallies. Qed.

(** Three numbers and a text: the numbers are all that is classified. *)
Lemma detectColumnType_decision_rule_witness :
  ("rev" ∉ Obj.inherited)
  ∧ detectColumnType Samples.runtime Samples.revenue "rev" = TNumber.
Proof.
  split; [apply (bool_decide_unpack _); reflexivity|].
  rewrite (detectColumnType_decision_rule Samples.runtime Samples.revenue "rev")
    by (apply (bool_decide_unpack _); reflexivity).
  reflexivity.
Defined.



(** X3: [uploadFile] stores a document exactly when it answers with a
    success: then the collection grows by the document of the answer, and
    on every failure the collection is as it was. *)
Theorem uploadFile_stores_iff_success
    (rt : Runtime) (env : AiProviders.Env) (coll : FileData.Collection)
    (req : UploadController.Request) (w : UploadController.World) :
  let '(response, w') := UploadController.uploadFile rt env coll req w in
  if UploadController.success response
  then ∃ doc, UploadController.stored response = Some doc
              ∧ UploadController.db w' = (UploadController.db w ++ [doc])%list
  else UploadController.stored response = None
       ∧ UploadController.db w' = UploadController.db w.
Proof. apply uploadFile_db. Qed.

(* ===================================================================== *)
(** * More on type detection *)
(* ===================================================================== *)

Section DetectionMore.
Import JS.
Import FileProcessor.

Variables (rt : Runtime) (columnName : string).

Lemma tally_none (cat : Spec.Category) (sample : list Row) :
  (∀ row, row ∈ sample → Spec.categoryOf rt (cell row columnName) ≠ Some cat) →
  Spec.tally rt columnName cat sample = 0.
Proof.
  induction sample as [|row sample IH]; intros Hnone; [reflexivity|].
  rewrite tally_cons. case_decide as Hcat.
  - exfalso. apply (Hnone row); [constructor|exact Hcat].
  - rewrite IH; [reflexivity|]. intros r Hr. apply Hnone. constructor. exact Hr.
Qed.

Lemma tally_some (cat : Spec.Category) (sample : list Row) (row : Row) :
  row ∈ sample → Spec.categoryOf rt (cell row columnName) = Some cat →
  0 < Spec.tally rt columnName cat sample.
Proof.
  intros Hin Hcat. induction sample as [|r sample IH]; [inversion Hin|].
  rewrite tally_cons. apply elem_of_cons in Hin as [<-|Hin].
  - case_decide; [lia|contradiction].
  - specialize (IH Hin). lia.
Qed.

Lemma categoryOf_blank (value : JsValue) :
  isBlank value = true → Spec.categoryOf rt value = None.
Proof. intros H. unfold Spec.categoryOf. rewrite H. reflexivity. Qed.

End DetectionMore.

Import JS.
Import FileProcessor.

(** X4: [detectColumnType] looks at the first ten rows only: the type of
    a column of a table is the type it has in the table cut after its
    tenth row. *)
Theorem detectColumnType_first_ten_rows
    (rt : Runtime) (data : list Row) (columnName : string) :
  detectColumnType rt data columnName
  = detectColumnType rt (take 10 data) columnName.
Proof.
  unfold detectColumnType.
  destruct data as [|row data]; [reflexivity|].
  remember (row :: data) as rows eqn:Hrows.
  assert ((length rows =? 0) = false) as -> by (subst rows; reflexivity).
  assert ((length (take 10 rows) =? 0) = false) as -> by (subst rows; reflexivity).
  rewrite length_take, take_take.
  replace (Nat.min 10 (Nat.min 10 (length rows))) with (Nat.min 10 (length rows)) by lia.
  replace (Nat.min (Nat.min 10 (length rows)) 10) with (Nat.min 10 (length rows)) by lia.
  reflexivity.
Qed.

(** X5: blanks take no part in the vote.  For a column whose name is not
    the name of a member of [Object.prototype]: when every non-blank value
    of the sample counts for one and the same category, and the sample has
    a non-blank value, the column gets the type of that category. *)
Theorem detectColumnType_unanimous
    (rt : Runtime) (data : list Row) (columnName : string) (cat : Spec.Category) :
  columnName ∉ Obj.inherited →
  (∀ row, row ∈ Spec.sampleOf data →
     isBlank (cell row columnName) = true
     ∨ Spec.categoryOf rt (cell row columnName) = Some cat) →
  (∃ row, row ∈ Spec.sampleOf data ∧ isBlank (cell row columnName) = false) →
  detectColumnType rt data columnName = More.typeOf cat.
Proof.
  intros _ Hall (row & Hin & Hfilled).
  assert (Spec.categoryOf rt (cell row columnName) = Some cat) as Hcat.
  { destruct (Hall row Hin) as [Hblank|Hcat]; [congruence|exact Hcat]. }
  pose proof (tally_some rt columnName cat _ row Hin Hcat) as Hpos.
  assert (∀ other, other ≠ cat →
            Spec.tally rt columnName other (Spec.sampleOf data) = 0) as Hzero.
  { intros other Hne. apply tally_none. intros r Hr Hother.
    destruct (Hall r Hr) as [Hblank|Hc].
    - rewrite (categoryOf_blank rt _ Hblank) in Hother. discriminate.
    - congruence. }
  rewrite detectColumnType_by_tallies.
  destruct cat; cbn [More.typeOf];
    repeat match goal with
           | |- context [Spec.tally rt columnName ?c (Spec.sampleOf data)] =>
               lazymatch goal with
               | H : 0 < Spec.tally rt columnName c _ |- _ => fail
               | _ => rewrite (Hzero c) by discriminate
               end
           end;
    repeat case_decide; try reflexivity; lia.
Qed.

(** Two prices and two blanks. *)
Lemma detectColumnType_unanimous_witness :
  ("price" ∉ Obj.inherited)
  ∧ (∀ row, row ∈ Spec.sampleOf (Samples.texts "price" ["9.5"; ""; "12"; ""]) →
     isBlank (cell row "price") = true
     ∨ Spec.categoryOf Samples.runtime (cell row "price") = Some Spec.CNumber)
  ∧ (∃ row, row ∈ Spec.sampleOf (Samples.texts "price" ["9.5"; ""; "12"; ""])
            ∧ isBlank (cell row "price") = false)
  ∧ detectColumnType Samples.runtime (Samples.texts "price" ["9.5"; ""; "12"; ""])
      "price" = TNumber.
Proof.
  assert (∀ row, row ∈ Spec.sampleOf (Samples.texts "price" ["9.5"; ""; "12"; ""]) →
            isBlank (cell row "price") = true
            ∨ Spec.categoryOf Samples.runtime (cell row "price") = Some Spec.CNumber)
    as Hall.
  { intros row Hin. vm_compute in Hin.
    repeat (apply elem_of_cons in Hin as [->|Hin]);
      [right; reflexivity|left; reflexivity|right; reflexivity|left; reflexivity|].
    inversion Hin. }
  assert (∃ row, row ∈ Spec.sampleOf (Samples.texts "price" ["9.5"; ""; "12"; ""])
                 ∧ isBlank (cell row "price") = false) as Hsome.
  { exists [("price", VStr "9.5")]. split; [|reflexivity]. vm_compute. constructor. }
  assert ("price" ∉ Obj.inherited) as Hplain
    by (apply (bool_decide_unpack _); reflexivity).
  split; [exact Hplain|]. split; [exact Hall|]. split; [exact Hsome|].
  exact (detectColumnType_unanimous Samples.runtime _ "price" Spec.CNumber
           Hplain Hall Hsome).
Defined.

(* ===================================================================== *)
(** * Parsing uploads *)
(* ===================================================================== *)

Section Keys.
Import More.

Lemma existsb_strEq (key : string) (acc : list string) :
  existsb (strEq key) acc = true ↔ key ∈ acc.
Proof.
  rewrite existsb_exists. split.
  - intros (k & Hin & Heq). apply strEq_eq in Heq. subst k.
    apply list_elem_of_In. exact Hin.
  - intros Hin. exists key. split; [apply list_elem_of_In; exact Hin|apply strEq_refl].
Qed.

Lemma addKey_elem (acc : list string) (key k : string) :
  k ∈ addKey acc key ↔ k ∈ acc ∨ k = key.
Proof.
  unfold addKey. destruct (existsb (strEq key) acc) eqn:E.
  - apply existsb_strEq in E. split; [auto|]. intros [H| ->]; assumption.
  - rewrite elem_of_app, list_elem_of_singleton. reflexivity.
Qed.

Lemma addKey_NoDup (acc : list string) (key : string) :
  NoDup acc → NoDup (addKey acc key).
Proof.
  intros Hnd. unfold addKey. destruct (existsb (strEq key) acc) eqn:E; [exact Hnd|].
  apply NoDup_app. split; [exact Hnd|]. split; [|apply NoDup_singleton].
  intros k Hk Hk'. apply list_elem_of_singleton in Hk'. subst k.
  apply existsb_strEq in Hk. congruence.
Qed.

Lemma addKeys_from_elem (keys acc : list string) (k : string) :
  k ∈ fold_left addKey keys acc ↔ k ∈ acc ∨ k ∈ keys.
Proof.
  revert acc. induction keys as [|key keys IH]; intros acc; simpl.
  - split; [auto|]. intros [H|H]; [exact H|inversion H].
  - rewrite IH, addKey_elem, elem_of_cons. tauto.
Qed.

Lemma addKeys_from_NoDup (keys acc : list string) :
  NoDup acc → NoDup (fold_left addKey keys acc).
Proof.
  revert acc. induction keys as [|key keys IH]; intros acc Hnd; [exact Hnd|].
  simpl. apply IH, addKey_NoDup, Hnd.
Qed.

(** Keys that are all there already add nothing. *)
Lemma addKeys_from_known (keys acc : list string) :
  (∀ k, k ∈ keys → k ∈ acc) → fold_left addKey keys acc = acc.
Proof.
  revert acc. induction keys as [|key keys IH]; intros acc Hknown; [reflexivity|].
  simpl. unfold addKey at 2.
  assert (existsb (strEq key) acc = true) as ->.
  { apply existsb_strEq, Hknown. constructor. }
  apply IH. intros k Hk. apply Hknown. constructor. exact Hk.
Qed.

(** Distinct keys go in, behind what is there, in their order. *)
Lemma addKeys_from_fresh (keys acc : list string) :
  NoDup (acc ++ keys) → fold_left addKey keys acc = (acc ++ keys)%list.
Proof.
  revert acc. induction keys as [|key keys IH]; intros acc Hnd; simpl.
  - rewrite app_nil_r. reflexivity.
  - unfold addKey at 2.
    assert (existsb (strEq key) acc = false) as ->.
    { destruct (existsb (strEq key) acc) eqn:E; [|reflexivity].
      apply existsb_strEq in E. apply NoDup_app in Hnd as (_ & Hdisj & _).
      exfalso. apply (Hdisj key E). constructor. }
    rewrite IH; rewrite <- app_assoc; [reflexivity|exact Hnd].
Qed.

Lemma addKeys_fold (seen : list string) (row : Row) :
  addKeys seen row = fold_left addKey (Obj.keys row) seen.
Proof. reflexivity. Qed.

Lemma allKeys_elem (rows : list Row) (acc : list string) (k : string) :
  k ∈ fold_left addKeys rows acc ↔ k ∈ acc ∨ ∃ row, row ∈ rows ∧ k ∈ Obj.keys row.
Proof.
  revert acc. induction rows as [|row rows IH]; intros acc; simpl.
  - split; [auto|]. intros [H|(row & H & _)]; [exact H|inversion H].
  - rewrite IH, addKeys_fold, addKeys_from_elem. split.
    + intros [[H|H]|(r & Hr & Hk)]; [auto| |].
      * right. exists row. split; [constructor|exact H].
      * right. exists r. split; [constructor; exact Hr|exact Hk].
    + intros [H|(r & Hr & Hk)]; [auto|].
      apply elem_of_cons in Hr as [->|Hr]; [auto|]. right. eauto.
Qed.

Lemma allKeys_NoDup (rows : list Row) (acc : list string) :
  NoDup acc → NoDup (fold_left addKeys rows acc).
Proof.
  revert acc. induction rows as [|row rows IH]; intros acc Hnd; [exact Hnd|].
  simpl. apply IH. rewrite addKeys_fold. apply addKeys_from_NoDup, Hnd.
Qed.

Lemma allKeys_same_header (rows : list Row) (header : list string) :
  (∀ row, row ∈ rows → Obj.keys row = header) →
  fold_left addKeys rows header = header.
Proof.
  induction rows as [|row rows IH]; intros Hsame; [reflexivity|].
  simpl. rewrite addKeys_fold, (Hsame row) by constructor.
  rewrite addKeys_from_known by auto.
  apply IH. intros r Hr. apply Hsame. constructor. exact Hr.
Qed.

Lemma describe_names (rt : Runtime) (rows : list Row) (cols : list string) :
  map name (map (describe rt rows) cols) = cols.
Proof.
  induction cols as [|c cols IH]; [reflexivity|]. simpl. rewrite IH. reflexivity.
Qed.

End Keys.

(** X6: what [processCSV] makes of a file whose rows the parser reads and
    in which no key of a row is the name of a member of
    [Object.prototype]: the rows as they are, their number as the row
    count, and one column for each key that some row has, under distinct
    names, each with the type that [detectColumnType] finds for it in
    these rows. *)
Theorem processCSV_table
    (rt : Runtime) (d : Disk) (filePath : string) (blob : Blob) (rows : list Row) :
  files d !! filePath = Some blob →
  asCsv blob = Ok rows →
  (∀ row key, row ∈ rows → key ∈ Obj.keys row → key ∉ Obj.inherited) →
  ∃ processed,
    processCSV rt d filePath = Ok processed
    ∧ data processed = rows
    ∧ rowCount processed = length rows
    ∧ NoDup (map name (columns processed))
    ∧ (∀ key, key ∈ map name (columns processed)
              ↔ ∃ row, row ∈ rows ∧ key ∈ Obj.keys row)
    ∧ (∀ col, col ∈ columns processed →
              type col = detectColumnType rt rows (name col)).
Proof.
  intros Hfile Hrows _. unfold processCSV. rewrite Hfile, Hrows.
  eexists. split; [reflexivity|]. cbn [data rowCount columns].
  rewrite describe_names.
  split; [reflexivity|]. split; [reflexivity|].
  split; [apply allKeys_NoDup; constructor|].
  split.
  - intros key. rewrite allKeys_elem. split; [|auto].
    intros [H|H]; [inversion H|exact H].
  - intros col Hcol. apply list_elem_of_fmap in Hcol as (k & -> & _). reflexivity.
Qed.

Lemma processCSV_table_witness :
  (∀ row key, row ∈ Samples.revenue → key ∈ Obj.keys row → key ∉ Obj.inherited)
  ∧ ∃ processed,
    processCSV Samples.runtime Samples.uploads "uploads/4-sales.csv" = Ok processed
    ∧ data processed = Samples.revenue
    ∧ rowCount processed = 4
    ∧ NoDup (map name (columns processed))
    ∧ (∀ key, key ∈ map name (columns processed)
              ↔ ∃ row, row ∈ Samples.revenue ∧ key ∈ Obj.keys row)
    ∧ (∀ col, col ∈ columns processed →
              type col = detectColumnType Samples.runtime Samples.revenue (name col)).
Proof.
  assert (∀ row key, row ∈ Samples.revenue → key ∈ Obj.keys row →
                     key ∉ Obj.inherited) as Hplain.
  { intros row key Hrow Hkey. vm_compute in Hrow.
    repeat (apply elem_of_cons in Hrow as [->|Hrow]);
      try (apply list_elem_of_singleton in Hkey as ->;
           apply (bool_decide_unpack _); reflexivity).
    inversion Hrow. }
  split; [exact Hplain|].
  exact (processCSV_table Samples.runtime Samples.uploads "uploads/4-sales.csv"
           (Samples.blob (Ok Samples.revenue)) Samples.revenue eq_refl eq_refl Hplain).
Defined.

(** X7: when every row of a CSV file has the keys of the header, in its
    order, the columns of [processCSV] are the header, in its order. *)
Theorem processCSV_header_order
    (rt : Runtime) (d : Disk) (filePath : string) (blob : Blob)
    (rows : list Row) (header : list string) :
  files d !! filePath = Some blob →
  asCsv blob = Ok rows →
  rows ≠ [] →
  NoDup header →
  (∀ row, row ∈ rows → Obj.keys row = header) →
  ∃ processed,
    processCSV rt d filePath = Ok processed
    ∧ map name (columns processed) = header.
Proof.
  intros Hfile Hrows Hsome Hnd Hsame. unfold processCSV. rewrite Hfile, Hrows.
  eexists. split; [reflexivity|]. cbn [columns]. rewrite describe_names.
  destruct rows as [|row rows]; [contradiction|]. simpl.
  rewrite addKeys_fold, (Hsame row) by constructor.
  rewrite addKeys_from_fresh by exact Hnd. simpl.
  apply allKeys_same_header. intros r Hr. apply Hsame. constructor. exact Hr.
Qed.

Lemma processCSV_header_order_witness :
  ∃ processed,
    processCSV Samples.runtime Samples.uploads "uploads/3-header.csv" = Ok processed
    ∧ map name (columns processed) = [""; "b"].
Proof.
  apply (processCSV_header_order Samples.runtime Samples.uploads
           "uploads/3-header.csv"
           (Samples.blob (Ok [[("", VStr "1"); ("b", VStr "2")]]))
           [[("", VStr "1"); ("b", VStr "2")]] [""; "b"]).
  - reflexivity.
  - reflexivity.
  - discriminate.
  - apply (bool_decide_unpack _). vm_compute. exact I.
  - intros row Hrow. apply list_elem_of_singleton in Hrow. subst row. reflexivity.
Defined.

(** X8: the two outcomes of [processExcel].  A success is the first sheet
    of a workbook with at least one row: the rows as they are, their number
    as the row count, and the keys of the first row as the columns.  Every
    failure, the empty sheet among them, is reported under the prefix
    'Error processing Excel file: '. *)
Theorem processExcel_outcomes (rt : Runtime) (d : Disk) (filePath : string) :
  match processExcel rt d filePath with
  | Ok processed =>
      ∃ blob first rest,
        files d !! filePath = Some blob
        ∧ asWorkbook blob = Ok (first :: rest)
        ∧ data processed = first :: rest
        ∧ rowCount processed = S (length rest)
        ∧ map name (columns processed) = Obj.keys first
  | Throw e =>
      ∃ cause, e = "Error processing Excel file: " ++ cause
               ∧ (∀ blob, files d !! filePath = Some blob →
                          asWorkbook blob = Ok [] →
                          cause = "Excel file is empty or has no data")
  end.
Proof.
  unfold processExcel. destruct (files d !! filePath) as [blob|].
  - destruct (asWorkbook blob) as [[|first rest]|e] eqn:Hbook.
    + eexists. split; [reflexivity|]. reflexivity.
    + exists blob, first, rest. cbn [data rowCount columns].
      rewrite describe_names. repeat split. exact Hbook.
    + eexists. split; [reflexivity|]. intros b [= <-]. congruence.
  - eexists. split; [reflexivity|]. discriminate.
Qed.

(* ===================================================================== *)
(** * File names, the upload directory, date strings *)
(* ===================================================================== *)

Section FileNames.
Import More.

Lemma str_app_cons (c : ascii) (s t : string) :
  (String c s ++ t)%string = String c (s ++ t)%string.
Proof. reflexivity. Qed.

Lemma str_app_nil (s : string) : (s ++ "")%string = s.
Proof.
  induction s as [|c s IH]; [reflexivity|]. rewrite str_app_cons, IH. reflexivity.
Qed.

Lemma str_app_snoc (acc s : string) (c : ascii) :
  ((acc ++ String c EmptyString) ++ s)%string = (acc ++ String c s)%string.
Proof.
  induction acc as [|a acc IH]; [reflexivity|].
  rewrite !str_app_cons, IH. reflexivity.
Qed.

Lemma lastSegment_no_dot (acc s : string) :
  hasDot s = false → lastSegment acc s = (acc ++ s)%string.
Proof.
  revert acc. induction s as [|c s IH]; intros acc Hdot; simpl.
  - rewrite str_app_nil. reflexivity.
  - simpl in Hdot. apply orb_false_iff in Hdot as (Hc & Hs).
    rewrite Hc, IH by exact Hs. apply str_app_snoc.
Qed.

Lemma lastSegment_after_dot (acc base ext : string) :
  lastSegment acc (base ++ String "."%char ext) = lastSegment "" ext.
Proof.
  revert acc. induction base as [|c base IH]; intros acc.
  - reflexivity.
  - rewrite str_app_cons. cbn [lastSegment].
    destruct (Ascii.eqb c "."%char); apply IH.
Qed.

Lemma lastSegment_hasDot (acc s : string) :
  hasDot acc = false → hasDot (lastSegment acc s) = false.
Proof.
  revert acc. induction s as [|c s IH]; intros acc Hacc; simpl; [exact Hacc|].
  destruct (Ascii.eqb c "."%char) eqn:Hc; [apply IH; reflexivity|].
  apply IH. clear IH. induction acc as [|a acc IHacc].
  - simpl. rewrite Hc. reflexivity.
  - rewrite str_app_cons. simpl in Hacc |- *.
    apply orb_false_iff in Hacc as (Ha & Hacc).
    rewrite Ha. apply IHacc, Hacc.
Qed.

Lemma lowerChar_dot (c : ascii) :
  Ascii.eqb (lowerChar c) "."%char = Ascii.eqb c "."%char.
Proof. destruct c as [[] [] [] [] [] [] [] []]; reflexivity. Qed.

Lemma toLowerCase_hasDot (s : string) : hasDot (toLowerCase s) = hasDot s.
Proof.
  induction s as [|c s IH]; [reflexivity|]. simpl. rewrite lowerChar_dot, IH. reflexivity.
Qed.

End FileNames.

(** X9: [getFileType] gives the text after the last dot of a file name, in
    lower case, and the whole name in lower case when it has no dot; the
    file type has no dot in it. *)
Theorem getFileType_extension (fileName : string) :
  More.hasDot (getFileType fileName) = false
  ∧ (∀ base ext, More.hasDot ext = false →
       fileName = base ++ String "."%char ext →
       getFileType fileName = toLowerCase ext)
  ∧ (More.hasDot fileName = false → getFileType fileName = toLowerCase fileName).
Proof.
  unfold getFileType. split; [|split].
  - rewrite toLowerCase_hasDot. apply lastSegment_hasDot. reflexivity.
  - intros base ext Hext ->. rewrite lastSegment_after_dot.
    rewrite lastSegment_no_dot by exact Hext. reflexivity.
  - intros Hdot. rewrite lastSegment_no_dot by exact Hdot. reflexivity.
Qed.

(** X10: [cleanupFile] touches the one path it is given: every other file
    stays as it is, the path itself is gone afterwards unless the unlink
    failed, and a second call changes nothing more. *)
Theorem cleanupFile_effect (d : Disk) (filePath : string) :
  (∀ other, other ≠ filePath →
     files (cleanupFile d filePath) !! other = files d !! other)
  ∧ existsSync (cleanupFile d filePath) filePath
    = existsSync d filePath && locked d filePath
  ∧ cleanupFile (cleanupFile d filePath) filePath = cleanupFile d filePath.
Proof.
  unfold cleanupFile, existsSync.
  destruct (files d !! filePath) as [blob|] eqn:Hfile.
  - destruct (locked d filePath) eqn:Hlocked.
    + rewrite Hfile, Hlocked. repeat split.
    + cbn [files locked]. rewrite lookup_delete_eq.
      split; [|split; reflexivity].
      intros other Hne. apply lookup_delete_ne. congruence.
  - rewrite Hfile. repeat split.
Qed.

Section DateStrings.

Lemma matchesPattern_length (pat s : string) :
  matchesPattern pat s = true → String.length s = String.length pat.
Proof.
  revert s. induction pat as [|p pat IH]; intros [|c s]; simpl; try discriminate.
  - reflexivity.
  - intros (_ & H)%andb_true_iff. rewrite (IH s H). reflexivity.
Qed.

End DateStrings.

(** X11: [isValidDate] accepts a value only when its text has exactly ten
    characters and [new Date] makes a valid date of it; a boolean is never
    a date. *)
Theorem isValidDate_only_ten_characters (rt : Runtime) (value : JsValue) :
  isValidDate rt value = true →
  String.length (toString rt value) = 10
  ∧ (∃ t, newDate rt value = Some t)
  ∧ (∀ b, value ≠ VBool b).
Proof.
  unfold isValidDate.
  destruct (existsb _ datePatterns) eqn:Hmatch; [|discriminate].
  cbn [negb]. intros Hdate.
  apply existsb_exists in Hmatch as (pat & Hpat & Hm).
  apply matchesPattern_length in Hm.
  assert (String.length pat = 10) as Hten.
  { unfold datePatterns in Hpat. simpl in Hpat.
    destruct Hpat as [<-|[<-|[<-|[<-|[]]]]]; reflexivity. }
  split; [congruence|]. split.
  - destruct (newDate rt value) as [t|]; [eauto|discriminate].
  - intros b ->. rewrite Hten in Hm. destruct b; discriminate.
Qed.

Lemma isValidDate_only_ten_characters_witness :
  isValidDate Samples.runtime (VStr "1970-01-05") = true
  ∧ String.length (toString Samples.runtime (VStr "1970-01-05")) = 10
  ∧ (∃ t, newDate Samples.runtime (VStr "1970-01-05") = Some t)
  ∧ (∀ b, VStr "1970-01-05" ≠ VBool b).
Proof.
  split; [reflexivity|].
  exact (isValidDate_only_ten_characters Samples.runtime (VStr "1970-01-05") eq_refl).
Defined.

(* ===================================================================== *)
(** * More on objects *)
(* ===================================================================== *)

Section ObjMore.
Context {V : Type}.
Implicit Types (o : Obj.t V) (k : string) (v : V).

Lemma get_None_keys k o : Obj.get k o = None ↔ k ∉ Obj.keys o.
Proof.
  induction o as [|[k0 v0] o IH]; simpl.
  - split; [intros _ H; inversion H|reflexivity].
  - destruct (strEq k k0) eqn:E.
    + apply strEq_eq in E. subst k0. split; [discriminate|].
      intros H. exfalso. apply H. constructor.
    + apply strEq_neq in E. rewrite IH. rewrite not_elem_of_cons. tauto.
Qed.

Lemma get_Some_elem k v o : Obj.get k o = Some v → (k, v) ∈ o.
Proof.
  induction o as [|[k0 v0] o IH]; simpl; [discriminate|].
  destruct (strEq k k0) eqn:E.
  - apply strEq_eq in E. subst k0. intros [= ->]. constructor.
  - intros H. constructor. apply IH, H.
Qed.

Lemma elem_get_Some k v o : NoDup (Obj.keys o) → (k, v) ∈ o → Obj.get k o = Some v.
Proof.
  induction o as [|[k0 v0] o IH]; intros Hnd Hin; [inversion Hin|].
  simpl in Hnd. apply NoDup_cons in Hnd as (Hfresh & Hnd).
  apply elem_of_cons in Hin as [[= <- <-]|Hin]; simpl.
  - rewrite strEq_refl. reflexivity.
  - destruct (strEq k k0) eqn:E; [|apply IH; assumption].
    apply strEq_eq in E. subst k0. exfalso. apply Hfresh.
    apply list_elem_of_fmap. exists (k, v). auto.
Qed.

Lemma keys_update k v o : Obj.keys (Obj.update k v o) = Obj.keys o.
Proof.
  induction o as [|[k0 v0] o IH]; [reflexivity|]. simpl.
  destruct (strEq k k0); simpl; [reflexivity|]. rewrite IH. reflexivity.
Qed.

Lemma insertIndex_perm i k v o : Obj.insertIndex i k v o ≡ₚ (k, v) :: o.
Proof.
  induction o as [|[k0 v0] o IH]; [reflexivity|]. simpl.
  destruct (Obj.arrayIndex k0) as [j|]; [|reflexivity].
  destruct (i <? j)%Z; [reflexivity|].
  rewrite IH. apply Permutation_swap.
Qed.

(** Writing a property keeps the keys distinct. *)
Lemma set_NoDup k v o : NoDup (Obj.keys o) → NoDup (Obj.keys (Obj.set k v o)).
Proof.
  intros Hnd. unfold Obj.set, Obj.has.
  destruct (Obj.get k o) eqn:Hget.
  - rewrite keys_update. exact Hnd.
  - apply get_None_keys in Hget.
    assert (NoDup (k :: Obj.keys o)) as Hnew by (apply NoDup_cons; auto).
    destruct (Obj.arrayIndex k) as [i|].
    + unfold Obj.keys in *. rewrite (insertIndex_perm i k v o). exact Hnew.
    + unfold Obj.keys in *. rewrite fmap_app. simpl.
      apply NoDup_app. split; [exact Hnd|]. split; [|apply NoDup_singleton].
      intros x Hx Hx'. apply list_elem_of_singleton in Hx'. subst x. contradiction.
Qed.

End ObjMore.

Section Counting.

Lemma sumCounts_update (k : string) (n : nat) (o : Obj.t nat) (old : nat) :
  Obj.get k o = Some old →
  More.sumCounts (Obj.update k n o) + old = More.sumCounts o + n.
Proof.
  unfold More.sumCounts.
  induction o as [|[k0 v0] o IH]; simpl; [discriminate|].
  destruct (strEq k k0); simpl.
  - intros [= ->]. lia.
  - intros H. specialize (IH H). lia.
Qed.

Lemma sumCounts_perm (l1 l2 : list (string * nat)) :
  l1 ≡ₚ l2 → More.sumCounts l1 = More.sumCounts l2.
Proof.
  intros H. unfold More.sumCounts.
  induction H; simpl; lia.
Qed.

(** Counting one more value under a key adds one to the sum of the counts. *)
Lemma sumCounts_step (k : string) (o : Obj.t nat) :
  More.sumCounts (Obj.set k (default 0 (Obj.get k o) + 1) o) = S (More.sumCounts o).
Proof.
  unfold Obj.set, Obj.has. destruct (Obj.get k o) as [old|] eqn:Hget.
  - pose proof (sumCounts_update k (old + 1) o old Hget) as H. simpl. lia.
  - simpl. destruct (Obj.arrayIndex k) as [i|].
    + rewrite (sumCounts_perm _ _ (insertIndex_perm i k 1 o)).
      unfold More.sumCounts. simpl. lia.
    + unfold More.sumCounts. rewrite map_app, list_sum_app. simpl. lia.
Qed.

End Counting.

(* ===================================================================== *)
(** * Counting the values of a column *)
(* ===================================================================== *)

Section CountValues.
Import DataAnalyzer.
Import More.

Variable rt : Runtime.

Lemma countValues_snoc (values : list JsValue) (v : JsValue) :
  keyOf rt v ≠ "__proto__" →
  countValues rt (values ++ [v]) =
  Obj.set (keyOf rt v)
    (default 0 (Obj.get (keyOf rt v) (countValues rt values)) + 1)
    (countValues rt values).
Proof.
  intros Hkey. unfold countValues. rewrite fold_left_app. simpl.
  unfold keyOf in Hkey. destruct (strEq _ "__proto__") eqn:Heq; [|reflexivity].
  apply strEq_eq in Heq. contradiction.
Qed.

Lemma occurrences_snoc (k : string) (values : list JsValue) (v : JsValue) :
  occurrences rt k (values ++ [v]) =
  occurrences rt k values + (if decide (keyOf rt v = k) then 1 else 0).
Proof.
  unfold occurrences. rewrite filter_app, length_app, filter_cons, filter_nil.
  case_decide; reflexivity.
Qed.

Lemma occurrences_le (k : string) (values : list JsValue) :
  occurrences rt k values ≤ length values.
Proof. unfold occurrences. apply length_filter. Qed.

(** [countValues] holds, under distinct keys, for each text the number of
    values counted under it, and nothing for a text that no value has. *)
Lemma countValues_correct (values : list JsValue) :
  (∀ v, v ∈ values → keyOf rt v ≠ "__proto__") →
  NoDup (Obj.keys (countValues rt values))
  ∧ (∀ k, Obj.get k (countValues rt values) =
          if decide (occurrences rt k values = 0) then None
          else Some (occurrences rt k values))
  ∧ sumCounts (countValues rt values) = length values.
Proof.
  induction values as [|v values IH] using rev_ind; intros Hkeys.
  - split; [constructor|]. split; [|reflexivity]. intros k. reflexivity.
  - destruct IH as (Hnd & Hget & Hsum).
    { intros w Hw. apply Hkeys. apply elem_of_app. left. exact Hw. }
    rewrite countValues_snoc
      by (apply Hkeys; apply elem_of_app; right; apply list_elem_of_singleton;
          reflexivity).
    split; [apply set_NoDup, Hnd|]. split.
    + intros k. rewrite occurrences_snoc.
      destruct (decide (keyOf rt v = k)) as [->|Hne].
      * rewrite get_set_eq, Hget.
        repeat case_decide; try lia; simpl; f_equal; lia.
      * rewrite get_set_ne by exact Hne. rewrite Hget, Nat.add_0_r. reflexivity.
    + rewrite sumCounts_step, Hsum, length_app. simpl. lia.
Qed.

End CountValues.

(* ===================================================================== *)
(** * Sorting, in general *)
(* ===================================================================== *)

Section SortMore.
Context {A : Type} (compareFn : A → A → JsNumber).

Lemma insertSorted_perm (x : A) (l : list A) : insertSorted compareFn x l ≡ₚ x :: l.
Proof.
  induction l as [|y l IH]; [reflexivity|]. simpl.
  destruct (jsLt _ _); [reflexivity|]. rewrite IH. apply Permutation_swap.
Qed.

Lemma sort_from_perm (l acc : list A) :
  fold_left (fun acc x => insertSorted compareFn x acc) l acc ≡ₚ (l ++ acc)%list.
Proof.
  revert acc. induction l as [|x l IH]; intros acc; [reflexivity|].
  simpl. rewrite IH, insertSorted_perm. symmetry. apply Permutation_middle.
Qed.

(** Sorting rearranges: nothing is lost and nothing is added. *)
Lemma sort_perm (l : list A) : sort compareFn l ≡ₚ l.
Proof. unfold sort. rewrite sort_from_perm, app_nil_r. reflexivity. Qed.

(** The comparator orders by a rational key. *)
Variable key : A → Q.
Hypothesis compare_key :
  ∀ x y, jsLt (compareFn x y) (Finite 0) = true ↔ (key x < key y)%Q.

Abbreviation byKey := (More.byKey key).

Lemma insertSorted_byKey (x : A) (l : list A) :
  StronglySorted byKey l → StronglySorted byKey (insertSorted compareFn x l).
Proof using compare_key.
  intros Hsorted. induction Hsorted as [|y l Hsorted IH Hy]; simpl.
  - repeat constructor.
  - destruct (jsLt (compareFn x y) (Finite 0)) eqn:Hcmp.
    + apply compare_key in Hcmp.
      constructor; [constructor; assumption|].
      constructor; [unfold More.byKey; lra|].
      rewrite Forall_forall in Hy |- *. intros z Hz.
      specialize (Hy z Hz). unfold More.byKey in *. lra.
    + constructor; [exact IH|].
      apply insertSorted_Forall; [|exact Hy].
      unfold More.byKey. destruct (Qlt_le_dec (key x) (key y)) as [Hlt|Hle]; [|exact Hle].
      apply compare_key in Hlt. congruence.
Qed.

Lemma sort_from_byKey (l acc : list A) :
  StronglySorted byKey acc →
  StronglySorted byKey (fold_left (fun acc x => insertSorted compareFn x acc) l acc).
Proof using compare_key.
  revert acc. induction l as [|x l IH]; intros acc Hacc; [exact Hacc|].
  simpl. apply IH, insertSorted_byKey, Hacc.
Qed.

Lemma sort_byKey (l : list A) : StronglySorted byKey (sort compareFn l).
Proof using compare_key. apply sort_from_byKey. constructor. Qed.

End SortMore.

(* ===================================================================== *)
(** * Categorical statistics, in full *)
(* ===================================================================== *)

Section CategoricalMore.
Import DataAnalyzer.
Import More.

Variable rt : Runtime.

Lemma countKey_compare (x y : string * nat) :
  jsLt (jsSub (ofNat (snd y)) (ofNat (snd x))) (Finite 0) = true
  ↔ (countKey x < countKey y)%Q.
Proof.
  unfold ofNat, ofZ. rewrite compare_finite. unfold countKey. split; intros; lra.
Qed.

Lemma countKey_le (x y : string * nat) : byKey countKey x y ↔ snd y ≤ snd x.
Proof.
  unfold byKey, countKey, Qle. simpl. lia.
Qed.

(** The entry of a string column, from the sorted counts. *)
Lemma categoricalEntry_shape (rows : nat) (values : list JsValue) :
  ∃ sorted,
    sorted ≡ₚ countValues rt values
    ∧ StronglySorted (byKey countKey) sorted
    ∧ categoricalEntry rt rows values =
      Categorical (length sorted) (length values) (rows - length values)
        (map (topOf rt (length values)) (take 5 sorted))
        (match sorted with
         | first :: _ => Some (fst first)
         | [] => None
         end).
Proof.
  eexists. split; [|split; [|reflexivity]].
  - apply sort_perm.
  - apply sort_byKey. intros x y. apply countKey_compare.
Qed.

Lemma topOf_fields (total : nat) (entry : string * nat) :
  Top.value (topOf rt total entry) = fst entry
  ∧ Top.count (topOf rt total entry) = snd entry.
Proof. destruct entry. split; reflexivity. Qed.

Lemma sumTop_topOf (total : nat) (entries : list (string * nat)) :
  sumTop (map (topOf rt total) entries) = sumCounts entries.
Proof.
  unfold sumTop, sumCounts. induction entries as [|[k n] entries IH]; [reflexivity|].
  simpl. rewrite IH. reflexivity.
Qed.

Lemma sumCounts_take (n : nat) (entries : list (string * nat)) :
  sumCounts (take n entries) ≤ sumCounts entries.
Proof.
  unfold sumCounts. revert n. induction entries as [|e entries IH]; intros [|n]; simpl; try lia.
  specialize (IH n). lia.
Qed.

Lemma sumCounts_positive (entries : list (string * nat)) :
  (∀ e, e ∈ entries → 1 ≤ snd e) → length entries ≤ sumCounts entries.
Proof.
  unfold sumCounts. induction entries as [|e entries IH]; intros Hpos; simpl; [lia|].
  pose proof (Hpos e ltac:(constructor)) as He.
  assert (length entries ≤ list_sum (map snd entries)) as Hrest.
  { apply IH. intros x Hx. apply Hpos. constructor. exact Hx. }
  lia.
Qed.

(** What is in the sorted counts: the texts of the values, each once, with
    the number of values counted under it. *)
Lemma sorted_counts_entries (values : list JsValue) (sorted : list (string * nat)) :
  (∀ v, v ∈ values → keyOf rt v ∉ Obj.inherited) →
  sorted ≡ₚ countValues rt values →
  NoDup (map fst sorted)
  ∧ (∀ text n, (text, n) ∈ sorted ↔ n = occurrences rt text values ∧ 1 ≤ n)
  ∧ sumCounts sorted = length values.
Proof.
  intros Hplain Hperm.
  destruct (countValues_correct rt values) as (Hnd & Hget & Hsum).
  { intros v Hv Hkey. apply (Hplain v Hv). rewrite Hkey.
    apply (bool_decide_unpack _). reflexivity. }
  split; [|split].
  - rewrite Hperm. exact Hnd.
  - intros text n. rewrite Hperm. split.
    + intros Hin. apply (elem_get_Some _ _ _ Hnd) in Hin.
      rewrite Hget in Hin. case_decide; [discriminate|].
      injection Hin as <-. split; [reflexivity|lia].
    + intros (-> & Hpos). apply get_Some_elem. rewrite Hget.
      case_decide; [lia|reflexivity].
  - rewrite (sumCounts_perm _ _ Hperm). exact Hsum.
Qed.

Lemma StronglySorted_app_cross {A : Type} (R : A → A → Prop) (l1 l2 : list A) :
  StronglySorted R (l1 ++ l2) → ∀ x y, x ∈ l1 → y ∈ l2 → R x y.
Proof.
  induction l1 as [|a l1 IH]; intros Hsorted x y Hx Hy; [inversion Hx|].
  simpl in Hsorted. apply StronglySorted_inv in Hsorted as (Hrest & Ha).
  apply elem_of_cons in Hx as [->|Hx].
  - rewrite Forall_forall in Ha. apply Ha. apply elem_of_app. right. exact Hy.
  - apply IH; assumption.
Qed.

Lemma StronglySorted_take {A : Type} (R : A → A → Prop) (n : nat) (l : list A) :
  StronglySorted R l → StronglySorted R (take n l).
Proof.
  intros Hsorted. revert n. induction Hsorted as [|a l Hsorted IH Ha]; intros n.
  - destruct n; constructor.
  - destruct n as [|n]; simpl; constructor.
    + apply IH.
    + rewrite Forall_forall in Ha. apply Forall_forall. intros x Hx. apply Ha.
      apply (subseteq_take n l). exact Hx.
Qed.

Lemma StronglySorted_map {A B : Type} (R : A → A → Prop) (S : B → B → Prop)
    (f : A → B) (l : list A) :
  (∀ x y, R x y → S (f x) (f y)) →
  StronglySorted R l → StronglySorted S (map f l).
Proof.
  intros Hf Hsorted. induction Hsorted as [|a l Hsorted IH Ha]; simpl; constructor.
  - exact IH.
  - rewrite Forall_forall in Ha. apply Forall_forall. intros y Hy.
    apply list_elem_of_fmap in Hy as (x & -> & Hx). apply Hf, Ha, Hx.
Qed.

End CategoricalMore.

Section Origins.
Import DataAnalyzer.

Variables (rt : Runtime) (data : list Row) (cols : list Column).

(** Where the entries of a returned statistics object come from. *)
Lemma entry_origin (stats : SummaryStats) (f : StatsField) (k : string)
    (e : StatEntry) :
  generateSummaryStats rt data cols = Ok stats →
  Obj.get k (Spec.mapping f stats) = Some e →
  data ≠ []
  ∧ rowCount stats = length data
  ∧ ∃ col, col ∈ cols ∧ name col = k ∧ Spec.outcome rt data col = Spec.Recorded f e.
Proof.
  intros Hrun Hget.
  destruct data as [|row rows] eqn:Hdata.
  - injection Hrun as <-. destruct f; discriminate.
  - rewrite <- Hdata in *.
    assert (data ≠ []) as Hne by (rewrite Hdata; discriminate).
    rewrite generateSummaryStats_loop in Hrun by exact Hne.
    apply forEachColumn_entries in Hrun as (Hent & Hrows & _); [|intros []; reflexivity].
    split; [exact Hne|]. split; [exact Hrows|]. apply Hent, Hget.
Qed.

Lemma categorical_origin (stats : SummaryStats) (k : string) (e : StatEntry) :
  generateSummaryStats rt data cols = Ok stats →
  Obj.get k (categoricalStats stats) = Some e →
  rowCount stats = length data
  ∧ presentValues data k ≠ []
  ∧ e = categoricalEntry rt (length data) (presentValues data k).
Proof.
  intros Hrun Hget.
  destruct (entry_origin stats FCategorical k e Hrun Hget)
    as (_ & Hrows & col & _ & <- & Hout).
  split; [exact Hrows|]. unfold Spec.outcome in Hout.
  destruct (length (presentValues data (name col)) =? 0) eqn:Hlen.
  - destruct (type col); discriminate.
  - split; [intros Hnil; rewrite Hnil in Hlen; discriminate|].
    destruct (type col); try discriminate;
      try (destruct (0 <? length _); discriminate).
    congruence.
Qed.

End Origins.

Import DataAnalyzer.

(** X12: the counts of a string column.  For a column whose name and
    whose cell texts are not names of members of [Object.prototype], and
    every entry of it in [categoricalStats]: the total count is the number
    of non-blank cells of the column, total count and null count add up to
    the row count, there is at least one unique value and no more of them
    than counted cells, the top values are the first five of them or all
    when there are fewer, and the counts of the top values add up to no
    more than the total count. *)
Theorem categoricalStats_counts
    (rt : Runtime) (data : list Row) (cols : list Column)
    (stats : SummaryStats) (k : string) (e : StatEntry) :
  generateSummaryStats rt data cols = Ok stats →
  Obj.get k (categoricalStats stats) = Some e →
  k ∉ Obj.inherited →
  (∀ v, v ∈ presentValues data k → More.keyOf rt v ∉ Obj.inherited) →
  ∃ unique total nulls tops,
    uniqueValues e = Some unique
    ∧ totalCount e = Some total
    ∧ nullCount e = Some nulls
    ∧ topValues e = Some tops
    ∧ total = length (presentValues data k)
    ∧ total + nulls = rowCount stats
    ∧ 1 ≤ unique ∧ unique ≤ total
    ∧ length tops = Nat.min 5 unique
    ∧ More.sumTop tops ≤ total.
Proof.
  intros Hrun Hget _ Hplain.
  destruct (categorical_origin rt data cols stats k e Hrun Hget) as (Hrows & Hsome & ->).
  destruct (categoricalEntry_shape rt (length data) (presentValues data k))
    as (sorted & Hperm & _ & ->).
  destruct (sorted_counts_entries rt _ sorted Hplain Hperm) as (_ & Hin & Hsum).
  pose proof (presentValues_length data k) as Hlen.
  do 4 eexists. repeat (split; [reflexivity|]).
  split; [rewrite Hrows; lia|].
  assert (length sorted ≤ length (presentValues data k)) as Hunique.
  { rewrite <- Hsum. apply sumCounts_positive. intros [text n] Hx.
    apply Hin in Hx. simpl. lia. }
  split.
  { rewrite Hperm.
    assert (countValues rt (presentValues data k) ≠ []) as Hne.
    { destruct (presentValues data k) as [|v values] eqn:Hvalues; [contradiction|].
      apply (countValues_not_empty rt _ v); [constructor|].
      intros Hkey. apply (Hplain v ltac:(constructor)).
      unfold More.keyOf. rewrite Hkey. apply (bool_decide_unpack _). reflexivity. }
    destruct (countValues rt (presentValues data k)); [contradiction|simpl; lia]. }
  split; [exact Hunique|].
  split; [rewrite length_map, length_take; reflexivity|].
  rewrite sumTop_topOf, <- Hsum. apply sumCounts_take.
Qed.

(** The string column of the table of two rows. *)
Lemma categoricalStats_counts_witness :
  ("s" ∉ Obj.inherited)
  ∧ (∀ v, v ∈ presentValues Samples.mixedTable "s" →
          More.keyOf Samples.runtime v ∉ Obj.inherited)
  ∧ ∃ stats e unique total nulls tops,
      generateSummaryStats Samples.runtime Samples.mixedTable Samples.mixedColumns
        = Ok stats
      ∧ Obj.get "s" (categoricalStats stats) = Some e
      ∧ uniqueValues e = Some unique
      ∧ totalCount e = Some total
      ∧ nullCount e = Some nulls
      ∧ topValues e = Some tops
      ∧ total = length (presentValues Samples.mixedTable "s")
      ∧ total + nulls = rowCount stats
      ∧ 1 ≤ unique ∧ unique ≤ total
      ∧ length tops = Nat.min 5 unique
      ∧ More.sumTop tops ≤ total.
Proof.
  assert ("s" ∉ Obj.inherited) as Hname by (apply (bool_decide_unpack _); reflexivity).
  assert (∀ v, v ∈ presentValues Samples.mixedTable "s" →
               More.keyOf Samples.runtime v ∉ Obj.inherited) as Hplain.
  { intros v Hv. vm_compute in Hv.
    repeat (apply elem_of_cons in Hv as [->|Hv]);
      try (apply (bool_decide_unpack _); reflexivity).
    inversion Hv. }
  split; [exact Hname|]. split; [exact Hplain|].
  destruct (categoricalStats_counts Samples.runtime Samples.mixedTable
              Samples.mixedColumns
              (match generateSummaryStats Samples.runtime Samples.mixedTable
                       Samples.mixedColumns with
               | Ok stats => stats
               | Throw _ => Build_SummaryStats 0 0 [] [] [] []
               end)
              "s"
              (default (NullOnly 0)
                 (Obj.get "s"
                    (categoricalStats
                       (match generateSummaryStats Samples.runtime Samples.mixedTable
                                Samples.mixedColumns with
                        | Ok stats => stats
                        | Throw _ => Build_SummaryStats 0 0 [] [] [] []
                        end)))))
    as (unique & total & nulls & tops & H).
  - reflexivity.
  - reflexivity.
  - exact Hname.
  - exact Hplain.
  - eexists _, _, unique, total, nulls, tops.
    split; [reflexivity|]. split; [reflexivity|]. exact H.
Defined.

(** X13: the top values of a string column are right.  For a column whose
    name and whose cell texts are not names of members of
    [Object.prototype], in every entry of it in [categoricalStats] the top
    values are distinct texts, each with the number of non-blank cells of
    the column that trim to it, in the order of non-increasing counts; and
    a text that is not among them occurs no more often in the column than
    any of them. *)
Theorem categoricalStats_topValues
    (rt : Runtime) (data : list Row) (cols : list Column)
    (stats : SummaryStats) (k : string) (e : StatEntry) (tops : list Top.t) :
  generateSummaryStats rt data cols = Ok stats →
  Obj.get k (categoricalStats stats) = Some e →
  topValues e = Some tops →
  k ∉ Obj.inherited →
  (∀ v, v ∈ presentValues data k → More.keyOf rt v ∉ Obj.inherited) →
  NoDup (map Top.value tops)
  ∧ (∀ tv, tv ∈ tops →
       Top.count tv = More.occurrences rt (Top.value tv) (presentValues data k)
       ∧ 1 ≤ Top.count tv)
  ∧ StronglySorted (fun a b => Top.count b ≤ Top.count a) tops
  ∧ (∀ tv text, tv ∈ tops → text ∉ map Top.value tops →
       More.occurrences rt text (presentValues data k) ≤ Top.count tv).
Proof.
  intros Hrun Hget Htops _ Hplain.
  destruct (categorical_origin rt data cols stats k e Hrun Hget) as (_ & _ & ->).
  destruct (categoricalEntry_shape rt (length data) (presentValues data k))
    as (sorted & Hperm & Hsorted & Hshape).
  rewrite Hshape in Htops. injection Htops as <-.
  destruct (sorted_counts_entries rt _ sorted Hplain Hperm) as (Hnd & Hin & _).
  assert (map Top.value (map (More.topOf rt (length (presentValues data k)))
                           (take 5 sorted))
          = map fst (take 5 sorted)) as Hvalues.
  { rewrite map_map. apply map_ext. intros entry. apply topOf_fields. }
  rewrite Hvalues.
  split; [|split; [|split]].
  - rewrite <- (take_drop 5 sorted), fmap_app in Hnd.
    apply NoDup_app in Hnd as (Hnd & _). exact Hnd.
  - intros tv Htv. apply list_elem_of_fmap in Htv as ([text n] & -> & Hentry).
    apply (subseteq_take 5 sorted) in Hentry. apply Hin in Hentry. exact Hentry.
  - apply (StronglySorted_map (More.byKey More.countKey)).
    + intros x y Hxy. apply countKey_le in Hxy.
      destruct (topOf_fields rt (length (presentValues data k)) x) as (_ & ->).
      destruct (topOf_fields rt (length (presentValues data k)) y) as (_ & ->).
      exact Hxy.
    + apply StronglySorted_take, Hsorted.
  - intros tv text Htv Hother.
    apply list_elem_of_fmap in Htv as (top & -> & Htop).
    destruct (topOf_fields rt (length (presentValues data k)) top) as (_ & ->).
    destruct (decide (More.occurrences rt text (presentValues data k) = 0))
      as [->|Hocc]; [lia|].
    assert ((text, More.occurrences rt text (presentValues data k)) ∈ sorted) as Hentry.
    { apply Hin. split; [reflexivity|lia]. }
    rewrite <- (take_drop 5 sorted) in Hentry, Hsorted.
    apply elem_of_app in Hentry as [Hentry|Hentry].
    + exfalso. apply Hother. apply list_elem_of_fmap. eexists. split; [|exact Hentry].
      reflexivity.
    + pose proof (StronglySorted_app_cross _ _ _ Hsorted _ _ Htop Hentry) as Hle.
      apply countKey_le in Hle. exact Hle.
Qed.

Lemma categoricalStats_topValues_witness :
  ("s" ∉ Obj.inherited)
  ∧ (∀ v, v ∈ presentValues Samples.mixedTable "s" →
          More.keyOf Samples.runtime v ∉ Obj.inherited)
  ∧ ∃ stats e tops,
      generateSummaryStats Samples.runtime Samples.mixedTable Samples.mixedColumns
        = Ok stats
      ∧ Obj.get "s" (categoricalStats stats) = Some e
      ∧ topValues e = Some tops
      ∧ NoDup (map Top.value tops)
      ∧ (∀ tv, tv ∈ tops →
           Top.count tv
           = More.occurrences Samples.runtime (Top.value tv)
               (presentValues Samples.mixedTable "s")
           ∧ 1 ≤ Top.count tv)
      ∧ StronglySorted (fun a b => Top.count b ≤ Top.count a) tops
      ∧ (∀ tv text, tv ∈ tops → text ∉ map Top.value tops →
           More.occurrences Samples.runtime text (presentValues Samples.mixedTable "s")
           ≤ Top.count tv).
Proof.
  assert ("s" ∉ Obj.inherited) as Hname by (apply (bool_decide_unpack _); reflexivity).
  assert (∀ v, v ∈ presentValues Samples.mixedTable "s" →
               More.keyOf Samples.runtime v ∉ Obj.inherited) as Hplain.
  { intros v Hv. vm_compute in Hv.
    repeat (apply elem_of_cons in Hv as [->|Hv]);
      try (apply (bool_decide_unpack _); reflexivity).
    inversion Hv. }
  split; [exact Hname|]. split; [exact Hplain|].
  exists (match generateSummaryStats Samples.runtime Samples.mixedTable
                 Samples.mixedColumns with
          | Ok stats => stats
          | Throw _ => Build_SummaryStats 0 0 [] [] [] []
          end).
  exists (Categorical 1 2 0 [ {| Top.value := "a"; Top.count := 2;
                                 Top.percentage := "100.00" |} ] (Some "a")).
  exists [ {| Top.value := "a"; Top.count := 2; Top.percentage := "100.00" |} ].
  split; [reflexivity|]. split; [reflexivity|]. split; [reflexivity|].
  apply (categoricalStats_topValues Samples.runtime Samples.mixedTable
           Samples.mixedColumns _ "s" _ _ eq_refl eq_refl eq_refl Hname Hplain).
Defined.

(** X14: [mostFrequent] is a mode of the column.  For a column whose name
    and whose cell texts are not names of members of [Object.prototype],
    in every entry of it in [categoricalStats], [mostFrequent] is a text,
    and no text occurs more often among the non-blank cells of the
    column. *)
Theorem categoricalStats_mostFrequent_is_mode
    (rt : Runtime) (data : list Row) (cols : list Column)
    (stats : SummaryStats) (k : string) (e : StatEntry) :
  generateSummaryStats rt data cols = Ok stats →
  Obj.get k (categoricalStats stats) = Some e →
  k ∉ Obj.inherited →
  (∀ v, v ∈ presentValues data k → More.keyOf rt v ∉ Obj.inherited) →
  ∃ mode,
    mostFrequent e = Some (Some mode)
    ∧ 1 ≤ More.occurrences rt mode (presentValues data k)
    ∧ ∀ text, More.occurrences rt text (presentValues data k)
              ≤ More.occurrences rt mode (presentValues data k).
Proof.
  intros Hrun Hget _ Hplain.
  destruct (categorical_origin rt data cols stats k e Hrun Hget) as (_ & Hsome & ->).
  destruct (categoricalEntry_shape rt (length data) (presentValues data k))
    as (sorted & Hperm & Hsorted & ->).
  destruct (sorted_counts_entries rt _ sorted Hplain Hperm) as (_ & Hin & Hsum).
  destruct sorted as [|[mode n] rest].
  { exfalso. simpl in Hsum. unfold More.sumCounts in Hsum. simpl in Hsum.
    destruct (presentValues data k); [contradiction|discriminate]. }
  exists mode. split; [reflexivity|].
  destruct (proj1 (Hin mode n) ltac:(constructor)) as (-> & Hpos).
  split; [exact Hpos|]. intros text.
  destruct (decide (More.occurrences rt text (presentValues data k) = 0))
    as [->|Hocc]; [lia|].
  assert ((text, More.occurrences rt text (presentValues data k))
          ∈ (mode, More.occurrences rt mode (presentValues data k)) :: rest) as Hentry.
  { apply Hin. split; [reflexivity|lia]. }
  apply elem_of_cons in Hentry as [[= -> _]|Hentry]; [lia|].
  apply StronglySorted_inv in Hsorted as (_ & Hfirst).
  rewrite Forall_forall in Hfirst. specialize (Hfirst _ Hentry).
  apply countKey_le in Hfirst. exact Hfirst.
Qed.

Lemma categoricalStats_mostFrequent_is_mode_witness :
  ("s" ∉ Obj.inherited)
  ∧ (∀ v, v ∈ presentValues Samples.mixedTable "s" →
          More.keyOf Samples.runtime v ∉ Obj.inherited)
  ∧ ∃ stats e mode,
      generateSummaryStats Samples.runtime Samples.mixedTable Samples.mixedColumns
        = Ok stats
      ∧ Obj.get "s" (categoricalStats stats) = Some e
      ∧ mostFrequent e = Some (Some mode)
      ∧ 1 ≤ More.occurrences Samples.runtime mode (presentValues Samples.mixedTable "s")
      ∧ ∀ text, More.occurrences Samples.runtime text
                  (presentValues Samples.mixedTable "s")
                ≤ More.occurrences Samples.runtime mode
                    (presentValues Samples.mixedTable "s").
Proof.
  assert ("s" ∉ Obj.inherited) as Hname by (apply (bool_decide_unpack _); reflexivity).
  assert (∀ v, v ∈ presentValues Samples.mixedTable "s" →
               More.keyOf Samples.runtime v ∉ Obj.inherited) as Hplain.
  { intros v Hv. vm_compute in Hv.
    repeat (apply elem_of_cons in Hv as [->|Hv]);
      try (apply (bool_decide_unpack _); reflexivity).
    inversion Hv. }
  split; [exact Hname|]. split; [exact Hplain|].
  destruct (categoricalStats_mostFrequent_is_mode Samples.runtime Samples.mixedTable
              Samples.mixedColumns
              (match generateSummaryStats Samples.runtime Samples.mixedTable
                       Samples.mixedColumns with
               | Ok stats => stats
               | Throw _ => Build_SummaryStats 0 0 [] [] [] []
               end)
              "s"
              (default (NullOnly 0)
                 (Obj.get "s"
                    (categoricalStats
                       (match generateSummaryStats Samples.runtime Samples.mixedTable
                                Samples.mixedColumns with
                        | Ok stats => stats
                        | Throw _ => Build_SummaryStats 0 0 [] [] [] []
                        end)))))
    as (mode & H).
  - reflexivity.
  - reflexivity.
  - exact Hname.
  - exact Hplain.
  - eexists _, _, mode. split; [reflexivity|]. split; [reflexivity|]. exact H.
Defined.

(* ===================================================================== *)
(** * Date statistics *)
(* ===================================================================== *)

Section SortedEnds.
Context {A : Type} (R : A → A → Prop).
Hypothesis R_refl : ∀ x, R x x.

Lemma sorted_nth (l : list A) (i j : nat) (d : A) :
  StronglySorted R l → i ≤ j → j < length l → R (nth i l d) (nth j l d).
Proof using R_refl.
  intros Hsorted. revert i j.
  induction Hsorted as [|x l Hsorted IH Hx]; intros i j Hij Hj; [simpl in Hj; lia|].
  destruct i as [|i], j as [|j]; simpl in *; try lia.
  - apply R_refl.
  - rewrite Forall_forall in Hx. apply Hx, list_elem_of_In, nth_In. lia.
  - apply IH; lia.
Qed.

(** The first element of a sorted list is below, the last above all. *)
Lemma sorted_ends (l : list A) (d : A) :
  l ≠ [] → StronglySorted R l →
  nth 0 l d ∈ l ∧ nth (length l - 1) l d ∈ l
  ∧ ∀ x, x ∈ l → R (nth 0 l d) x ∧ R x (nth (length l - 1) l d).
Proof using R_refl.
  intros Hne Hsorted.
  assert (0 < length l) as Hpos by (destruct l; [contradiction|simpl; lia]).
  split; [apply list_elem_of_In, nth_In; lia|].
  split; [apply list_elem_of_In, nth_In; lia|].
  intros x Hx. apply list_elem_of_In in Hx.
  destruct (In_nth l x d Hx) as (i & Hi & <-).
  split; apply sorted_nth; try assumption; lia.
Qed.

End SortedEnds.

Lemma perm_elem {A : Type} (x : A) (l l' : list A) : l ≡ₚ l' → x ∈ l → x ∈ l'.
Proof. intros Hperm Hx. rewrite <- Hperm. exact Hx. Qed.

Section DateMore.
Import DataAnalyzer.

Variable rt : Runtime.

Lemma instant_compare (x y : Z) :
  jsLt (jsSub (ofZ x) (ofZ y)) (Finite 0) = true ↔ (inject_Z x < inject_Z y)%Q.
Proof. unfold ofZ. apply compare_finite. Qed.

Lemma instant_le (x y : Z) : More.byKey inject_Z x y ↔ (x ≤ y)%Z.
Proof. unfold More.byKey. rewrite <- Zle_Qle. reflexivity. Qed.

(** [Math.round] of a quotient of integers, in integers. *)
Lemma mathRound_quotient (a : Z) (b : positive) :
  mathRound (Qmake a b) = ((2 * a + Zpos b) / (2 * Zpos b))%Z.
Proof.
  unfold mathRound, Qplus, Qfloor. simpl Qnum. simpl Qden.
  f_equal; lia.
Qed.

(** The entry of a date column with a date in it: the first and the last
    of the instants, and the days between them. *)
Lemma dateEntry_shape (rows : nat) (dates : list Z) :
  dates ≠ [] →
  ∃ first last,
    first ∈ dates ∧ last ∈ dates
    ∧ (∀ t, t ∈ dates → (first ≤ t ≤ last)%Z)
    ∧ dateEntry rt rows dates =
      DateRange (length dates) (rows - length dates)
        (Date_toISOString rt first) (Date_toISOString rt last)
        ((2 * (last - first) + millisPerDay) / (2 * millisPerDay))%Z.
Proof.
  intros Hne. unfold dateEntry. cbv zeta.
  set (sorted := sort _ dates).
  assert (sorted ≡ₚ dates) as Hperm by apply sort_perm.
  assert (StronglySorted (More.byKey inject_Z) sorted) as Hsorted.
  { apply sort_byKey. intros x y. apply instant_compare. }
  assert (sorted ≠ []) as Hsome.
  { intros Hnil. rewrite Hnil in Hperm.
    apply Permutation_nil in Hperm. contradiction. }
  destruct (sorted_ends (More.byKey inject_Z) ltac:(intros x; apply instant_le; lia)
              sorted 0%Z Hsome Hsorted) as (Hfirst & Hlast & Hall).
  exists (nth 0 sorted 0%Z), (nth (length sorted - 1) sorted 0%Z).
  split; [exact (perm_elem _ _ _ Hperm Hfirst)|].
  split; [exact (perm_elem _ _ _ Hperm Hlast)|]. split.
  - intros t Ht. symmetry in Hperm.
    destruct (Hall t (perm_elem _ _ _ Hperm Ht)) as (Hlo & Hhi).
    split; [exact (proj1 (instant_le _ _) Hlo)|exact (proj1 (instant_le _ _) Hhi)].
  - rewrite mathRound_quotient. reflexivity.
Qed.

End DateMore.

Section DateOrigin.
Import DataAnalyzer.

Variables (rt : Runtime) (data : list Row) (cols : list Column).

Lemma date_origin (stats : SummaryStats) (k : string) (e : StatEntry) :
  generateSummaryStats rt data cols = Ok stats →
  Obj.get k (dateStats stats) = Some e →
  rowCount stats = length data
  ∧ ((presentValues data k = [] ∧ e = NullOnly (length data))
     ∨ (dateValuesOf rt (presentValues data k) ≠ []
        ∧ e = dateEntry rt (length data) (dateValuesOf rt (presentValues data k)))).
Proof.
  intros Hrun Hget.
  destruct (entry_origin rt data cols stats FDate k e Hrun Hget)
    as (_ & Hrows & col & _ & <- & Hout).
  split; [exact Hrows|].
  unfold Spec.outcome in Hout.
  destruct (presentValues data (name col)) as [|v values] eqn:Hvalues; simpl in Hout.
  - left. destruct (type col); try discriminate. injection Hout as <-. auto.
  - right. destruct (type col); try discriminate.
    + destruct (0 <? length (numericValuesOf (v :: values))); discriminate.
    + destruct (dateValuesOf rt (v :: values)) as [|t dates] eqn:Hdates;
        simpl in Hout; [discriminate|].
      injection Hout as <-. split; [discriminate|reflexivity].
Qed.

End DateOrigin.

Import DataAnalyzer.

(** X15: the range of a date column.  For a column whose name is not the
    name of a member of [Object.prototype], an entry of [dateStats] is the
    null-only entry of a column without a value, or it is made of the
    values that [new Date] reads: their number as the count, the earliest
    and the latest of them in ISO form, with every date read between the
    two, and a span that is never negative; when the two are less than
    2^53 milliseconds apart, so that their difference is a number that
    JavaScript holds exactly, the span is the whole number of days nearest
    to the time between the two (a half day counts up). *)
Theorem dateStats_range
    (rt : Runtime) (data : list Row) (cols : list Column)
    (stats : SummaryStats) (k : string) (e : StatEntry) :
  generateSummaryStats rt data cols = Ok stats →
  Obj.get k (dateStats stats) = Some e →
  k ∉ Obj.inherited →
  (presentValues data k = [] ∧ e = NullOnly (rowCount stats))
  ∨ ∃ first last days,
      first ∈ dateValuesOf rt (presentValues data k)
      ∧ last ∈ dateValuesOf rt (presentValues data k)
      ∧ (∀ t, t ∈ dateValuesOf rt (presentValues data k) → (first ≤ t ≤ last)%Z)
      ∧ e = DateRange (length (dateValuesOf rt (presentValues data k)))
              (rowCount stats - length (dateValuesOf rt (presentValues data k)))
              (Date_toISOString rt first) (Date_toISOString rt last) days
      ∧ (0 ≤ days)%Z
      ∧ ((last - first < 2 ^ 53)%Z →
         (2 * days * millisPerDay - millisPerDay ≤ 2 * (last - first)
          < 2 * days * millisPerDay + millisPerDay)%Z).
Proof.
  intros Hrun Hget _.
  destruct (date_origin rt data cols stats k e Hrun Hget) as (-> & [Hblank|(Hsome & ->)]).
  { left. exact Hblank. }
  right.
  destruct (dateEntry_shape rt (length data) _ Hsome)
    as (first & last & Hfirst & Hlast & Hall & ->).
  exists first, last, ((2 * (last - first) + millisPerDay) / (2 * millisPerDay))%Z.
  split; [exact Hfirst|]. split; [exact Hlast|]. split; [exact Hall|].
  split; [reflexivity|].
  pose proof (Hall first Hfirst) as Hle.
  assert (0 < millisPerDay)%Z as Hday by reflexivity.
  pose proof (Z.mul_div_le (2 * (last - first) + millisPerDay) (2 * millisPerDay)
                ltac:(lia)) as Hlow.
  pose proof (Z.mul_succ_div_gt (2 * (last - first) + millisPerDay) (2 * millisPerDay)
                ltac:(lia)) as Hhigh.
  split; [apply Z.div_pos; lia|]. intros _. lia.
Qed.

(** The date column of the table of visits: three dates between the
    second and the ninth of January, a week apart. *)
Lemma dateStats_range_witness :
  ("day" ∉ Obj.inherited)
  ∧ ∃ stats e,
      generateSummaryStats Samples.runtime MoreSamples.visits MoreSamples.visitsColumns
        = Ok stats
      ∧ Obj.get "day" (dateStats stats) = Some e
      ∧ e = DateRange 3 2 "86400000" "691200000" 7
      ∧ ((presentValues MoreSamples.visits "day" = [] ∧ e = NullOnly (rowCount stats))
         ∨ ∃ first last days,
             first ∈ dateValuesOf Samples.runtime (presentValues MoreSamples.visits "day")
             ∧ last ∈ dateValuesOf Samples.runtime (presentValues MoreSamples.visits "day")
             ∧ (∀ t, t ∈ dateValuesOf Samples.runtime
                           (presentValues MoreSamples.visits "day") →
                     (first ≤ t ≤ last)%Z)
             ∧ e = DateRange
                     (length (dateValuesOf Samples.runtime
                                (presentValues MoreSamples.visits "day")))
                     (rowCount stats
                      - length (dateValuesOf Samples.runtime
                                  (presentValues MoreSamples.visits "day")))
                     (Date_toISOString Samples.runtime first)
                     (Date_toISOString Samples.runtime last) days
             ∧ (0 ≤ days)%Z
             ∧ ((last - first < 2 ^ 53)%Z →
                (2 * days * millisPerDay - millisPerDay ≤ 2 * (last - first)
                 < 2 * days * millisPerDay + millisPerDay)%Z)).
Proof.
  assert ("day" ∉ Obj.inherited) as Hname
    by (apply (bool_decide_unpack _); reflexivity).
  split; [exact Hname|].
  exists (match generateSummaryStats Samples.runtime MoreSamples.visits
                 MoreSamples.visitsColumns with
          | Ok stats => stats
          | Throw _ => Build_SummaryStats 0 0 [] [] [] []
          end).
  exists (DateRange 3 2 "86400000" "691200000" 7).
  split; [reflexivity|]. split; [reflexivity|]. split; [reflexivity|].
  apply (dateStats_range Samples.runtime MoreSamples.visits MoreSamples.visitsColumns
           _ "day" _ eq_refl eq_refl Hname).
Defined.

(* ===================================================================== *)
(** * When the statistics fail *)
(* ===================================================================== *)

Section Failure.
Import DataAnalyzer.

Variables (rt : Runtime) (data : list Row).

Lemma outcome_fails_iff (col : Column) :
  Spec.outcome rt data col = Spec.Fails
  ↔ type col ≠ TDate ∧ presentValues data (name col) = [].
Proof.
  unfold Spec.outcome.
  destruct (presentValues data (name col)) as [|v values]; simpl.
  - destruct (type col); split; try discriminate; try (intros; split; congruence);
      try reflexivity. intros (Hty & _). contradiction.
  - split; [|intros (_ & Hnil); discriminate].
    destruct (type col); try discriminate.
    + destruct (0 <? length (numericValuesOf (v :: values))); discriminate.
    + destruct (0 <? length (dateValuesOf rt (v :: values))); discriminate.
Qed.

Lemma forEachColumn_cons (col : Column) (cols : list Column) (start : SummaryStats) :
  Spec.forEachColumn rt data (col :: cols) (Ok start)
  = Spec.forEachColumn rt data cols (processColumn rt data start col).
Proof. reflexivity. Qed.

(** The loop stops at the first column that fails, with its message. *)
Lemma forEachColumn_throw_iff (cols : list Column) (start : SummaryStats) (e : string) :
  Spec.forEachColumn rt data cols (Ok start) = Throw e
  ↔ ∃ before col after,
      cols = (before ++ col :: after)%list
      ∧ (∀ c, c ∈ before → Spec.outcome rt data c ≠ Spec.Fails)
      ∧ Spec.outcome rt data col = Spec.Fails
      ∧ e = "Cannot set properties of undefined (setting '" ++ name col ++ "')".
Proof.
  revert start. induction cols as [|c cols IH]; intros start.
  - split; [discriminate|]. intros (before & col & after & Hcols & _).
    destruct before; discriminate.
  - rewrite forEachColumn_cons, processColumn_outcome.
    destruct (Spec.outcome rt data c) as [f entry| |] eqn:Hout.
    + rewrite IH. split.
      * intros (before & col & after & -> & Hbefore & Hcol & ->).
        exists (c :: before), col, after. split; [reflexivity|].
        split; [|split; [exact Hcol|reflexivity]].
        intros c' Hc'. apply elem_of_cons in Hc' as [->|Hc']; [congruence|auto].
      * intros (before & col & after & Hcols & Hbefore & Hcol & ->).
        destruct before as [|c' before]; simpl in Hcols; injection Hcols as <- ->.
        { congruence. }
        exists before, col, after. split; [reflexivity|].
        split; [|split; [exact Hcol|reflexivity]].
        intros c' Hc'. apply Hbefore. apply elem_of_cons. right. exact Hc'.
    + rewrite IH. split.
      * intros (before & col & after & -> & Hbefore & Hcol & ->).
        exists (c :: before), col, after. split; [reflexivity|].
        split; [|split; [exact Hcol|reflexivity]].
        intros c' Hc'. apply elem_of_cons in Hc' as [->|Hc']; [congruence|auto].
      * intros (before & col & after & Hcols & Hbefore & Hcol & ->).
        destruct before as [|c' before]; simpl in Hcols; injection Hcols as <- ->.
        { congruence. }
        exists before, col, after. split; [reflexivity|].
        split; [|split; [exact Hcol|reflexivity]].
        intros c' Hc'. apply Hbefore. apply elem_of_cons. right. exact Hc'.
    + rewrite forEachColumn_throw. split.
      * intros [= <-]. exists [], c, cols. split; [reflexivity|].
        split; [|split; [exact Hout|reflexivity]].
        intros c' Hc'. apply elem_of_nil in Hc'. contradiction.
      * intros (before & col & after & Hcols & Hbefore & Hcol & ->).
        destruct before as [|c' before]; simpl in Hcols; injection Hcols as <- ->.
        { reflexivity. }
        exfalso. apply (Hbefore c); [apply elem_of_cons; left; reflexivity|exact Hout].
Qed.

End Failure.

(** The call throws at the first column that is no date column and has no
    value. *)
Lemma generateSummaryStats_failure
    (rt : Runtime) (data : list Row) (cols : list Column) (e : string) :
  generateSummaryStats rt data cols = Throw e
  ↔ data ≠ []
    ∧ ∃ before col after,
        cols = (before ++ col :: after)%list
        ∧ (∀ c, c ∈ before → type c = TDate ∨ presentValues data (name c) ≠ [])
        ∧ type col ≠ TDate
        ∧ presentValues data (name col) = []
        ∧ e = "Cannot set properties of undefined (setting '" ++ name col ++ "')".
Proof.
  destruct data as [|row data].
  { split; [discriminate|]. intros (Hdata & _). contradiction. }
  rewrite generateSummaryStats_loop by discriminate.
  rewrite forEachColumn_throw_iff. split.
  - intros (before & col & after & -> & Hbefore & Hcol & ->).
    split; [discriminate|]. exists before, col, after.
    apply outcome_fails_iff in Hcol as (Hty & Hblank).
    split; [reflexivity|]. split; [|auto].
    intros c Hc. specialize (Hbefore c Hc). rewrite outcome_fails_iff in Hbefore.
    destruct (decide (type c = TDate)) as [|Hty']; [left; assumption|].
    right. intros Hnil. apply Hbefore. split; assumption.
  - intros (_ & before & col & after & -> & Hbefore & Hty & Hblank & ->).
    exists before, col, after. split; [reflexivity|].
    split; [|split; [apply outcome_fails_iff; split; assumption|reflexivity]].
    intros c Hc. rewrite outcome_fails_iff. intros (Hty' & Hnil).
    destruct (Hbefore c Hc) as [Hdate|Hsome]; contradiction.
Qed.

(** X16: when [generateSummaryStats] fails.  With columns none of whose
    names is the name of a member of [Object.prototype], the call throws
    exactly when the table has a row and some column that is not a date
    column has no value in any row; the error is the TypeError of writing
    the null-only entry of the first such column to a mapping that does not
    exist ('numberStats', 'stringStats', 'booleanStats'). *)
Theorem generateSummaryStats_throws_iff
    (rt : Runtime) (data : list Row) (cols : list Column) (e : string) :
  (∀ col, col ∈ cols → name col ∉ Obj.inherited) →
  generateSummaryStats rt data cols = Throw e
  ↔ data ≠ []
    ∧ ∃ before col after,
        cols = (before ++ col :: after)%list
        ∧ (∀ c, c ∈ before → type c = TDate ∨ presentValues data (name c) ≠ [])
        ∧ type col ≠ TDate
        ∧ presentValues data (name col) = []
        ∧ e = "Cannot set properties of undefined (setting '" ++ name col ++ "')".
Proof. intros _. apply generateSummaryStats_failure. Qed.

(** A table of one row with a number column whose only cell is blank. *)
Lemma generateSummaryStats_throws_iff_witness :
  (∀ col, col ∈ [ {| name := "n"; type := TNumber |} ] → name col ∉ Obj.inherited)
  ∧ generateSummaryStats Samples.runtime [ [("n", VStr "")] ]
      [ {| name := "n"; type := TNumber |} ]
    = Throw "Cannot set properties of undefined (setting 'n')"
  ∧ (generateSummaryStats Samples.runtime [ [("n", VStr "")] ]
       [ {| name := "n"; type := TNumber |} ]
     = Throw "Cannot set properties of undefined (setting 'n')"
     ↔ [ [("n", VStr "")] ] ≠ ([] : list Row)
       ∧ ∃ before col after,
           [ {| name := "n"; type := TNumber |} ] = (before ++ col :: after)%list
           ∧ (∀ c, c ∈ before →
                   type c = TDate
                   ∨ presentValues [ [("n", VStr "")] ] (name c) ≠ [])
           ∧ type col ≠ TDate
           ∧ presentValues [ [("n", VStr "")] ] (name col) = []
           ∧ "Cannot set properties of undefined (setting 'n')"
             = "Cannot set properties of undefined (setting '" ++ name col ++ "')").
Proof.
  assert (∀ col, col ∈ [ {| name := "n"; type := TNumber |} ] →
                 name col ∉ Obj.inherited) as Hplain.
  { intros col Hcol. apply list_elem_of_singleton in Hcol as ->.
    apply (bool_decide_unpack _). reflexivity. }
  split; [exact Hplain|]. split; [reflexivity|].
  exact (generateSummaryStats_throws_iff Samples.runtime [ [("n", VStr "")] ]
           [ {| name := "n"; type := TNumber |} ]
           "Cannot set properties of undefined (setting 'n')" Hplain).
Defined.

(* ===================================================================== *)
(** * Rendering the statistics *)
(* ===================================================================== *)

Section Rendering.
Import DataAnalyzer.

Variable rt : Runtime.

Lemma numericBlock_throw (entries : list (string * StatEntry)) (e : string) :
  fold_left (numericBlock rt) entries (Throw e) = Throw e.
Proof.
  induction entries as [|[k entry] entries IH]; [reflexivity|]. simpl. exact IH.
Qed.

Lemma numericBlock_ok (entries : list (string * StatEntry)) (prompt : string) :
  (∀ k entry, (k, entry) ∈ entries → mean entry ≠ None ∧ median entry ≠ None) →
  ∃ text, fold_left (numericBlock rt) entries (Ok prompt) = Ok text.
Proof.
  revert prompt. induction entries as [|[k entry] entries IH]; intros prompt Hall.
  { exists prompt. reflexivity. }
  destruct (Hall k entry ltac:(apply elem_of_cons; left; reflexivity)) as (Hmean & Hmedian).
  simpl. destruct (mean entry); [|contradiction]. destruct (median entry); [|contradiction].
  apply IH. intros k' entry' Hin. apply (Hall k' entry'). apply elem_of_cons.
  right. exact Hin.
Qed.

Lemma numericBlock_fails (entries : list (string * StatEntry)) (prompt : string)
    (k : string) (entry : StatEntry) :
  (k, entry) ∈ entries → mean entry = None ∨ median entry = None →
  fold_left (numericBlock rt) entries (Ok prompt) = Throw More.toFixedError.
Proof.
  revert prompt. induction entries as [|[k' entry'] entries IH]; intros prompt Hin Hnone.
  { apply elem_of_nil in Hin. contradiction. }
  simpl.
  destruct (mean entry') as [m|] eqn:Hmean; [|apply numericBlock_throw].
  destruct (median entry') as [d|] eqn:Hmedian; [|apply numericBlock_throw].
  apply elem_of_cons in Hin as [[= -> ->]|Hin].
  { destruct Hnone; congruence. }
  apply IH; assumption.
Qed.

(** Whether the rendering fails is decided by the numeric entries. *)
Lemma formatStatsForAI_cases (stats : SummaryStats) :
  (∃ k entry, (k, entry) ∈ Obj.entries (numericStats stats)
              ∧ (mean entry = None ∨ median entry = None))
  ∧ formatStatsForAI rt stats = Throw More.toFixedError
  ∨ (∀ k entry, (k, entry) ∈ Obj.entries (numericStats stats) →
                mean entry ≠ None ∧ median entry ≠ None)
    ∧ ∃ text, formatStatsForAI rt stats = Ok text.
Proof.
  assert ((∃ k entry, (k, entry) ∈ Obj.entries (numericStats stats)
                      ∧ (mean entry = None ∨ median entry = None))
          ∨ (∀ k entry, (k, entry) ∈ Obj.entries (numericStats stats) →
                        mean entry ≠ None ∧ median entry ≠ None)) as [Hbad|Hgood].
  { unfold Obj.entries. induction (numericStats stats) as [|[k entry] entries IH].
    - right. intros k entry Hin. apply elem_of_nil in Hin. contradiction.
    - destruct (mean entry) eqn:Hmean, (median entry) eqn:Hmedian;
        try (left; exists k, entry; split;
             [apply elem_of_cons; left; reflexivity|auto]; fail).
      destruct IH as [(k' & entry' & Hin & Hnone)|IH].
      + left. exists k', entry'. split; [apply elem_of_cons; right; exact Hin|exact Hnone].
      + right. intros k' entry' Hin. apply elem_of_cons in Hin as [[= -> ->]|Hin].
        * split; congruence.
        * exact (IH k' entry' Hin). }
  - left. split; [exact Hbad|]. destruct Hbad as (k & entry & Hin & Hnone).
    unfold formatStatsForAI. cbv zeta.
    destruct (0 <? length (Obj.keys (numericStats stats))) eqn:Hkeys.
    + rewrite (numericBlock_fails _ _ k entry Hin Hnone). reflexivity.
    + unfold Obj.entries in Hin. destruct (numericStats stats); [|discriminate].
      apply elem_of_nil in Hin. contradiction.
  - right. split; [exact Hgood|].
    unfold formatStatsForAI. cbv zeta.
    destruct (0 <? length (Obj.keys (numericStats stats))).
    + match goal with
      | |- ∃ _, bindR (fold_left _ _ (Ok ?p)) _ = _ =>
          destruct (numericBlock_ok _ p Hgood) as (text' & ->)
      end.
      eexists. reflexivity.
    + eexists. reflexivity.
Qed.

End Rendering.

Section StatsKeys.
Import DataAnalyzer.

Variables (rt : Runtime) (data : list Row).

Lemma forEachColumn_keys (cols : list Column) (start stats : SummaryStats) :
  (∀ f, NoDup (Obj.keys (Spec.mapping f start))) →
  Spec.forEachColumn rt data cols (Ok start) = Ok stats →
  ∀ f, NoDup (Obj.keys (Spec.mapping f stats)).
Proof.
  revert start. induction cols as [|c cols IH]; intros start Hstart Hrun.
  { injection Hrun as <-. exact Hstart. }
  rewrite forEachColumn_cons, processColumn_outcome in Hrun.
  destruct (Spec.outcome rt data c) as [f0 entry| |].
  - refine (IH _ _ Hrun). intros f. rewrite mapping_record.
    destruct (decide (f = f0)); [apply set_NoDup|]; apply Hstart.
  - apply (IH _ Hstart Hrun).
  - rewrite forEachColumn_throw in Hrun. discriminate.
Qed.

End StatsKeys.

(** X17: when [formatStatsForAI] fails.  The rendering throws exactly when
    some entry of [numericStats] has no mean or no median (a null-only
    entry, say), with the TypeError of calling [toFixed] on [undefined];
    categorical and date entries never make it fail. *)
Theorem formatStatsForAI_throws_iff (rt : Runtime) (stats : SummaryStats) (e : string) :
  formatStatsForAI rt stats = Throw e
  ↔ e = More.toFixedError
    ∧ ∃ k entry, (k, entry) ∈ Obj.entries (numericStats stats)
                 ∧ (mean entry = None ∨ median entry = None).
Proof.
  destruct (formatStatsForAI_cases rt stats) as [(Hbad & ->)|(Hgood & text & ->)].
  - split; [intros [= <-]; auto|]. intros (-> & _). reflexivity.
  - split; [discriminate|]. intros (_ & k & entry & Hin & Hnone).
    destruct (Hgood k entry Hin) as (Hmean & Hmedian). destruct Hnone; contradiction.
Qed.

Section RenderingAfter.
Import DataAnalyzer.

Variables (rt : Runtime) (data : list Row) (cols : list Column).

Lemma formatStatsForAI_Ok (stats : SummaryStats) :
  generateSummaryStats rt data cols = Ok stats →
  ∃ text, formatStatsForAI rt stats = Ok text.
Proof.
  intros Hrun.
  destruct (formatStatsForAI_cases rt stats) as [(Hbad & _)|(_ & Htext)]; [|exact Htext].
  exfalso. destruct Hbad as (k & entry & Hin & Hnone).
  assert (NoDup (Obj.keys (numericStats stats))) as Hkeys.
  { destruct data as [|row rows]; [injection Hrun as <-; constructor|].
    rewrite generateSummaryStats_loop in Hrun by discriminate.
    apply (forEachColumn_keys rt (row :: rows) cols _ stats) with (f := FNumeric) in Hrun;
      [exact Hrun|].
    intros []; constructor. }
  apply (elem_get_Some k entry _ Hkeys) in Hin.
  destruct (entry_origin rt data cols stats FNumeric k entry Hrun Hin)
    as (_ & _ & col & _ & _ & Hout).
  unfold Spec.outcome in Hout.
  destruct (length (presentValues data (name col)) =? 0), (type col); try discriminate.
  - destruct (0 <? length (numericValuesOf (presentValues data (name col))));
      [|discriminate].
    injection Hout as <-. destruct Hnone; discriminate.
  - destruct (0 <? length (dateValuesOf rt (presentValues data (name col))));
      discriminate.
Qed.

End RenderingAfter.

(** X18: what [generateSummaryStats] returns, [formatStatsForAI] renders:
    the statistics of a table never make the rendering throw, because a
    number column either gets a full entry or none at all. *)
Theorem formatStatsForAI_after_generateSummaryStats
    (rt : Runtime) (data : list Row) (cols : list Column) (stats : SummaryStats) :
  generateSummaryStats rt data cols = Ok stats →
  ∃ text, formatStatsForAI rt stats = Ok text.
Proof. apply formatStatsForAI_Ok. Qed.

(** The table of two rows, rendered. *)
Lemma formatStatsForAI_after_generateSummaryStats_witness :
  ∃ stats text,
    generateSummaryStats Samples.runtime Samples.mixedTable Samples.mixedColumns
      = Ok stats
    ∧ formatStatsForAI Samples.runtime stats = Ok text.
Proof.
  destruct (formatStatsForAI_after_generateSummaryStats Samples.runtime
              Samples.mixedTable Samples.mixedColumns
              (match generateSummaryStats Samples.runtime Samples.mixedTable
                       Samples.mixedColumns with
               | Ok stats => stats
               | Throw _ => Build_SummaryStats 0 0 [] [] [] []
               end))
    as (text & Htext).
  - reflexivity.
  - eexists _, text. split; [reflexivity|exact Htext].
Defined.

(* ===================================================================== *)
(** * Numeric statistics: the extremes *)
(* ===================================================================== *)

Section NumericMore.
Import DataAnalyzer.

Variables (rt : Runtime) (data : list Row) (cols : list Column).

Lemma numeric_origin (stats : SummaryStats) (k : string) (e : StatEntry) :
  generateSummaryStats rt data cols = Ok stats →
  Obj.get k (numericStats stats) = Some e →
  numericValuesOf (presentValues data k) ≠ []
  ∧ e = numericEntry (length data) (numericValuesOf (presentValues data k)).
Proof.
  intros Hrun Hget.
  destruct (entry_origin rt data cols stats FNumeric k e Hrun Hget)
    as (_ & _ & col & _ & <- & Hout).
  unfold Spec.outcome in Hout.
  destruct (length (presentValues data (name col)) =? 0), (type col); try discriminate.
  - destruct (numericValuesOf (presentValues data (name col))) eqn:Hvalues;
      simpl in Hout; [discriminate|].
    injection Hout as <-. split; [discriminate|reflexivity].
  - destruct (0 <? length (dateValuesOf rt (presentValues data (name col))));
      discriminate.
Qed.

(** In a sorted list of finite numbers the first is the least and the
    last the greatest. *)
Lemma sorted_extremes (sorted : list JsNumber) :
  sorted ≠ [] → Forall Spec.finite sorted → StronglySorted Spec.leq sorted →
  at_ sorted 0 ∈ sorted ∧ at_ sorted (length sorted - 1) ∈ sorted
  ∧ ∀ v, v ∈ sorted →
         jsLe (at_ sorted 0) v = true ∧ jsLe v (at_ sorted (length sorted - 1)) = true.
Proof.
  intros Hne Hfin Hsorted.
  assert (0 < length sorted) as Hpos by (destruct sorted; [contradiction|simpl; lia]).
  unfold at_ at 1 2.
  split; [apply list_elem_of_In, nth_In; lia|].
  split; [apply list_elem_of_In, nth_In; lia|].
  intros v Hv. apply list_elem_of_In in Hv.
  destruct (In_nth sorted v NaN Hv) as (i & Hi & <-).
  split; apply (at_monotone sorted); try assumption; lia.
Qed.

End NumericMore.

(** X19: minimum and maximum of a number column are attained.  For an
    entry of [numericStats] whose parsed values are all finite, [min] and
    [max] are values of the column as [parseFloat] reads them, every such
    value lies between the two, and [count] is their number, which is at
    least one. *)
Theorem numericStats_extremes
    (rt : Runtime) (data : list Row) (cols : list Column)
    (stats : SummaryStats) (k : string) (e : StatEntry) :
  generateSummaryStats rt data cols = Ok stats →
  Obj.get k (numericStats stats) = Some e →
  Forall Spec.finite (numericValuesOf (presentValues data k)) →
  ∃ lo hi,
    min e = Some lo ∧ max e = Some hi
    ∧ lo ∈ numericValuesOf (presentValues data k)
    ∧ hi ∈ numericValuesOf (presentValues data k)
    ∧ (∀ v, v ∈ numericValuesOf (presentValues data k) →
            jsLe lo v = true ∧ jsLe v hi = true)
    ∧ count e = Some (length (numericValuesOf (presentValues data k)))
    ∧ 1 ≤ length (numericValuesOf (presentValues data k)).
Proof.
  intros Hrun Hget Hfin.
  destruct (numeric_origin rt data cols stats k e Hrun Hget) as (Hsome & ->).
  set (values := numericValuesOf (presentValues data k)) in *.
  unfold numericEntry. cbn [min max count].
  set (sorted := sort _ values).
  assert (sorted ≡ₚ values) as Hperm by apply sort_perm.
  assert (sorted ≠ []) as Hne.
  { intros Hnil. rewrite Hnil in Hperm.
    apply Permutation_nil in Hperm. contradiction. }
  destruct (sorted_extremes sorted Hne (sort_Forall _ _ _ Hfin) (sort_sorted _ Hfin))
    as (Hlo & Hhi & Hall).
  exists (at_ sorted 0), (at_ sorted (length sorted - 1)).
  split; [reflexivity|]. split; [reflexivity|].
  split; [exact (perm_elem _ _ _ Hperm Hlo)|].
  split; [exact (perm_elem _ _ _ Hperm Hhi)|].
  split; [|split; [reflexivity|destruct values; [contradiction|simpl; lia]]].
  intros v Hv. apply Hall. symmetry in Hperm. exact (perm_elem _ _ _ Hperm Hv).
Qed.

(** The revenue column of the specification's scenario: 50.5 and 200. *)
Lemma numericStats_extremes_witness :
  ∃ stats e lo hi,
    generateSummaryStats Samples.runtime Samples.revenue Samples.revenueColumns
      = Ok stats
    ∧ Obj.get "rev" (numericStats stats) = Some e
    ∧ min e = Some lo ∧ max e = Some hi
    ∧ lo ∈ numericValuesOf (presentValues Samples.revenue "rev")
    ∧ hi ∈ numericValuesOf (presentValues Samples.revenue "rev")
    ∧ (∀ v, v ∈ numericValuesOf (presentValues Samples.revenue "rev") →
            jsLe lo v = true ∧ jsLe v hi = true)
    ∧ count e = Some (length (numericValuesOf (presentValues Samples.revenue "rev")))
    ∧ 1 ≤ length (numericValuesOf (presentValues Samples.revenue "rev")).
Proof.
  destruct (numericStats_extremes Samples.runtime Samples.revenue
              Samples.revenueColumns
              (match generateSummaryStats Samples.runtime Samples.revenue
                       Samples.revenueColumns with
               | Ok stats => stats
               | Throw _ => Build_SummaryStats 0 0 [] [] [] []
               end)
              "rev"
              (default (NullOnly 0)
                 (Obj.get "rev"
                    (numericStats
                       (match generateSummaryStats Samples.runtime Samples.revenue
                                Samples.revenueColumns with
                        | Ok stats => stats
                        | Throw _ => Build_SummaryStats 0 0 [] [] [] []
                        end)))))
    as (lo & hi & H).
  - reflexivity.
  - reflexivity.
  - repeat constructor.
  - eexists _, _, lo, hi. split; [reflexivity|]. split; [reflexivity|]. exact H.
Defined.

(* ===================================================================== *)
(** * The gateway's calls *)
(* ===================================================================== *)

Section GatewayCalls.
Import AiProviders.

Variables (env : Env) (net : Network) (prompt systemPrompt : string).

Lemma attemptOrder_credentialed (q : Provider) :
  q ∈ Spec.attemptOrder env → credentialed env q = true.
Proof.
  unfold Spec.attemptOrder. destruct (Spec.requested env) as [p|].
  - intros Hq. apply elem_of_app in Hq as [Hq|Hq].
    + destruct (credentialed env p) eqn:Hp.
      * apply list_elem_of_singleton in Hq as ->. exact Hp.
      * apply elem_of_nil in Hq. contradiction.
    + apply list_elem_of_filter in Hq as ((_ & Hq) & _). exact Hq.
  - intros Hq. apply list_elem_of_filter in Hq as (Hq & _). exact Hq.
Qed.

Lemma fallbackOrder_NoDup : NoDup fallbackOrder.
Proof. unfold fallbackOrder. apply (bool_decide_unpack _). reflexivity. Qed.

Lemma attemptOrder_NoDup : NoDup (Spec.attemptOrder env).
Proof.
  unfold Spec.attemptOrder. destruct (Spec.requested env) as [p|].
  - apply NoDup_app. split; [|split].
    + destruct (credentialed env p); [apply NoDup_singleton|constructor].
    + intros q Hq Hq'. apply list_elem_of_filter in Hq' as ((Hne & _) & _).
      destruct (credentialed env p).
      * apply list_elem_of_singleton in Hq. contradiction.
      * apply elem_of_nil in Hq. contradiction.
    + apply NoDup_filter, fallbackOrder_NoDup.
  - apply NoDup_filter, fallbackOrder_NoDup.
Qed.

(** The calls up to the first answer: a prefix of the order, all of whose
    calls but the last have failed. *)
Lemma firstAnswer_calls (order : list Provider) :
  match Spec.firstAnswer net prompt systemPrompt order with
  | (Some text, calls) =>
      ∃ before p after,
        order = (before ++ p :: after)%list ∧ calls = (before ++ [p])%list
        ∧ net p prompt systemPrompt = Ok text
        ∧ ∀ q, q ∈ before → isOk (net q prompt systemPrompt) = false
  | (None, calls) =>
      calls = order ∧ ∀ q, q ∈ order → isOk (net q prompt systemPrompt) = false
  end.
Proof.
  induction order as [|q order IH]; simpl.
  { split; [reflexivity|]. intros q Hq. apply elem_of_nil in Hq. contradiction. }
  destruct (net q prompt systemPrompt) as [text|e] eqn:Hq.
  - exists [], q, order. split; [reflexivity|]. split; [reflexivity|].
    split; [exact Hq|]. intros q' Hq'. apply elem_of_nil in Hq'. contradiction.
  - destruct (Spec.firstAnswer net prompt systemPrompt order) as [[text|] calls].
    + destruct IH as (before & p & after & -> & -> & Hp & Hbefore).
      exists (q :: before), p, after. split; [reflexivity|]. split; [reflexivity|].
      split; [exact Hp|]. intros q' Hq'.
      apply elem_of_cons in Hq' as [->|Hq']; [rewrite Hq; reflexivity|auto].
    + destruct IH as (-> & Hall). split; [reflexivity|]. intros q' Hq'.
      apply elem_of_cons in Hq' as [->|Hq']; [rewrite Hq; reflexivity|auto].
Qed.

(** What one run of the gateway calls. *)
Lemma generateAIInsights_run :
  requestedProvider env ≠ "constructor" →
  ∃ result calls,
    run (generateAIInsights env net prompt systemPrompt) = (result, calls)
    ∧ NoDup calls
    ∧ (∀ p, p ∈ calls → credentialed env p = true)
    ∧ match result with
      | Ok text =>
          ∃ before p,
            calls = (before ++ [p])%list
            ∧ net p prompt systemPrompt = Ok text
            ∧ ∀ q, q ∈ before → isOk (net q prompt systemPrompt) = false
      | Throw e =>
          (∀ p, credentialed env p = true →
                p ∈ calls ∧ isOk (net p prompt systemPrompt) = false)
          ∧ e = (if hasAnyProvider env then allProvidersFailed
                 else noProviderConfigured)
      end.
Proof.
  intros Hrequested. rewrite generateAIInsights_attempts by exact Hrequested.
  pose proof (firstAnswer_calls (Spec.attemptOrder env)) as Hcalls.
  pose proof attemptOrder_NoDup as Hnd.
  pose proof attemptOrder_credentialed as Hcred.
  destruct (Spec.firstAnswer net prompt systemPrompt (Spec.attemptOrder env))
    as [[text|] calls].
  - destruct Hcalls as (before & p & after & Horder & -> & Hp & Hbefore).
    rewrite Horder in Hnd, Hcred.
    eexists _, _. split; [reflexivity|]. split; [|split].
    + apply NoDup_app in Hnd as (Hnd1 & Hnd2 & Hnd3).
      apply NoDup_app. split; [exact Hnd1|]. split; [|apply NoDup_singleton].
      intros q Hq Hq'. apply list_elem_of_singleton in Hq' as ->.
      apply (Hnd2 p Hq). apply elem_of_cons. left. reflexivity.
    + intros q Hq. apply Hcred. apply elem_of_app in Hq as [Hq|Hq].
      * apply elem_of_app. left. exact Hq.
      * apply list_elem_of_singleton in Hq as ->. apply elem_of_app. right.
        apply elem_of_cons. left. reflexivity.
    + exists before, p. auto.
  - destruct Hcalls as (-> & Hall).
    eexists _, _. split; [reflexivity|]. split; [exact Hnd|]. split; [exact Hcred|].
    split; [|reflexivity]. intros p Hp.
    pose proof (attemptOrder_complete env p Hp) as Hin. auto.
Qed.

End GatewayCalls.

(** X20: the calls of one run of the gateway.  Unless [AI_PROVIDER] in
    lower case is 'constructor', which finds the function [Object] in
    [Object.prototype], [generateAIInsights] calls no provider twice and
    none without a credential.  When it returns a text, the last provider
    called gave it and every call before failed; when it throws, every
    provider with a credential was called and failed, and the error tells
    whether there was any credential at all. *)
Theorem generateAIInsights_calls
    (env : AiProviders.Env) (net : AiProviders.Network)
    (prompt systemPrompt : string) :
  AiProviders.requestedProvider env ≠ "constructor" →
  ∃ result calls,
    AiProviders.run (AiProviders.generateAIInsights env net prompt systemPrompt)
      = (result, calls)
    ∧ NoDup calls
    ∧ (∀ p, p ∈ calls → AiProviders.credentialed env p = true)
    ∧ match result with
      | Ok text =>
          ∃ before p,
            calls = (before ++ [p])%list
            ∧ net p prompt systemPrompt = Ok text
            ∧ ∀ q, q ∈ before → isOk (net q prompt systemPrompt) = false
      | Throw e =>
          (∀ p, AiProviders.credentialed env p = true →
                p ∈ calls ∧ isOk (net p prompt systemPrompt) = false)
          ∧ e = (if AiProviders.hasAnyProvider env
                 then AiProviders.allProvidersFailed
                 else AiProviders.noProviderConfigured)
      end.
Proof. apply generateAIInsights_run. Qed.

(** Every key is set and only OpenAI answers: three calls, the last of
    which gives the text. *)
Lemma generateAIInsights_calls_witness :
  AiProviders.requestedProvider Samples.allKeys ≠ "constructor"
  ∧ AiProviders.run (AiProviders.generateAIInsights Samples.allKeys
                       Samples.openAiAnswers "Summarise." "Be brief.")
    = (Ok "Revenue grows.",
       [AiProviders.HuggingFace; AiProviders.Gemini; AiProviders.OpenAI])
  ∧ ∃ result calls,
      AiProviders.run (AiProviders.generateAIInsights Samples.allKeys
                         Samples.openAiAnswers "Summarise." "Be brief.")
        = (result, calls)
      ∧ NoDup calls
      ∧ (∀ p, p ∈ calls → AiProviders.credentialed Samples.allKeys p = true)
      ∧ match result with
        | Ok text =>
            ∃ before p,
              calls = (before ++ [p])%list
              ∧ Samples.openAiAnswers p "Summarise." "Be brief." = Ok text
              ∧ ∀ q, q ∈ before →
                     isOk (Samples.openAiAnswers q "Summarise." "Be brief.") = false
        | Throw e =>
            (∀ p, AiProviders.credentialed Samples.allKeys p = true →
                  p ∈ calls
                  ∧ isOk (Samples.openAiAnswers p "Summarise." "Be brief.") = false)
            ∧ e = (if AiProviders.hasAnyProvider Samples.allKeys
                   then AiProviders.allProvidersFailed
                   else AiProviders.noProviderConfigured)
        end.
Proof.
  split; [discriminate|]. split; [reflexivity|].
  apply (generateAIInsights_calls Samples.allKeys Samples.openAiAnswers
           "Summarise." "Be brief.").
  discriminate.
Defined.

(* ===================================================================== *)
(** * The answers of the AI endpoints *)
(* ===================================================================== *)

(** X21: the answers of [chat].  Unless [AI_PROVIDER] in lower case is
    'constructor', and for a stored file no column of which has the name of
    a member of [Object.prototype], the handler answers 200, 400, 404 or
    500 and calls no provider twice and none without a credential.  A 200
    is given for a file whose statistics were computed, and carries the
    text that the last provider called gave for a prompt made of a
    rendering of the statistics, the sample rows and the trimmed question.
    A 400 or a 404 is given before any provider is called.  A 500 has one
    of five causes: a question that is not a string, no provider key, a
    failing query, statistics that throw, or the failure of every provider
    with a key; the rendering of the statistics is never the cause. *)
Theorem chat_answers
    (rt : Runtime) (env : AiProviders.Env) (net : AiProviders.Network)
    (coll : FileData.Collection) (db : list FileData.t)
    (req : AiController.Request) :
  AiProviders.requestedProvider env ≠ "constructor" →
  (∀ fileData col,
     FileData.findOne coll db (AiController.fileId req) (AiController.user_id req)
     = Ok (Some fileData) →
     col ∈ FileData.columns fileData → name col ∉ Obj.inherited) →
  ∃ resp calls,
    AiProviders.run (AiController.chat rt env net coll db req) = (resp, calls)
    ∧ NoDup calls
    ∧ (∀ p, p ∈ calls → AiProviders.credentialed env p = true)
    ∧ ((AiController.status resp = 200
        ∧ AiController.success resp = true
        ∧ ∃ fileData stats statsText before p text,
            FileData.findOne coll db (AiController.fileId req)
              (AiController.user_id req) = Ok (Some fileData)
            ∧ generateSummaryStats rt (FileData.data fileData)
                (FileData.columns fileData) = Ok stats
            ∧ calls = (before ++ [p])%list
            ∧ net p (AiController.chatPrompt statsText
                       (AiController.sampleData rt fileData)
                       (AiController.trimmed (AiController.question req)))
                  AiController.chatSystemPrompt = Ok text
            ∧ AiController.answer resp = Some text)
       ∨ (AiController.status resp = 400
          ∧ AiController.success resp = false ∧ calls = []
          ∧ (truthy (AiController.fileId req) = false
             ∨ AiController.questionMissing (AiController.question req) = Ok true))
       ∨ (AiController.status resp = 404
          ∧ AiController.success resp = false ∧ calls = []
          ∧ FileData.findOne coll db (AiController.fileId req)
              (AiController.user_id req) = Ok None)
       ∨ (AiController.status resp = 500
          ∧ AiController.success resp = false
          ∧ ((calls = []
              ∧ ((∃ e, AiController.questionMissing (AiController.question req)
                       = Throw e)
                 ∨ AiProviders.hasAnyProvider env = false
                 ∨ (∃ e, FileData.findOne coll db (AiController.fileId req)
                           (AiController.user_id req) = Throw e)
                 ∨ (∃ fileData e,
                      FileData.findOne coll db (AiController.fileId req)
                        (AiController.user_id req) = Ok (Some fileData)
                      ∧ generateSummaryStats rt (FileData.data fileData)
                          (FileData.columns fileData) = Throw e)))
             ∨ (AiController.message resp
                = Some ("Error calling AI API: " ++ AiProviders.allProvidersFailed)
                ∧ ∀ p, AiProviders.credentialed env p = true → p ∈ calls)))).
Proof.
  intros Hrequested _. unfold AiController.chat.
  destruct (truthy (AiController.fileId req)) eqn:Hid; cbn [negb].
  2:{ eexists _, _. split; [reflexivity|]. split; [constructor|].
      split; [intros p Hp; apply elem_of_nil in Hp; contradiction|].
      right. left. auto. }
  destruct (AiController.questionMissing (AiController.question req))
    as [[|]|e] eqn:Hquestion.
  { eexists _, _. split; [reflexivity|]. split; [constructor|].
    split; [intros p Hp; apply elem_of_nil in Hp; contradiction|].
    right. left. auto. }
  2:{ eexists _, _. split; [reflexivity|]. split; [constructor|].
      split; [intros p Hp; apply elem_of_nil in Hp; contradiction|].
      right. right. right. split; [reflexivity|]. split; [reflexivity|].
      left. split; [reflexivity|]. left. exists e. reflexivity. }
  destruct (AiProviders.hasAnyProvider env) eqn:Hany; cbn [negb].
  2:{ eexists _, _. split; [reflexivity|]. split; [constructor|].
      split; [intros p Hp; apply elem_of_nil in Hp; contradiction|].
      right. right. right. split; [reflexivity|]. split; [reflexivity|].
      left. split; [reflexivity|]. right. left. reflexivity. }
  destruct (FileData.findOne coll db (AiController.fileId req)
              (AiController.user_id req)) as [[fileData|]|e] eqn:Hfind.
  2:{ eexists _, _. split; [reflexivity|]. split; [constructor|].
      split; [intros p Hp; apply elem_of_nil in Hp; contradiction|].
      right. right. left. auto. }
  2:{ eexists _, _. split; [reflexivity|]. split; [constructor|].
      split; [intros p Hp; apply elem_of_nil in Hp; contradiction|].
      right. right. right. split; [reflexivity|]. split; [reflexivity|].
      left. split; [reflexivity|]. right. right. left. exists e. reflexivity. }
  destruct (generateSummaryStats rt (FileData.data fileData)
              (FileData.columns fileData)) as [stats|e] eqn:Hstats.
  2:{ eexists _, _. split; [reflexivity|]. split; [constructor|].
      split; [intros p Hp; apply elem_of_nil in Hp; contradiction|].
      right. right. right. split; [reflexivity|]. split; [reflexivity|].
      left. split; [reflexivity|]. right. right. right.
      exists fileData, e. auto. }
  destruct (formatStatsForAI_cases rt stats) as [(Hbad & _)|(_ & statsText & Htext)].
  { exfalso.
    destruct (formatStatsForAI_Ok rt _ _ stats Hstats) as (text & Htext).
    destruct Hbad as (k & entry & Hin & Hnone).
    destruct (formatStatsForAI_cases rt stats) as [(_ & Hthrow)|(Hgood & _)].
    - rewrite Htext in Hthrow. discriminate.
    - destruct (Hgood k entry Hin). destruct Hnone; contradiction. }
  rewrite Htext.
  destruct (generateAIInsights_run env net
              (AiController.chatPrompt statsText (AiController.sampleData rt fileData)
                 (AiController.trimmed (AiController.question req)))
              AiController.chatSystemPrompt Hrequested)
    as (result & calls & Hrun & Hnd & Hcred & Hresult).
  unfold AiProviders.run in *. unfold AiProviders.bind. rewrite Hrun.
  destruct result as [text|e].
  - eexists _, _. split; [reflexivity|]. split; [exact Hnd|]. split; [exact Hcred|].
    left. split; [reflexivity|]. split; [reflexivity|].
    destruct Hresult as (before & p & -> & Hp & _).
    exists fileData, stats, statsText, before, p, text. auto 10.
  - eexists _, _. split; [reflexivity|]. split; [exact Hnd|]. split; [exact Hcred|].
    right. right. right. split; [reflexivity|]. split; [reflexivity|].
    right. destruct Hresult as (Hall & ->). rewrite Hany.
    split; [reflexivity|]. intros p Hp. apply Hall. exact Hp.
Qed.

(** A question about the stored revenue table, with every key set: the
    answer is the text of OpenAI, the third provider called. *)
Lemma chat_answers_witness :
  let req := MoreSamples.ask "0" (VStr "What is the highest revenue?") in
  AiProviders.requestedProvider Samples.allKeys ≠ "constructor"
  ∧ (∀ fileData col,
       FileData.findOne Samples.collection [MoreSamples.sales]
         (AiController.fileId req) (AiController.user_id req)
       = Ok (Some fileData) →
       col ∈ FileData.columns fileData → name col ∉ Obj.inherited)
  ∧ ∃ resp calls,
      AiProviders.run (AiController.chat Samples.runtime Samples.allKeys
                         Samples.openAiAnswers Samples.collection [MoreSamples.sales]
                         req)
        = (resp, calls)
      ∧ AiController.status resp = 200
      ∧ AiController.answer resp = Some "Revenue grows."
      ∧ calls = [AiProviders.HuggingFace; AiProviders.Gemini; AiProviders.OpenAI].
Proof.
  intros req.
  assert (∀ fileData col,
            FileData.findOne Samples.collection [MoreSamples.sales]
              (AiController.fileId req) (AiController.user_id req)
            = Ok (Some fileData) →
            col ∈ FileData.columns fileData → name col ∉ Obj.inherited) as Hplain.
  { intros fileData col [= <-] Hcol.
    apply list_elem_of_singleton in Hcol as ->.
    apply (bool_decide_unpack _). reflexivity. }
  split; [discriminate|]. split; [exact Hplain|].
  destruct (chat_answers Samples.runtime Samples.allKeys Samples.openAiAnswers
              Samples.collection [MoreSamples.sales] req)
    as (resp & calls & Hrun & _); [discriminate|exact Hplain|].
  exists resp, calls. split; [exact Hrun|].
  vm_compute in Hrun. injection Hrun as <- <-.
  split; [reflexivity|]. split; reflexivity.
Defined.

Section Header.
Import DataAnalyzer.

Variables (rt : Runtime) (data : list Row).

Lemma forEachColumn_header (cols : list Column) (start stats : SummaryStats) :
  Spec.forEachColumn rt data cols (Ok start) = Ok stats →
  rowCount stats = rowCount start
  ∧ columnCount stats = columnCount start
  ∧ columns stats = columns start.
Proof.
  revert start. induction cols as [|c cols IH]; intros start Hrun.
  { injection Hrun as <-. auto. }
  rewrite forEachColumn_cons, processColumn_outcome in Hrun.
  destruct (Spec.outcome rt data c) as [f entry| |].
  - destruct (IH _ Hrun) as (-> & -> & ->). apply rowCount_record.
  - apply (IH _ Hrun).
  - rewrite forEachColumn_throw in Hrun. discriminate.
Qed.

Lemma columns_copy (cols : list Column) :
  map (fun col => {| name := name col; type := type col |}) cols = cols.
Proof.
  induction cols as [|[n t] cols IH]; [reflexivity|]. simpl. rewrite IH. reflexivity.
Qed.

(** The statistics repeat the shape of the table. *)
Lemma generateSummaryStats_header (cols : list Column) (stats : SummaryStats) :
  generateSummaryStats rt data cols = Ok stats →
  rowCount stats = length data
  ∧ columnCount stats = length cols
  ∧ columns stats = match data with [] => [] | _ :: _ => cols end.
Proof.
  intros Hrun. destruct data as [|row rows] eqn:Hdata.
  { injection Hrun as <-. auto. }
  rewrite <- Hdata in Hrun.
  rewrite generateSummaryStats_loop in Hrun by (rewrite Hdata; discriminate).
  apply forEachColumn_header in Hrun as (-> & -> & ->). cbn [rowCount columnCount columns].
  rewrite columns_copy, Hdata. auto.
Qed.

End Header.

(** X22: the answers of [generateInsights].  Unless [AI_PROVIDER] in lower
    case is 'constructor', the handler answers 200, 400, 404 or 500 and
    calls no provider twice and none without a credential.  A 200 is given
    for a file whose statistics were computed, and carries the text of the
    last provider called, for a prompt made of a rendering of the
    statistics, with the number of rows and of columns of the stored table
    and its columns (none for a table without rows).  A 400 or a 404 is
    given before any provider is called.  A 500 means no provider key, a
    failing query, statistics that throw, or the failure of every provider
    with a key. *)
Theorem generateInsights_answers
    (rt : Runtime) (env : AiProviders.Env) (net : AiProviders.Network)
    (coll : FileData.Collection) (db : list FileData.t)
    (req : AiController.Request) :
  AiProviders.requestedProvider env ≠ "constructor" →
  ∃ resp calls,
    AiProviders.run (AiEndpoints.generateInsights rt env net coll db req)
      = (resp, calls)
    ∧ NoDup calls
    ∧ (∀ p, p ∈ calls → AiProviders.credentialed env p = true)
    ∧ ((AiEndpoints.status resp = 200
        ∧ AiEndpoints.success resp = true
        ∧ ∃ fileData stats statsText before p text,
            FileData.findOne coll db (AiController.fileId req)
              (AiController.user_id req) = Ok (Some fileData)
            ∧ generateSummaryStats rt (FileData.data fileData)
                (FileData.columns fileData) = Ok stats
            ∧ calls = (before ++ [p])%list
            ∧ net p (AiEndpoints.insightsPrompt statsText)
                  AiEndpoints.insightsSystemPrompt = Ok text
            ∧ AiEndpoints.data resp
              = Some {| AiEndpoints.Insights.fileId := FileData._id fileData;
                        AiEndpoints.Insights.fileName := FileData.originalName fileData;
                        AiEndpoints.Insights.insights := text;
                        AiEndpoints.Insights.rowCount :=
                          length (FileData.data fileData);
                        AiEndpoints.Insights.columnCount :=
                          length (FileData.columns fileData);
                        AiEndpoints.Insights.columns :=
                          match FileData.data fileData with
                          | [] => []
                          | _ :: _ => FileData.columns fileData
                          end |})
       ∨ (AiEndpoints.status resp = 400
          ∧ AiEndpoints.success resp = false ∧ calls = []
          ∧ truthy (AiController.fileId req) = false)
       ∨ (AiEndpoints.status resp = 404
          ∧ AiEndpoints.success resp = false ∧ calls = []
          ∧ FileData.findOne coll db (AiController.fileId req)
              (AiController.user_id req) = Ok None)
       ∨ (AiEndpoints.status resp = 500
          ∧ AiEndpoints.success resp = false
          ∧ ((calls = []
              ∧ (AiProviders.hasAnyProvider env = false
                 ∨ (∃ e, FileData.findOne coll db (AiController.fileId req)
                           (AiController.user_id req) = Throw e)
                 ∨ (∃ fileData e,
                      FileData.findOne coll db (AiController.fileId req)
                        (AiController.user_id req) = Ok (Some fileData)
                      ∧ generateSummaryStats rt (FileData.data fileData)
                          (FileData.columns fileData) = Throw e)))
             ∨ (AiEndpoints.message resp
                = Some ("Error calling AI API: " ++ AiProviders.allProvidersFailed)
                ∧ ∀ p, AiProviders.credentialed env p = true → p ∈ calls)))).
Proof.
  intros Hrequested. unfold AiEndpoints.generateInsights.
  destruct (truthy (AiController.fileId req)) eqn:Hid; cbn [negb].
  2:{ eexists _, _. split; [reflexivity|]. split; [constructor|].
      split; [intros p Hp; apply elem_of_nil in Hp; contradiction|].
      right. left. auto. }
  destruct (AiProviders.hasAnyProvider env) eqn:Hany; cbn [negb].
  2:{ eexists _, _. split; [reflexivity|]. split; [constructor|].
      split; [intros p Hp; apply elem_of_nil in Hp; contradiction|].
      right. right. right. split; [reflexivity|]. split; [reflexivity|].
      left. split; [reflexivity|]. left. reflexivity. }
  destruct (FileData.findOne coll db (AiController.fileId req)
              (AiController.user_id req)) as [[fileData|]|e] eqn:Hfind.
  2:{ eexists _, _. split; [reflexivity|]. split; [constructor|].
      split; [intros p Hp; apply elem_of_nil in Hp; contradiction|].
      right. right. left. auto. }
  2:{ eexists _, _. split; [reflexivity|]. split; [constructor|].
      split; [intros p Hp; apply elem_of_nil in Hp; contradiction|].
      right. right. right. split; [reflexivity|]. split; [reflexivity|].
      left. split; [reflexivity|]. right. left. exists e. reflexivity. }
  destruct (generateSummaryStats rt (FileData.data fileData)
              (FileData.columns fileData)) as [stats|e] eqn:Hstats.
  2:{ eexists _, _. split; [reflexivity|]. split; [constructor|].
      split; [intros p Hp; apply elem_of_nil in Hp; contradiction|].
      right. right. right. split; [reflexivity|]. split; [reflexivity|].
      left. split; [reflexivity|]. right. right. exists fileData, e. auto. }
  destruct (formatStatsForAI_Ok rt _ _ stats Hstats) as (statsText & Htext).
  destruct (generateSummaryStats_header rt _ _ stats Hstats) as (Hrows & Hcount & Hcols).
  rewrite Htext. cbv zeta.
  destruct (generateAIInsights_run env net (AiEndpoints.insightsPrompt statsText)
              AiEndpoints.insightsSystemPrompt Hrequested)
    as (result & calls & Hrun & Hnd & Hcred & Hresult).
  unfold AiProviders.run in *. unfold AiProviders.bind. rewrite Hrun.
  destruct result as [text|e].
  - eexists _, _. split; [reflexivity|]. split; [exact Hnd|]. split; [exact Hcred|].
    left. split; [reflexivity|]. split; [reflexivity|].
    destruct Hresult as (before & p & -> & Hp & _).
    exists fileData, stats, statsText, before, p, text.
    rewrite <- Hrows, <- Hcount, <- Hcols. auto 10.
  - eexists _, _. split; [reflexivity|]. split; [exact Hnd|]. split; [exact Hcred|].
    right. right. right. split; [reflexivity|]. split; [reflexivity|].
    right. destruct Hresult as (Hall & ->). rewrite Hany.
    split; [reflexivity|]. intros p Hp. apply Hall. exact Hp.
Qed.

(** Insights on the stored revenue table, with every key set: the text of
    OpenAI, the third provider called, with the four rows and the one
    column of the table. *)
Lemma generateInsights_answers_witness :
  let req := MoreSamples.ask "0" (VStr "") in
  AiProviders.requestedProvider Samples.allKeys ≠ "constructor"
  ∧ ∃ resp calls,
      AiProviders.run (AiEndpoints.generateInsights Samples.runtime Samples.allKeys
                         Samples.openAiAnswers Samples.collection [MoreSamples.sales]
                         req)
        = (resp, calls)
      ∧ AiEndpoints.status resp = 200
      ∧ AiEndpoints.data resp
        = Some {| AiEndpoints.Insights.fileId := "0";
                  AiEndpoints.Insights.fileName := "sales.csv";
                  AiEndpoints.Insights.insights := "Revenue grows.";
                  AiEndpoints.Insights.rowCount := 4;
                  AiEndpoints.Insights.columnCount := 1;
                  AiEndpoints.Insights.columns := Samples.revenueColumns |}
      ∧ calls = [AiProviders.HuggingFace; AiProviders.Gemini; AiProviders.OpenAI].
Proof.
  intros req. split; [discriminate|].
  destruct (generateInsights_answers Samples.runtime Samples.allKeys
              Samples.openAiAnswers Samples.collection [MoreSamples.sales] req)
    as (resp & calls & Hrun & _); [discriminate|].
  exists resp, calls. split; [exact Hrun|].
  vm_compute in Hrun. injection Hrun as <- <-.
  split; [reflexivity|]. split; reflexivity.
Defined.

Lemma some_credential (env : AiProviders.Env) :
  AiProviders.hasAnyProvider env = true →
  ∃ p, AiProviders.credentialed env p = true.
Proof.
  unfold AiProviders.hasAnyProvider. intros Hany.
  destruct (AiProviders.isSet (AiProviders.HUGGINGFACE_API_KEY env)) eqn:Hhf;
    [exists AiProviders.HuggingFace; exact Hhf|].
  destruct (AiProviders.isSet (AiProviders.GEMINI_API_KEY env)) eqn:Hg;
    [exists AiProviders.Gemini; exact Hg|].
  exists AiProviders.OpenAI. exact Hany.
Qed.

(** With a provider key, the gateway calls some provider. *)
Lemma generateAIInsights_reached (env : AiProviders.Env) (net : AiProviders.Network)
    (prompt systemPrompt : string) :
  AiProviders.requestedProvider env ≠ "constructor" →
  AiProviders.hasAnyProvider env = true →
  ∃ result calls,
    AiProviders.generateAIInsights env net prompt systemPrompt [] = (result, calls)
    ∧ calls ≠ []
    ∧ (isOk result = true
       ∨ result = Throw AiProviders.allProvidersFailed).
Proof.
  intros Hrequested Hany.
  destruct (generateAIInsights_run env net prompt systemPrompt Hrequested)
    as (result & calls & Hrun & _ & _ & Hresult).
  exists result, calls. split; [exact Hrun|].
  destruct result as [text|e].
  - destruct Hresult as (before & p & -> & _). split; [|left; reflexivity].
    destruct before; discriminate.
  - destruct Hresult as (Hall & ->). rewrite Hany. split; [|right; reflexivity].
    destruct (some_credential env Hany) as (p & Hp).
    destruct (Hall p Hp) as (Hin & _). intros ->. apply elem_of_nil in Hin. exact Hin.
Qed.

(** X23: the three handlers of the AI routes agree on a request.  With a
    provider key, a question that is there and an [AI_PROVIDER] that in
    lower case is not 'constructor': when [getSummaryStats]
    answers 200, [generateInsights] and [chat] both get as far as calling a
    provider, and answer 200 or report that every provider failed; when
    [getSummaryStats] answers anything else (400, 404, 500), the other two
    answer with the same status, and no provider is called. *)
Theorem ai_handlers_agree
    (rt : Runtime) (env : AiProviders.Env) (net : AiProviders.Network)
    (coll : FileData.Collection) (db : list FileData.t)
    (req : AiController.Request) :
  AiProviders.requestedProvider env ≠ "constructor" →
  AiProviders.hasAnyProvider env = true →
  AiController.questionMissing (AiController.question req) = Ok false →
  ∃ insights calls1 answer calls2,
    AiProviders.run (AiEndpoints.generateInsights rt env net coll db req)
      = (insights, calls1)
    ∧ AiProviders.run (AiController.chat rt env net coll db req) = (answer, calls2)
    ∧ ((AiEndpoints.status (AiEndpoints.getSummaryStats rt coll db req) = 200
        ∧ calls1 ≠ [] ∧ calls2 ≠ []
        ∧ (AiEndpoints.status insights = 200
           ∨ AiEndpoints.message insights
             = Some ("Error calling AI API: " ++ AiProviders.allProvidersFailed))
        ∧ (AiController.status answer = 200
           ∨ AiController.message answer
             = Some ("Error calling AI API: " ++ AiProviders.allProvidersFailed)))
       ∨ (AiEndpoints.status (AiEndpoints.getSummaryStats rt coll db req) ≠ 200
          ∧ AiEndpoints.status insights
            = AiEndpoints.status (AiEndpoints.getSummaryStats rt coll db req)
          ∧ AiController.status answer
            = AiEndpoints.status (AiEndpoints.getSummaryStats rt coll db req)
          ∧ calls1 = [] ∧ calls2 = [])).
Proof.
  intros Hrequested Hany Hquestion.
  unfold AiEndpoints.generateInsights, AiController.chat, AiEndpoints.getSummaryStats.
  rewrite Hquestion, Hany.
  destruct (truthy (AiController.fileId req)); cbn [negb].
  2:{ eexists _, _, _, _. split; [reflexivity|]. split; [reflexivity|].
      right. repeat split. discriminate. }
  destruct (FileData.findOne coll db (AiController.fileId req)
              (AiController.user_id req)) as [[fileData|]|e].
  2:{ eexists _, _, _, _. split; [reflexivity|]. split; [reflexivity|].
      right. repeat split. discriminate. }
  2:{ eexists _, _, _, _. split; [reflexivity|]. split; [reflexivity|].
      right. repeat split. discriminate. }
  destruct (generateSummaryStats rt (FileData.data fileData)
              (FileData.columns fileData)) as [stats|e] eqn:Hstats.
  2:{ eexists _, _, _, _. split; [reflexivity|]. split; [reflexivity|].
      right. repeat split. discriminate. }
  destruct (formatStatsForAI_Ok rt _ _ stats Hstats) as (statsText & ->). cbv zeta.
  destruct (generateAIInsights_reached env net (AiEndpoints.insightsPrompt statsText)
              AiEndpoints.insightsSystemPrompt Hrequested Hany)
    as (result1 & calls1 & Hrun1 & Hcalls1 & Hresult1).
  destruct (generateAIInsights_reached env net
              (AiController.chatPrompt statsText (AiController.sampleData rt fileData)
                 (AiController.trimmed (AiController.question req)))
              AiController.chatSystemPrompt Hrequested Hany)
    as (result2 & calls2 & Hrun2 & Hcalls2 & Hresult2).
  unfold AiProviders.run, AiProviders.bind. rewrite Hrun1, Hrun2.
  assert (∃ text, result1 = Ok text ∨ result1 = Throw AiProviders.allProvidersFailed)
    as (text1 & Hcase1).
  { destruct result1 as [text|e]; [exists text; left; reflexivity|].
    exists "". destruct Hresult1 as [Hok|Hfail]; [discriminate|right; exact Hfail]. }
  assert (∃ text, result2 = Ok text ∨ result2 = Throw AiProviders.allProvidersFailed)
    as (text2 & Hcase2).
  { destruct result2 as [text|e]; [exists text; left; reflexivity|].
    exists "". destruct Hresult2 as [Hok|Hfail]; [discriminate|right; exact Hfail]. }
  destruct Hcase1 as [-> | ->], Hcase2 as [-> | ->];
    (eexists _, calls1, _, calls2; split; [reflexivity|]; split; [reflexivity|];
     left; split; [reflexivity|]; split; [exact Hcalls1|]; split; [exact Hcalls2|];
     split; [first [left; reflexivity|right; reflexivity]
            |first [left; reflexivity|right; reflexivity]]).
Qed.

(** A question about the stored revenue table, with every key set. *)
Lemma ai_handlers_agree_witness :
  let req := MoreSamples.ask "0" (VStr "What is the highest revenue?") in
  AiProviders.requestedProvider Samples.allKeys ≠ "constructor"
  ∧ AiProviders.hasAnyProvider Samples.allKeys = true
  ∧ AiController.questionMissing (AiController.question req) = Ok false
  ∧ ∃ insights calls1 answer calls2,
      AiProviders.run (AiEndpoints.generateInsights Samples.runtime Samples.allKeys
                         Samples.openAiAnswers Samples.collection [MoreSamples.sales] req)
        = (insights, calls1)
      ∧ AiProviders.run (AiController.chat Samples.runtime Samples.allKeys
                           Samples.openAiAnswers Samples.collection [MoreSamples.sales]
                           req)
        = (answer, calls2)
      ∧ ((AiEndpoints.status
            (AiEndpoints.getSummaryStats Samples.runtime Samples.collection
               [MoreSamples.sales] req) = 200
          ∧ calls1 ≠ [] ∧ calls2 ≠ []
          ∧ (AiEndpoints.status insights = 200
             ∨ AiEndpoints.message insights
               = Some ("Error calling AI API: " ++ AiProviders.allProvidersFailed))
          ∧ (AiController.status answer = 200
             ∨ AiController.message answer
               = Some ("Error calling AI API: " ++ AiProviders.allProvidersFailed)))
         ∨ (AiEndpoints.status
              (AiEndpoints.getSummaryStats Samples.runtime Samples.collection
                 [MoreSamples.sales] req) ≠ 200
            ∧ AiEndpoints.status insights
              = AiEndpoints.status
                  (AiEndpoints.getSummaryStats Samples.runtime Samples.collection
                     [MoreSamples.sales] req)
            ∧ AiController.status answer
              = AiEndpoints.status
                  (AiEndpoints.getSummaryStats Samples.runtime Samples.collection
                     [MoreSamples.sales] req)
            ∧ calls1 = [] ∧ calls2 = [])).
Proof.
  intros req. split; [discriminate|]. split; [reflexivity|]. split; [reflexivity|].
  apply (ai_handlers_agree Samples.runtime Samples.allKeys Samples.openAiAnswers
           Samples.collection [MoreSamples.sales] req);
    [discriminate|reflexivity|reflexivity].
Defined.

(* ===================================================================== *)
(** * What an upload stores *)
(* ===================================================================== *)

Section Ingestion.
Import UploadController.

Variables (rt : Runtime) (env : AiProviders.Env) (coll : FileData.Collection).

(** A column without a value is a string column. *)
Lemma blank_column_is_string (rows : list Row) (k : string) :
  DataAnalyzer.presentValues rows k = [] → detectColumnType rt rows k = TString.
Proof.
  intros Hblank.
  assert (∀ row, row ∈ rows → isBlank (cell row k) = true) as Hall.
  { intros row Hrow. destruct (isBlank (cell row k)) eqn:Hcell; [reflexivity|].
    exfalso. unfold DataAnalyzer.presentValues in Hblank.
    assert (cell row k ∈ filter (fun val => isBlank val = false)
                           (map (fun row => cell row k) rows)) as Hin.
    { apply list_elem_of_filter. split; [exact Hcell|].
      apply list_elem_of_fmap. exists row. auto. }
    rewrite Hblank in Hin. apply elem_of_nil in Hin. exact Hin. }
  rewrite detectColumnType_by_tallies. cbv zeta.
  assert (∀ cat, Spec.tally rt k cat (Spec.sampleOf rows) = 0) as Hzero.
  { intros cat. apply tally_none. intros row Hrow.
    unfold Spec.sampleOf in Hrow. apply subseteq_take in Hrow.
    rewrite (categoryOf_blank rt _ (Hall row Hrow)). discriminate. }
  rewrite !Hzero. repeat case_decide; try lia. reflexivity.
Qed.


(** What a parser that succeeded has made. *)
Lemma processUpload_Ok (d : Disk) (fileType filePath : string)
    (processed : ProcessedData) :
  processUpload rt d fileType filePath = Some (Ok processed) →
  fileType ∈ ["csv"; "xlsx"; "xls"]
  ∧ FileProcessor.rowCount processed = length (FileProcessor.data processed)
  ∧ (FileProcessor.columns processed ≠ [] → FileProcessor.data processed ≠ [])
  ∧ ∀ col, col ∈ FileProcessor.columns processed →
           type col = detectColumnType rt (FileProcessor.data processed) (name col).
Proof.
  unfold processUpload. destruct (strEq fileType "csv") eqn:Hcsv.
  - apply strEq_eq in Hcsv as ->. intros [= Hrun]. split; [repeat constructor|].
    unfold processCSV in Hrun.
    destruct (files d !! filePath) as [blob|]; [|discriminate].
    destruct (asCsv blob) as [rows|]; [|discriminate].
    injection Hrun as <-. cbn [FileProcessor.data FileProcessor.columns FileProcessor.rowCount].
    split; [reflexivity|]. split.
    + destruct rows; [intros H; contradiction|discriminate].
    + intros col Hcol. apply list_elem_of_fmap in Hcol as (k & -> & _). reflexivity.
  - destruct (existsb (strEq fileType) ["xlsx"; "xls"]) eqn:Hexcel; [|discriminate].
    intros [= Hrun]. split.
    { simpl in Hexcel. destruct (strEq fileType "xlsx") eqn:Hx.
      - apply strEq_eq in Hx as ->. repeat constructor.
      - destruct (strEq fileType "xls") eqn:Hs; [|discriminate].
        apply strEq_eq in Hs as ->. repeat constructor. }
    unfold processExcel in Hrun.
    destruct (files d !! filePath) as [blob|]; [|discriminate].
    destruct (asWorkbook blob) as [[|first rest]|]; try discriminate.
    injection Hrun as <-. cbn [FileProcessor.data FileProcessor.columns FileProcessor.rowCount].
    split; [reflexivity|]. split; [discriminate|].
    intros col Hcol. apply list_elem_of_fmap in Hcol as (k & -> & _). reflexivity.
Qed.

(** A document is stored on one path through the handler only. *)
Lemma uploadFile_stored (req : Request) (w w' : World) (resp : Response)
    (doc : FileData.t) :
  uploadFile rt env coll req w = (resp, w') →
  stored resp = Some doc →
  ∃ f processed,
    file req = Some f
    ∧ processUpload rt (disk w) (getFileType (originalname f)) (path f)
      = Some (Ok processed)
    ∧ validateColumns 0 (FileProcessor.columns processed) = Ok tt
    ∧ FileData.saveError coll doc = None
    ∧ doc = {| FileData._id := FileData.newId coll (db w);
               FileData.userId := user_id req;
               FileData.fileName := trim (filename f);
               FileData.originalName := trim (originalname f);
               FileData.fileType := getFileType (originalname f);
               FileData.fileSize := size f;
               FileData.data := FileProcessor.data processed;
               FileData.columns := FileProcessor.columns processed;
               FileData.rowCount := FileProcessor.rowCount processed;
               FileData.isProcessed := true |}
    ∧ status resp = 201 ∧ success resp = true
    ∧ w' = cleanup {| disk := disk w; db := (db w ++ [doc])%list;
                      cleanups := cleanups w |} (path f).
Proof.
  unfold uploadFile. destruct (file req) as [f|]; [|intros [= <- _]; discriminate].
  destruct (processUpload _ _ _ _) as [[processed|e]|] eqn:Hrun;
    try (intros [= <- _]; discriminate).
  destruct (validateColumns 0 _) as [[]|checkError] eqn:Hcheck.
  - destruct (FileData.saveError coll _) as [saveError|] eqn:Hsave.
    + intros Hresp Hstored. exfalso.
      pose proof (onError_db env f saveError w) as (_ & Hnone & _).
      rewrite Hresp in Hnone. simpl in Hnone. congruence.
    + intros [= <- <-] [= <-]. exists f, processed. auto 10.
  - intros Hresp Hstored. exfalso.
    pose proof (onError_db env f checkError w) as (_ & Hnone & _).
    rewrite Hresp in Hnone. simpl in Hnone. congruence.
Qed.

End Ingestion.



(** X25: an upload with an empty column is stored, and then has no
    statistics.  For the document of a successful upload none of whose
    columns has the name of a member of [Object.prototype],
    [generateSummaryStats] throws on its rows and columns exactly when some
    column of the document has no value in any row: such a column is
    stored as a string column, and the null-only entry of a string column
    cannot be written. *)
Theorem uploadFile_then_generateSummaryStats
    (rt : Runtime) (env : AiProviders.Env) (coll : FileData.Collection)
    (req : UploadController.Request) (w w' : UploadController.World)
    (resp : UploadController.Response) (doc : FileData.t) :
  UploadController.uploadFile rt env coll req w = (resp, w') →
  UploadController.stored resp = Some doc →
  (∀ col, col ∈ FileData.columns doc → name col ∉ Obj.inherited) →
  (∃ e, generateSummaryStats rt (FileData.data doc) (FileData.columns doc) = Throw e)
  ↔ ∃ col, col ∈ FileData.columns doc
           ∧ presentValues (FileData.data doc) (name col) = [].
Proof.
  intros Hrun Hstored _.
  destruct (uploadFile_stored rt env coll req w w' resp doc Hrun Hstored)
    as (f & processed & _ & Hparse & _ & _ & Hdoc & _).
  apply processUpload_Ok in Hparse as (_ & _ & Hsome & Htypes).
  rewrite Hdoc. cbn [FileData.data FileData.columns]. split.
  - intros (e & Hthrow). apply generateSummaryStats_failure in Hthrow
      as (_ & before & col & after & Hcols & _ & _ & Hblank & _).
    exists col. split; [|exact Hblank]. rewrite Hcols.
    apply elem_of_app. right. apply elem_of_cons. left. reflexivity.
  - intros (col & Hcol & Hblank).
    apply (generateSummaryStats_blank_column_throws rt (FileProcessor.data processed)
             (FileProcessor.columns processed) col).
    + apply Hsome. intros Hnil. rewrite Hnil in Hcol. apply elem_of_nil in Hcol.
      exact Hcol.
    + exact Hcol.
    + rewrite (Htypes col Hcol), (blank_column_is_string rt _ _ Hblank). discriminate.
    + rewrite <- presentValues_none, Hblank. reflexivity.
Qed.

(** The upload of a table whose second column is empty: it is stored, and
    its statistics throw. *)
Lemma uploadFile_then_generateSummaryStats_witness :
  let run := UploadController.uploadFile Samples.runtime Samples.allKeys
               Samples.collection (Samples.upload "gaps.csv" "5-gaps.csv")
               MoreSamples.gapsWorld in
  ∃ doc,
    UploadController.stored run.1 = Some doc
    ∧ FileData.data doc = MoreSamples.gaps
    ∧ (∀ col, col ∈ FileData.columns doc → name col ∉ Obj.inherited)
    ∧ ((∃ e, generateSummaryStats Samples.runtime (FileData.data doc)
               (FileData.columns doc) = Throw e)
       ↔ ∃ col, col ∈ FileData.columns doc
                ∧ presentValues (FileData.data doc) (name col) = []).
Proof.
  intros run.
  exists (default MoreSamples.sales (UploadController.stored run.1)).
  assert (∀ col, col ∈ FileData.columns
                          (default MoreSamples.sales (UploadController.stored run.1)) →
                 name col ∉ Obj.inherited) as Hplain.
  { intros col Hcol. vm_compute in Hcol.
    repeat (apply elem_of_cons in Hcol as [->|Hcol]);
      try (apply (bool_decide_unpack _); reflexivity).
    inversion Hcol. }
  split; [reflexivity|]. split; [reflexivity|]. split; [exact Hplain|].
  exact (uploadFile_then_generateSummaryStats Samples.runtime Samples.allKeys
           Samples.collection (Samples.upload "gaps.csv" "5-gaps.csv")
           MoreSamples.gapsWorld run.2 run.1
           (default MoreSamples.sales (UploadController.stored run.1))
           eq_refl eq_refl Hplain).
Defined.

(* ===================================================================== *)
(** * The provider calls *)
(* ===================================================================== *)

Section Pushes.
Import ProviderCalls.

Variable wanted : string → bool.
Variable step : list string → string → list string.
Hypothesis step_spec :
  ∀ opts x, step opts x
            = if wanted x && negb (listIncludes x opts) then (opts ++ [x])%list else opts.

Lemma push_step (opts : list string) (x : string) :
  (step opts x = opts ∧ (wanted x = false ∨ x ∈ opts))
  ∨ (step opts x = (opts ++ [x])%list ∧ wanted x = true ∧ x ∉ opts).
Proof using step_spec.
  rewrite step_spec. destruct (wanted x); [|left; auto].
  destruct (listIncludes x opts) eqn:Hin; simpl.
  - left. split; [reflexivity|]. right. apply existsb_strEq. exact Hin.
  - right. split; [reflexivity|]. split; [reflexivity|].
    intros Hx. apply existsb_strEq in Hx. unfold listIncludes in Hin. congruence.
Qed.

Lemma push_NoDup (l opts : list string) :
  NoDup opts → NoDup (fold_left step l opts).
Proof using step_spec.
  revert opts. induction l as [|x l IH]; intros opts Hnd; [exact Hnd|].
  simpl. apply IH. destruct (push_step opts x) as [(-> & _)|(-> & _ & Hx)]; [exact Hnd|].
  apply NoDup_app. split; [exact Hnd|]. split; [|apply NoDup_singleton].
  intros y Hy Hy'. apply list_elem_of_singleton in Hy' as ->. contradiction.
Qed.

Lemma push_elem (l opts : list string) (m : string) :
  m ∈ fold_left step l opts ↔ m ∈ opts ∨ (m ∈ l ∧ wanted m = true).
Proof using step_spec.
  revert opts. induction l as [|x l IH]; intros opts; simpl.
  { split; [auto|]. intros [H|(H & _)]; [exact H|]. apply elem_of_nil in H. contradiction. }
  rewrite IH. destruct (push_step opts x) as [(-> & Hx)|(-> & Hx & _)].
  - split.
    + intros [H|(H & Hw)]; [auto|]. right. split; [|exact Hw].
      apply elem_of_cons. right. exact H.
    + intros [H|(H & Hw)]; [auto|].
      apply elem_of_cons in H as [->|H]; [|auto].
      destruct Hx as [Hx|Hx]; [congruence|auto].
  - split.
    + intros [H|(H & Hw)].
      * apply elem_of_app in H as [H|H]; [auto|].
        apply list_elem_of_singleton in H as ->. right. split; [|exact Hx].
        apply elem_of_cons. left. reflexivity.
      * right. split; [|exact Hw]. apply elem_of_cons. right. exact H.
    + intros [H|(H & Hw)].
      * left. apply elem_of_app. left. exact H.
      * apply elem_of_cons in H as [->|H]; [|auto].
        left. apply elem_of_app. right. apply list_elem_of_singleton. reflexivity.
Qed.

Lemma push_prefix (l opts : list string) :
  ∃ more, fold_left step l opts = (opts ++ more)%list.
Proof using step_spec.
  revert opts. induction l as [|x l IH]; intros opts; simpl.
  { exists []. rewrite app_nil_r. reflexivity. }
  destruct (IH (step opts x)) as (more & ->).
  destruct (push_step opts x) as [(-> & _)|(-> & _)].
  - exists more. reflexivity.
  - exists (x :: more). rewrite <- app_assoc. reflexivity.
Qed.

End Pushes.

Section GeminiModels.
Import ProviderCalls.

Variable models : Models.

(** The list of models to try, when the service has told its models. *)
Lemma modelOptions_listed (available : list string) :
  available ≠ [] →
  NoDup (modelOptions models (Some available))
  ∧ (∃ more, modelOptions models (Some available)
             = (given (GEMINI_MODEL models) ++ more)%list)
  ∧ (∀ m, m ∈ modelOptions models (Some available) →
          m ∈ given (GEMINI_MODEL models) ∨ m ∈ available)
  ∧ (∀ m, m ∈ available → includes "gemini" m = true →
          m ∈ modelOptions models (Some available)).
Proof.
  intros Hsome. unfold modelOptions.
  assert (listed (Some available) = true) as ->.
  { destruct available; [contradiction|reflexivity]. }
  cbv zeta. change (default [] (Some available)) with available.
  set (first := fun (modelOptions : list string) (priority : string) =>
         if listIncludes priority available && negb (listIncludes priority modelOptions)
         then (modelOptions ++ [priority])%list else modelOptions).
  set (second := fun (modelOptions : list string) (model : string) =>
         if negb (listIncludes model modelOptions) && includes "gemini" model
         then (modelOptions ++ [model])%list else modelOptions).
  assert (∀ opts x, first opts x
                    = if (fun p => listIncludes p available) x
                         && negb (listIncludes x opts)
                      then (opts ++ [x])%list else opts) as Hfirst by reflexivity.
  assert (∀ opts x, second opts x
                    = if includes "gemini" x && negb (listIncludes x opts)
                      then (opts ++ [x])%list else opts) as Hsecond.
  { intros opts x. unfold second. rewrite andb_comm. reflexivity. }
  assert (NoDup (given (GEMINI_MODEL models))) as Hgiven.
  { unfold given. destruct (GEMINI_MODEL models) as [m|]; [|constructor].
    destruct (nonEmpty m); [apply NoDup_singleton|constructor]. }
  split; [|split; [|split]].
  - apply (push_NoDup _ _ Hsecond), (push_NoDup _ _ Hfirst), Hgiven.
  - destruct (push_prefix _ _ Hfirst priorityModels (given (GEMINI_MODEL models)))
      as (more1 & ->).
    destruct (push_prefix _ _ Hsecond available
                (given (GEMINI_MODEL models) ++ more1)%list) as (more2 & ->).
    exists (more1 ++ more2)%list. rewrite app_assoc. reflexivity.
  - intros m Hm. apply (push_elem _ _ Hsecond) in Hm as [Hm|(Hm & _)]; [|auto].
    apply (push_elem _ _ Hfirst) in Hm as [Hm|(_ & Hm)]; [auto|].
    right. apply existsb_strEq. exact Hm.
  - intros m Hm Hgemini. apply (push_elem _ _ Hsecond). right. auto.
Qed.

End GeminiModels.

(** X26: the models that [callGemini] tries, when the service has told
    which models there are.  The list has no model twice; it starts with
    the model of [GEMINI_MODEL] when that is set; every other model on it
    is one the service named; and every model the service named that has
    'gemini' in its name is on it. *)
Theorem callGemini_modelOptions
    (models : ProviderCalls.Models) (available : list string) :
  available ≠ [] →
  NoDup (ProviderCalls.modelOptions models (Some available))
  ∧ (∀ m, ProviderCalls.GEMINI_MODEL models = Some m → m ≠ "" →
          head (ProviderCalls.modelOptions models (Some available)) = Some m)
  ∧ (∀ m, m ∈ ProviderCalls.modelOptions models (Some available) →
          ProviderCalls.GEMINI_MODEL models = Some m ∨ m ∈ available)
  ∧ (∀ m, m ∈ available → ProviderCalls.includes "gemini" m = true →
          m ∈ ProviderCalls.modelOptions models (Some available)).
Proof.
  intros Hsome.
  destruct (modelOptions_listed models available Hsome)
    as (Hnd & (more & Hprefix) & Hfrom & Hall).
  split; [exact Hnd|]. split; [|split; [|exact Hall]].
  - intros m Hm Hne. rewrite Hprefix. unfold ProviderCalls.given. rewrite Hm.
    unfold nonEmpty. destruct (strEq m "") eqn:Heq; [|reflexivity].
    apply strEq_eq in Heq. contradiction.
  - intros m Hm. destruct (Hfrom m Hm) as [Hgiven|Havailable]; [|auto].
    left. unfold ProviderCalls.given in Hgiven.
    destruct (ProviderCalls.GEMINI_MODEL models) as [user|];
      [|apply elem_of_nil in Hgiven; contradiction].
    destruct (nonEmpty user); [|apply elem_of_nil in Hgiven; contradiction].
    apply list_elem_of_singleton in Hgiven as ->. reflexivity.
Qed.

(** A list of four models from the service, with a model of the user's
    choice. *)
Lemma callGemini_modelOptions_witness :
  let models := {| ProviderCalls.HUGGINGFACE_MODEL := None;
                   ProviderCalls.GEMINI_MODEL := Some "gemini-2.0-flash";
                   ProviderCalls.OPENAI_MODEL := None |} in
  let available := ["gemini-pro"; "embedding-001"; "gemini-2.0-flash";
                    "gemini-1.5-flash"] in
  ProviderCalls.modelOptions models (Some available)
  = ["gemini-2.0-flash"; "gemini-1.5-flash"; "gemini-pro"]
  ∧ NoDup (ProviderCalls.modelOptions models (Some available))
  ∧ (∀ m, ProviderCalls.GEMINI_MODEL models = Some m → m ≠ "" →
          head (ProviderCalls.modelOptions models (Some available)) = Some m)
  ∧ (∀ m, m ∈ ProviderCalls.modelOptions models (Some available) →
          ProviderCalls.GEMINI_MODEL models = Some m ∨ m ∈ available)
  ∧ (∀ m, m ∈ available → ProviderCalls.includes "gemini" m = true →
          m ∈ ProviderCalls.modelOptions models (Some available)).
Proof.
  intros models available. split; [reflexivity|].
  apply (callGemini_modelOptions models available). discriminate.
Defined.

Section GeminiLoops.
Import ProviderCalls.

Variables (api : GeminiApi) (apiKey fullPrompt : string).

(** The first loop stops at the first model whose failure is not about
    the model being there. *)
Lemma trySdk_decisive (before after : list string) (modelName : string)
    (lastError : option string) :
  (∀ m, m ∈ before →
        ∃ message, sdkAttempt api apiKey fullPrompt m = Throw message
                   ∧ More.availabilityError message = true) →
  (∀ message, sdkAttempt api apiKey fullPrompt modelName = Throw message →
              More.availabilityError message = false) →
  trySdk api apiKey fullPrompt (before ++ modelName :: after) lastError
  = (match sdkAttempt api apiKey fullPrompt modelName with
     | Ok text => Returned text
     | Throw message => Thrown message
     end, map Sdk (before ++ [modelName])).
Proof.
  intros Hbefore Hdecisive. revert lastError.
  induction before as [|b before IH]; intros lastError; simpl.
  - destruct (sdkAttempt api apiKey fullPrompt modelName) as [text|message] eqn:Hm;
      [reflexivity|].
    specialize (Hdecisive message eq_refl). unfold More.availabilityError in Hdecisive.
    destruct (includes "not found" message), (includes "404" message),
      (includes "NOT_FOUND" message); try discriminate. reflexivity.
  - destruct (Hbefore b ltac:(apply elem_of_cons; left; reflexivity))
      as (message & -> & Hmessage).
    unfold More.availabilityError in Hmessage.
    assert (negb (includes "not found" message) && negb (includes "404" message)
            && negb (includes "NOT_FOUND" message) = false) as ->.
    { destruct (includes "not found" message), (includes "404" message),
        (includes "NOT_FOUND" message); try discriminate; reflexivity. }
    rewrite IH; [reflexivity|].
    intros m Hm. apply Hbefore. apply elem_of_cons. right. exact Hm.
Qed.

(** The first loop comes to its end when no model is there. *)
Lemma trySdk_exhausted (modelOptions : list string) (lastError : option string) :
  (∀ m, m ∈ modelOptions →
        ∃ message, sdkAttempt api apiKey fullPrompt m = Throw message
                   ∧ More.availabilityError message = true) →
  ∃ final,
    trySdk api apiKey fullPrompt modelOptions lastError
    = (Exhausted final, map Sdk modelOptions)
    ∧ (modelOptions = [] → final = lastError)
    ∧ (∀ m message, last modelOptions = Some m →
                    sdkAttempt api apiKey fullPrompt m = Throw message →
                    final = Some message).
Proof.
  revert lastError. induction modelOptions as [|b rest IH]; intros lastError Hall; simpl.
  { exists lastError. split; [reflexivity|]. split; [reflexivity|]. discriminate. }
  destruct (Hall b ltac:(apply elem_of_cons; left; reflexivity))
    as (message & Hb & Hmessage).
  rewrite Hb. unfold More.availabilityError in Hmessage.
  assert (negb (includes "not found" message) && negb (includes "404" message)
          && negb (includes "NOT_FOUND" message) = false) as ->.
  { destruct (includes "not found" message), (includes "404" message),
      (includes "NOT_FOUND" message); try discriminate; reflexivity. }
  destruct (IH (Some message)) as (final & -> & Hnil & Hlast).
  { intros m Hm. apply Hall. apply elem_of_cons. right. exact Hm. }
  exists final. split; [reflexivity|]. split; [discriminate|].
  intros m message' Hm Hattempt. destruct rest as [|c rest].
  - injection Hm as <-. rewrite Hb in Hattempt. injection Hattempt as <-.
    apply Hnil. reflexivity.
  - apply (Hlast m message'); [exact Hm|exact Hattempt].
Qed.

(** The second loop comes to its end when no model gives a text and no
    failure is decisive. *)
Lemma tryRest_exhausted (restModelOptions : list string) :
  (∀ m, m ∈ restModelOptions →
        restAttempt api apiKey fullPrompt m = Ok None
        ∨ ∃ message, restAttempt api apiKey fullPrompt m = Throw message
                     ∧ includes "404" message || includes "not found" message = true) →
  tryRest api apiKey fullPrompt restModelOptions
  = (Exhausted None, map Rest restModelOptions).
Proof.
  induction restModelOptions as [|b rest IH]; intros Hall; [reflexivity|].
  simpl. rewrite IH by (intros m Hm; apply Hall; apply elem_of_cons; right; exact Hm).
  destruct (Hall b ltac:(apply elem_of_cons; left; reflexivity))
    as [->|(message & -> & Hmessage)]; [reflexivity|].
  destruct (includes "404" message), (includes "not found" message);
    try discriminate; reflexivity.
Qed.

Lemma sdkAttempt_Throw (modelName message : string) :
  generateContent api apiKey modelName fullPrompt = Throw message →
  sdkAttempt api apiKey fullPrompt modelName = Throw message.
Proof. intros H. unfold sdkAttempt. rewrite H. reflexivity. Qed.

Lemma sdkAttempt_cases (modelName : string) :
  match sdkAttempt api apiKey fullPrompt modelName with
  | Ok text =>
      text ≠ ""
      ∧ ∃ raw, generateContent api apiKey modelName fullPrompt = Ok raw
               ∧ text = trim raw
  | Throw message =>
      generateContent api apiKey modelName fullPrompt = Throw message
      ∨ (message = emptyResponse
         ∧ ∃ raw, generateContent api apiKey modelName fullPrompt = Ok raw
                  ∧ trim raw = "")
  end.
Proof.
  unfold sdkAttempt.
  destruct (generateContent api apiKey modelName fullPrompt) as [raw|message];
    [|left; reflexivity].
  simpl. destruct (nonEmpty raw) eqn:Hraw; simpl.
  - destruct (trim raw) as [|c r] eqn:Htrim; simpl.
    + right. split; [reflexivity|]. exists raw. auto.
    + split; [discriminate|]. exists raw. auto.
  - right. split; [reflexivity|]. exists raw. split; [reflexivity|].
    unfold nonEmpty in Hraw. destruct (strEq raw "") eqn:Heq; [|discriminate].
    apply strEq_eq in Heq as ->. reflexivity.
Qed.

End GeminiLoops.

(** X27: the model that decides a call of [callGemini].  With an API key,
    when the SDK fails for the first models of the list with messages that
    say the model is not there ('not found', '404', 'NOT_FOUND') and for
    the next model does anything else, the call ends with that model: it
    returns the trimmed text, which is not empty, or throws the error of
    the SDK as it is, or throws 'Gemini API returned empty response' for a
    blank text.  No later model is tried and the REST endpoint is not
    called. *)
Theorem callGemini_decisive_model
    (env : AiProviders.Env) (models : ProviderCalls.Models)
    (api : ProviderCalls.GeminiApi) (prompt systemPrompt : string)
    (before after : list string) (modelName : string) :
  let apiKey := ProviderCalls.orElse (AiProviders.GEMINI_API_KEY env) "" in
  let fullPrompt := More.geminiPrompt prompt systemPrompt in
  apiKey ≠ "" →
  ProviderCalls.modelOptions models (More.geminiModels api apiKey)
  = (before ++ modelName :: after)%list →
  (∀ m, m ∈ before →
        ∃ message, ProviderCalls.generateContent api apiKey m fullPrompt = Throw message
                   ∧ More.availabilityError message = true) →
  (∀ message, ProviderCalls.generateContent api apiKey modelName fullPrompt
              = Throw message →
              More.availabilityError message = false) →
  ∃ result,
    ProviderCalls.callGemini env models api prompt systemPrompt
    = (result, ((ProviderCalls.getAvailableGeminiModels api apiKey).2
                ++ map ProviderCalls.Sdk (before ++ [modelName]))%list)
    ∧ match result with
      | Ok text =>
          text ≠ ""
          ∧ ∃ raw, ProviderCalls.generateContent api apiKey modelName fullPrompt = Ok raw
                   ∧ text = trim raw
      | Throw message =>
          ProviderCalls.generateContent api apiKey modelName fullPrompt = Throw message
          ∨ (message = ProviderCalls.emptyResponse
             ∧ ∃ raw, ProviderCalls.generateContent api apiKey modelName fullPrompt
                      = Ok raw
                      ∧ trim raw = "")
      end.
Proof.
  intros apiKey fullPrompt Hkey Hoptions Hbefore Hdecisive.
  exists (ProviderCalls.sdkAttempt api apiKey fullPrompt modelName).
  split; [|apply sdkAttempt_cases].
  unfold ProviderCalls.callGemini. fold apiKey.
  assert (nonEmpty apiKey = true) as ->.
  { unfold nonEmpty. destruct (strEq apiKey "") eqn:Heq; [|reflexivity].
    apply strEq_eq in Heq. contradiction. }
  cbn [negb]. change (if nonEmpty systemPrompt
                      then systemPrompt ++ ProviderCalls.nl ++ ProviderCalls.nl ++ prompt
                      else prompt) with fullPrompt.
  unfold More.geminiModels in Hoptions.
  destruct (ProviderCalls.getAvailableGeminiModels api apiKey) as [answer listing].
  cbn [fst snd] in *. cbv zeta. rewrite Hoptions.
  rewrite (trySdk_decisive api apiKey fullPrompt before after modelName None).
  - destruct (ProviderCalls.sdkAttempt api apiKey fullPrompt modelName); reflexivity.
  - intros m Hm. destruct (Hbefore m Hm) as (message & Hm' & Hmessage).
    exists message. split; [apply sdkAttempt_Throw; exact Hm'|exact Hmessage].
  - intros message Hattempt.
    pose proof (sdkAttempt_cases api apiKey fullPrompt modelName) as Hcases.
    rewrite Hattempt in Hcases. destruct Hcases as [Hraw|(-> & _)]; [auto|reflexivity].
Qed.

(** The first common model is not there, the second answers. *)
Lemma callGemini_decisive_model_witness :
  ProviderCalls.callGemini Samples.allKeys MoreSamples.noModels MoreSamples.gemini
    "How is revenue?" "Be brief."
  = (Ok "Revenue grows.",
     [ProviderCalls.ListModels "v1"; ProviderCalls.Sdk "gemini-1.5-flash";
      ProviderCalls.Sdk "gemini-1.5-flash-latest"])
  ∧ ∃ result,
      ProviderCalls.callGemini Samples.allKeys MoreSamples.noModels MoreSamples.gemini
        "How is revenue?" "Be brief."
      = (result,
         ((ProviderCalls.getAvailableGeminiModels MoreSamples.gemini "AIza-test").2
          ++ map ProviderCalls.Sdk (["gemini-1.5-flash"] ++ ["gemini-1.5-flash-latest"]))%list)
      ∧ match result with
        | Ok text =>
            text ≠ ""
            ∧ ∃ raw, ProviderCalls.generateContent MoreSamples.gemini "AIza-test"
                       "gemini-1.5-flash-latest"
                       (More.geminiPrompt "How is revenue?" "Be brief.") = Ok raw
                     ∧ text = trim raw
        | Throw message =>
            ProviderCalls.generateContent MoreSamples.gemini "AIza-test"
              "gemini-1.5-flash-latest"
              (More.geminiPrompt "How is revenue?" "Be brief.") = Throw message
            ∨ (message = ProviderCalls.emptyResponse
               ∧ ∃ raw, ProviderCalls.generateContent MoreSamples.gemini "AIza-test"
                          "gemini-1.5-flash-latest"
                          (More.geminiPrompt "How is revenue?" "Be brief.") = Ok raw
                        ∧ trim raw = "")
        end.
Proof.
  split; [reflexivity|].
  apply (callGemini_decisive_model Samples.allKeys MoreSamples.noModels
           MoreSamples.gemini "How is revenue?" "Be brief."
           ["gemini-1.5-flash"] ["gemini-1.5-pro"; "gemini-1.5-pro-latest";
                                 "gemini-pro"; "gemini-1.0-pro"]
           "gemini-1.5-flash-latest").
  - discriminate.
  - reflexivity.
  - intros m Hm. apply list_elem_of_singleton in Hm as ->.
    eexists. split; reflexivity.
  - intros message Hthrow. discriminate Hthrow.
Defined.

(** X28: when [callGemini] gives up.  With an API key, when the SDK fails
    for every model of the list with a message that says the model is not
    there, and the REST endpoint gives for each of its models no text or a
    failure with '404' or 'not found' in its message, the call has tried
    every model of both lists in order, and throws the final error, which
    quotes the last message of the SDK. *)
Theorem callGemini_gives_up
    (env : AiProviders.Env) (models : ProviderCalls.Models)
    (api : ProviderCalls.GeminiApi) (prompt systemPrompt : string) :
  let apiKey := ProviderCalls.orElse (AiProviders.GEMINI_API_KEY env) "" in
  let fullPrompt := More.geminiPrompt prompt systemPrompt in
  let availableModels := More.geminiModels api apiKey in
  apiKey ≠ "" →
  (∀ m, m ∈ ProviderCalls.modelOptions models availableModels →
        ∃ message, ProviderCalls.generateContent api apiKey m fullPrompt = Throw message
                   ∧ More.availabilityError message = true) →
  (∀ m, m ∈ More.geminiRestModels availableModels →
        ProviderCalls.restAttempt api apiKey fullPrompt m = Ok None
        ∨ ∃ message,
            ProviderCalls.restAttempt api apiKey fullPrompt m = Throw message
            ∧ ProviderCalls.includes "404" message
              || ProviderCalls.includes "not found" message = true) →
  ∃ lastError,
    ProviderCalls.callGemini env models api prompt systemPrompt
    = (Throw (ProviderCalls.allModelsFailed availableModels lastError),
       ((ProviderCalls.getAvailableGeminiModels api apiKey).2
        ++ map ProviderCalls.Sdk (ProviderCalls.modelOptions models availableModels)
        ++ map ProviderCalls.Rest (More.geminiRestModels availableModels))%list)
    ∧ (ProviderCalls.modelOptions models availableModels = [] → lastError = None)
    ∧ (∀ m message,
         last (ProviderCalls.modelOptions models availableModels) = Some m →
         ProviderCalls.generateContent api apiKey m fullPrompt = Throw message →
         lastError = Some message).
Proof.
  intros apiKey fullPrompt availableModels Hkey Hsdk Hrest.
  destruct (trySdk_exhausted api apiKey fullPrompt
              (ProviderCalls.modelOptions models availableModels) None)
    as (final & Hloop & Hnil & Hlast).
  { intros m Hm. destruct (Hsdk m Hm) as (message & Hm' & Hmessage).
    exists message. split; [apply sdkAttempt_Throw; exact Hm'|exact Hmessage]. }
  exists final. split; [|split; [exact Hnil|]].
  - unfold ProviderCalls.callGemini. fold apiKey.
    assert (nonEmpty apiKey = true) as ->.
    { unfold nonEmpty. destruct (strEq apiKey "") eqn:Heq; [|reflexivity].
      apply strEq_eq in Heq. contradiction. }
    cbn [negb]. change (if nonEmpty systemPrompt
                        then systemPrompt ++ ProviderCalls.nl ++ ProviderCalls.nl ++ prompt
                        else prompt) with fullPrompt.
    unfold availableModels, More.geminiModels in *.
    destruct (ProviderCalls.getAvailableGeminiModels api apiKey) as [answer listing].
    cbn [fst snd] in *. cbv zeta. rewrite Hloop.
    unfold More.geminiRestModels in Hrest |- *.
    rewrite (tryRest_exhausted api apiKey fullPrompt _ Hrest). reflexivity.
  - intros m message Hm Hthrow. apply (Hlast m message Hm).
    apply sdkAttempt_Throw. exact Hthrow.
Qed.

(** A service without any model: nine requests, then the final error. *)
Lemma callGemini_gives_up_witness :
  ∃ lastError,
    ProviderCalls.callGemini Samples.allKeys MoreSamples.noModels MoreSamples.geminiDown
      "How is revenue?" "Be brief."
    = (Throw (ProviderCalls.allModelsFailed
                (More.geminiModels MoreSamples.geminiDown "AIza-test") lastError),
       ((ProviderCalls.getAvailableGeminiModels MoreSamples.geminiDown "AIza-test").2
        ++ map ProviderCalls.Sdk
             (ProviderCalls.modelOptions MoreSamples.noModels
                (More.geminiModels MoreSamples.geminiDown "AIza-test"))
        ++ map ProviderCalls.Rest
             (More.geminiRestModels
                (More.geminiModels MoreSamples.geminiDown "AIza-test")))%list)
    ∧ (ProviderCalls.modelOptions MoreSamples.noModels
         (More.geminiModels MoreSamples.geminiDown "AIza-test") = [] →
       lastError = None)
    ∧ (∀ m message,
         last (ProviderCalls.modelOptions MoreSamples.noModels
                 (More.geminiModels MoreSamples.geminiDown "AIza-test")) = Some m →
         ProviderCalls.generateContent MoreSamples.geminiDown "AIza-test" m
           (More.geminiPrompt "How is revenue?" "Be brief.") = Throw message →
         lastError = Some message).
Proof.
  apply (callGemini_gives_up Samples.allKeys MoreSamples.noModels MoreSamples.geminiDown
           "How is revenue?" "Be brief.").
  - discriminate.
  - intros m _. eexists. split; reflexivity.
  - intros m _. left. reflexivity.
Defined.

(** X29: what [callOpenAI] asks and returns.  The request carries the
    model of [OPENAI_MODEL], or 'gpt-3.5-turbo', and the prompt as the
    last message, after the system prompt when there is one.  An error of
    the SDK is thrown on as it is.  The text returned is never empty: for
    a completion without content it is 'Unable to generate insights.'. *)
Theorem callOpenAI_answer
    (env : AiProviders.Env) (models : ProviderCalls.Models)
    (api : ProviderCalls.OpenAiApi) (prompt systemPrompt : string) :
  ∃ request,
    ProviderCalls.chat_model request
    = ProviderCalls.orElse (ProviderCalls.OPENAI_MODEL models) "gpt-3.5-turbo"
    ∧ ProviderCalls.chat_messages request
      = (if nonEmpty systemPrompt
         then [ {| ProviderCalls.role := ProviderCalls.System;
                   ProviderCalls.content := systemPrompt |};
                {| ProviderCalls.role := ProviderCalls.User;
                   ProviderCalls.content := prompt |} ]
         else [ {| ProviderCalls.role := ProviderCalls.User;
                   ProviderCalls.content := prompt |} ])
    ∧ match ProviderCalls.callOpenAI env models api prompt systemPrompt with
      | Ok text =>
          text ≠ ""
          ∧ ∃ content, api request = Ok content
                       ∧ (content = Some text
                          ∨ (text = ProviderCalls.unableToGenerate
                             ∧ (content = None ∨ content = Some "")))
      | Throw e => api request = Throw e
      end.
Proof.
  unfold ProviderCalls.callOpenAI. cbv zeta.
  exists {| ProviderCalls.chat_apiKey :=
              ProviderCalls.orElse (AiProviders.OPENAI_API_KEY env) "";
            ProviderCalls.chat_model :=
              ProviderCalls.orElse (ProviderCalls.OPENAI_MODEL models) "gpt-3.5-turbo";
            ProviderCalls.chat_messages :=
              ((if nonEmpty systemPrompt
                then [ {| ProviderCalls.role := ProviderCalls.System;
                          ProviderCalls.content := systemPrompt |} ] else [])
               ++ [ {| ProviderCalls.role := ProviderCalls.User;
                       ProviderCalls.content := prompt |} ])%list |}.
  split; [reflexivity|]. split.
  { cbn [ProviderCalls.chat_messages]. destruct (nonEmpty systemPrompt); reflexivity. }
  match goal with |- context [api ?r] => destruct (api r) as [[text|]|e] end; simpl.
  - unfold nonEmpty. destruct (strEq text "") eqn:Heq; simpl.
    + apply strEq_eq in Heq as ->. split; [discriminate|].
      eexists. split; [reflexivity|]. right. auto.
    + split; [intros ->; discriminate|]. eexists. split; [reflexivity|]. left. reflexivity.
  - split; [discriminate|]. eexists. split; [reflexivity|]. right. auto.
  - reflexivity.
Qed.

Section Includes.
Import ProviderCalls.

Lemma startsWith_app (needle rest : string) : startsWith needle (needle ++ rest) = true.
Proof.
  induction needle as [|c needle IH]; [reflexivity|].
  rewrite str_app_cons. simpl. rewrite Ascii.eqb_refl. exact IH.
Qed.

Lemma includes_here (needle rest : string) : includes needle (needle ++ rest) = true.
Proof.
  destruct (needle ++ rest) eqn:Hs; simpl; rewrite <- Hs, startsWith_app; reflexivity.
Qed.

Lemma includes_later (needle before s : string) :
  includes needle s = true → includes needle (before ++ s) = true.
Proof.
  intros Hs. induction before as [|c before IH]; [exact Hs|].
  rewrite str_app_cons. simpl. rewrite IH. apply orb_true_r.
Qed.

Lemma includes_self (needle : string) : includes needle needle = true.
Proof. rewrite <- (str_app_nil needle) at 2. apply includes_here. Qed.

End Includes.

Section HuggingFace.
Import ProviderCalls.

(** The error for an answer that is not ok names the model, unless the
    body of the answer is [null]. *)
Lemma hfFailure_names_model (model : string) (response : HfResponse) :
  hf_errorNull response = false →
  includes model (hfFailure model response) = true.
Proof.
  intros Hbody. unfold hfFailure. rewrite Hbody. cbv zeta.
  destruct ((hf_status response =? 503) && _); [|destruct (hf_status response =? 404)].
  - apply includes_later, includes_later, includes_here.
  - apply includes_later, includes_later, includes_here.
  - do 5 apply includes_later. apply includes_self.
Qed.

End HuggingFace.

(** X30: the request and the errors of [callHuggingFace].  Without an API
    key the call throws and sends nothing.  With one it sends one request:
    to the model of [HUGGINGFACE_MODEL], or 'gpt2', with the key, and as
    input the prompt alone for a classification model, and for any other
    model the prompt after the system prompt when there is one.  An error
    of the request is thrown on; an answer that is not ok always makes the
    call throw: the TypeError of reading a property of [null] when the
    body of the answer is the JSON value [null], and otherwise an error
    that names the model; a text is returned only for an answer that is
    ok. *)
Theorem callHuggingFace_request
    (rt : Runtime) (env : AiProviders.Env) (models : ProviderCalls.Models)
    (api : ProviderCalls.HfApi) (prompt systemPrompt : string) :
  let apiKey := ProviderCalls.orElse (AiProviders.HUGGINGFACE_API_KEY env) "" in
  let model := ProviderCalls.orElse (ProviderCalls.HUGGINGFACE_MODEL models) "gpt2" in
  (apiKey = "" →
   ProviderCalls.callHuggingFace rt env models api prompt systemPrompt
   = (Throw ProviderCalls.hfKeyMissing, []))
  ∧ (apiKey ≠ "" →
     ∃ request result,
       ProviderCalls.callHuggingFace rt env models api prompt systemPrompt
       = (result, [request])
       ∧ ProviderCalls.hf_model request = model
       ∧ ProviderCalls.hf_apiKey request = apiKey
       ∧ match ProviderCalls.hf_payload request with
         | ProviderCalls.Classification =>
             ProviderCalls.hf_inputs request = prompt
         | ProviderCalls.Generation =>
             ProviderCalls.hf_inputs request
             = if nonEmpty systemPrompt
               then systemPrompt ++ ProviderCalls.nl ++ ProviderCalls.nl
                    ++ "User Question: " ++ prompt ++ ProviderCalls.nl ++ ProviderCalls.nl
                    ++ "Assistant Response:"
               else prompt
         end
       ∧ (∀ e, api request = Throw e → result = Throw e)
       ∧ (∀ response, api request = Ok response →
            ProviderCalls.hf_ok response = false →
            ∃ e, result = Throw e
                 ∧ (ProviderCalls.hf_errorNull response = true →
                    e = "Cannot read properties of null (reading 'error')")
                 ∧ (ProviderCalls.hf_errorNull response = false →
                    ProviderCalls.includes model e = true))
       ∧ (∀ response text, api request = Ok response → result = Ok text →
            ProviderCalls.hf_ok response = true
            ∧ ∃ data, ProviderCalls.hf_data response = Ok data
                      ∧ ProviderCalls.hfText rt data (ProviderCalls.hf_json response)
                        = Ok text)).
Proof.
  intros apiKey model. unfold ProviderCalls.callHuggingFace. fold apiKey. fold model.
  split.
  { intros ->. reflexivity. }
  intros Hkey.
  assert (nonEmpty apiKey = true) as ->.
  { unfold nonEmpty. destruct (strEq apiKey "") eqn:Heq; [|reflexivity].
    apply strEq_eq in Heq. contradiction. }
  cbn [negb]. cbv zeta.
  eexists _, _. split; [reflexivity|].
  destruct (ProviderCalls.includes "bart-large-mnli" model
            || ProviderCalls.includes "roberta" model);
    cbn [ProviderCalls.hf_model ProviderCalls.hf_apiKey ProviderCalls.hf_inputs
         ProviderCalls.hf_payload];
    (split; [reflexivity|]; split; [reflexivity|]; split; [reflexivity|];
     split; [intros e ->; reflexivity|]; split;
     [intros response -> Hok; simpl; rewrite Hok; simpl; eexists;
      split; [reflexivity|]; split;
      [intros Hbody; unfold ProviderCalls.hfFailure; rewrite Hbody; reflexivity
      |apply hfFailure_names_model]
     |intros response text -> Hresult; simpl in Hresult;
      destruct (ProviderCalls.hf_ok response); simpl in Hresult; [|discriminate];
      split; [reflexivity|];
      destruct (ProviderCalls.hf_data response) as [data|]; simpl in Hresult;
      [|discriminate]; exists data; auto]).
Qed.

(* ===================================================================== *)
(** * Number columns of whole numbers *)
(* ===================================================================== *)

Section WholeNumbers.
Import DataAnalyzer.





End WholeNumbers.


